(** * Ontology Python SDK: wallet, address codec and RPC client

    A shallow embedding of the parts of the SDK that its specification
    talks about:

    - [ontology/wallet/control.py]        (module [Control])
    - [ontology/wallet/wallet_manager.py] (module [WalletManager])
    - [ontology/rpc/rpc_client.py]        (module [RpcClient])
    - [tests/test_address.py]             (module [Address])

    Python objects are records, attribute assignment is a function
    returning the updated object, [raise] is the [Raise] constructor of
    [result], and objects that the code shares by reference live in an
    explicit store.

    The definitions (the embedding) come first, then the lemmas and
    theorems about them. *)

From Stdlib Require Import ZArith NArith Lia List Ascii String Bool.
From Stdlib Require Import Strings.Byte.
From stdpp Require Import base option list strings gmap fin_maps.

Set Warnings "-register-all".
Local Open Scope Z_scope.
Local Open Scope string_scope.

(** * Part I: definitions *)

(** ** Python values and exceptions *)

(** The values a dynamically typed argument, or a parsed JSON document,
    may carry.  [str] is modelled by [string] (characters in the Latin-1
    range), [bytes] by [list byte], a [dict] with [str] keys by
    [gmap string]. *)
Inductive pyval :=
| PyNone
| PyBool (b : bool)
| PyInt (z : Z)
| PyStr (s : string)
| PyBytes (b : list byte)
| PyList (l : list pyval)
| PyDict (d : gmap string pyval).

Definition isinstance_str (v : pyval) : bool :=
  match v with PyStr _ => true | _ => false end.

(** [dict.get(key, default)]. *)
Definition dict_get (d : gmap string pyval) (k : string) (dflt : pyval) : pyval :=
  default dflt (d !! k).

(** [ontology.exception.error_code.ErrorCode]: the members the modelled
    code refers to. *)
Inductive ErrorCode :=
| require_str_params
| param_error
| get_default_account_err
| other_error (msg : string)
| param_err (msg : string)
| invalid_ont_id_format (ont_id : string).

(** Exceptions.  [SDKException] is the SDK's own; [KeyError] to
    [BinasciiError] are Python's ([OSError] stands for the subclasses
    of [OSError] other than [FileNotFoundError]); [AuthenticationError]
    and [FormatError] are the error kinds of the specification, raised
    by the operations modelled from it.
    [DanglingReference] is no Python exception: it marks a reference of
    the model's store that points to no object, which no state built by
    the modelled operations has. *)
Inductive exn :=
| SDKException (code : ErrorCode)
| KeyError (key : string)
| AttributeError
| FileNotFoundError
| OSError
| TypeError
| ValueError
| UnicodeError
| BinasciiError
| AuthenticationError
| FormatError
| DanglingReference.

Inductive result (A : Type) :=
| Ok (a : A)
| Raise (e : exn).
Arguments Ok {A} a.
Arguments Raise {A} e.

(** [result] is an error monad; [x ← c; k] runs [k] unless [c] raised. *)
#[global] Instance result_ret : MRet result := fun A a => Ok a.

#[global] Instance result_bind : MBind result := fun A B k r =>
  match r with
  | Ok a => k a
  | Raise e => Raise e
  end.

Definition is_ok {A} (r : result A) : bool :=
  match r with Ok _ => true | Raise _ => false end.

(** ** Bytes and text *)

Definition byte_of_N (n : N) : byte :=
  default x00 (Byte.of_N (n mod 256)%N).

(** [str.encode('latin-1')] and [bytes.decode('latin-1')]: the
    characters of [string] are the 256 Latin-1 code points, so both are
    total here. *)
Definition encode_latin1 (s : string) : list byte := list_byte_of_string s.
Definition decode_latin1 (b : list byte) : string := string_of_list_byte b.

Definition is_ascii (b : list byte) : bool :=
  forallb (fun c => (Byte.to_N c <? 128)%N) b.

(** [str.encode('ascii')] and [bytes.decode('ascii')]. *)
Definition encode_ascii (s : string) : result (list byte) :=
  let b := list_byte_of_string s in
  if is_ascii b then Ok b else Raise UnicodeError.

Definition decode_ascii (b : list byte) : result string :=
  if is_ascii b then Ok (string_of_list_byte b) else Raise UnicodeError.

Fixpoint index_of (c : byte) (l : list byte) : option N :=
  match l with
  | [] => None
  | x :: l' => if Byte.eqb c x then Some 0%N else N.succ <$> index_of c l'
  end.

(** [bytes.hex()]: two lowercase hexadecimal digits per byte. *)
Definition hex_digits : list byte := list_byte_of_string "0123456789abcdef".

Definition hex_digit (n : N) : byte := nth (N.to_nat n) hex_digits x00.

Fixpoint bytes_hex (b : list byte) : list byte :=
  match b with
  | [] => []
  | c :: b' =>
      hex_digit (N.shiftr (Byte.to_N c) 4)
        :: hex_digit (N.land (Byte.to_N c) 15) :: bytes_hex b'
  end.

Definition hex (b : list byte) : string := string_of_list_byte (bytes_hex b).

(** ** base64 *)

(** [base64.b64encode] and [base64.b64decode] of the Python standard
    library, on [bytes].  The decoder is the non-strict one of
    [binascii.a2b_base64]: it skips characters outside the alphabet,
    stops at a complete pad sequence and raises on a dangling quad. *)
Module Base64.

Definition alphabet : list byte :=
  list_byte_of_string
    "ABCDEFGHIJKLMNOPQRSTUVWXYZabcdefghijklmnopqrstuvwxyz0123456789+/".

Definition PAD : byte := "="%byte.

Definition table_b2a (n : N) : byte := nth (N.to_nat n) alphabet PAD.

Definition table_a2b (c : byte) : option N := index_of c alphabet.

Fixpoint b64encode (s : list byte) : list byte :=
  match s with
  | [] => []
  | [a] =>
      let a := Byte.to_N a in
      [table_b2a (N.shiftr a 2); table_b2a (N.shiftl (N.land a 3) 4); PAD; PAD]
  | [a; b] =>
      let a := Byte.to_N a in
      let b := Byte.to_N b in
      [table_b2a (N.shiftr a 2);
       table_b2a (N.lor (N.shiftl (N.land a 3) 4) (N.shiftr b 4));
       table_b2a (N.shiftl (N.land b 15) 2); PAD]
  | a :: b :: c :: rest =>
      let a := Byte.to_N a in
      let b := Byte.to_N b in
      let c := Byte.to_N c in
      table_b2a (N.shiftr a 2)
        :: table_b2a (N.lor (N.shiftl (N.land a 3) 4) (N.shiftr b 4))
        :: table_b2a (N.lor (N.shiftl (N.land b 15) 2) (N.shiftr c 6))
        :: table_b2a (N.land c 63)
        :: b64encode rest
  end.

(** The decoder's loop, with its state: the position in the current
    quad, the bits left over from the previous character and the number
    of pad characters seen since the last data character. *)
Fixpoint a2b_base64 (quad_pos : nat) (leftchar pads : N) (s : list byte)
  : result (list byte) :=
  match s with
  | [] =>
      match quad_pos with
      | O => Ok []
      | _ => Raise BinasciiError
      end
  | ch :: s' =>
      if Byte.eqb ch PAD then
        if (2 <=? quad_pos)%nat then
          if (4 <=? N.of_nat quad_pos + (pads + 1))%N then Ok []
          else a2b_base64 quad_pos leftchar (pads + 1)%N s'
        else a2b_base64 quad_pos leftchar pads s'
      else
        match table_a2b ch with
        | None => a2b_base64 quad_pos leftchar pads s'
        | Some this_ch =>
            match quad_pos with
            | 0%nat => a2b_base64 1 this_ch 0%N s'
            | 1%nat =>
                out ← a2b_base64 2 (N.land this_ch 15) 0%N s';
                Ok (byte_of_N (N.lor (N.shiftl leftchar 2) (N.shiftr this_ch 4)) :: out)
            | 2%nat =>
                out ← a2b_base64 3 (N.land this_ch 3) 0%N s';
                Ok (byte_of_N (N.lor (N.shiftl leftchar 4) (N.shiftr this_ch 2)) :: out)
            | _ =>
                out ← a2b_base64 0 0%N 0%N s';
                Ok (byte_of_N (N.lor (N.shiftl leftchar 6) this_ch) :: out)
            end
        end
  end.

Definition b64decode (s : list byte) : result (list byte) :=
  a2b_base64 0 0%N 0%N s.

End Base64.

(** ** base58 *)

(** Base-58 text of a byte string: the bytes read as a big-endian
    number written in base 58, each leading zero byte kept as a leading
    ['1']. *)
Module Base58.

Definition alphabet : list byte :=
  list_byte_of_string
    "123456789ABCDEFGHJKLMNPQRSTUVWXYZabcdefghijkmnopqrstuvwxyz".

Definition b58_char (n : N) : byte := nth (N.to_nat n) alphabet x00.

(** The digits of [i] in [base], most significant first, pushed in front
    of [acc]: the loop [while i: i, idx = divmod(i, base)].  Every turn
    at least halves [i], so its bit length bounds the number of turns. *)
Fixpoint to_digits (base : N) (fuel : nat) (i : N) (acc : list N) : list N :=
  match fuel with
  | O => acc
  | S fuel' =>
      if (i =? 0)%N then acc
      else to_digits base fuel' (i / base)%N ((i mod base)%N :: acc)
  end.

Definition digits (base i : N) : list N := to_digits base (N.size_nat i) i [].

Definition of_digits (base : N) (ds : list N) : N :=
  fold_left (fun acc d => (acc * base + d)%N) ds 0%N.

Fixpoint lstrip (c : byte) (v : list byte) : list byte :=
  match v with
  | [] => []
  | x :: v' => if Byte.eqb x c then lstrip c v' else v
  end.

Definition b58encode_int (i : N) : list byte := map b58_char (digits 58 i).

Definition b58encode (v : list byte) : list byte :=
  let stripped := lstrip x00 v in
  let nPad := (length v - length stripped)%nat in
  let acc := of_digits 256 (map Byte.to_N stripped) in
  (replicate nPad (b58_char 0) ++ b58encode_int acc)%list.

(** [alphabet.index(char)] for every character; [ValueError] when a
    character is not in the alphabet. *)
Fixpoint b58_indices (v : list byte) : result (list N) :=
  match v with
  | [] => Ok []
  | c :: v' =>
      match index_of c alphabet with
      | None => Raise ValueError
      | Some d => ds ← b58_indices v'; Ok (d :: ds)
      end
  end.

Definition b58decode_int (v : list byte) : result N :=
  ds ← b58_indices v; Ok (of_digits 58 ds).

Definition b58decode (v : list byte) : result (list byte) :=
  let stripped := lstrip (b58_char 0) v in
  let nPad := (length v - length stripped)%nat in
  acc ← b58decode_int stripped;
  Ok (replicate nPad x00 ++ map byte_of_N (digits 256 acc))%list.

End Base58.

(** ** control.py *)

Module Control.

(** The attributes set by [Control.__init__]. *)
Record t := mk {
  address : string;
  algorithm : string;
  enc_alg : string;
  hash : string;
  kid : string;
  key_ : string;
  parameters : gmap string string;
  salt_ : string;
  public_key_ : string
}.

(** [__init__(kid='', address='', enc_alg="aes-256-gcm", key='',
    algorithm='ECDSA', salt="", param=None, hash_value="sha256",
    public_key="")]; a call that leaves [param] out passes [None]. *)
Definition init (kid address enc_alg key algorithm salt : string)
    (param : option (gmap string string)) (hash_value public_key : string) : t :=
  let param := match param with
               | None => {[ "curve" := "P-256" ]}
               | Some p => p
               end in
  {| address := address; algorithm := algorithm; enc_alg := enc_alg;
     hash := hash_value; kid := kid; key_ := key; parameters := param;
     salt_ := salt; public_key_ := public_key |}.

(** The call [Control(kid=.., key=.., salt=.., address=.., public_key=..)]
    of wallet_manager.py, every other argument at its default. *)
Definition init_kw (kid key salt address public_key : string) : t :=
  init kid address "aes-256-gcm" key "ECDSA" salt None "sha256" public_key.

(** The properties and their setters.  A setter returns the object
    after the assignment, or the exception it raised (the object is
    then as it was). *)
Definition key (c : t) : string := key_ c.

Definition set_key (c : t) (v : pyval) : result t :=
  match v with
  | PyStr s =>
      Ok {| address := address c; algorithm := algorithm c; enc_alg := enc_alg c;
            hash := hash c; kid := kid c; key_ := s; parameters := parameters c;
            salt_ := salt_ c; public_key_ := public_key_ c |}
  | _ => Raise (SDKException require_str_params)
  end.

Definition b58_address (c : t) : string := address c.

(** The setter of [b58_address] is the type check alone: its body has
    no assignment. *)
Definition set_b58_address (c : t) (v : pyval) : result t :=
  if isinstance_str v then Ok c
  else Raise (SDKException require_str_params).

Definition public_key (c : t) : string := public_key_ c.

Definition set_public_key (c : t) (v : pyval) : result t :=
  match v with
  | PyStr s =>
      Ok {| address := address c; algorithm := algorithm c; enc_alg := enc_alg c;
            hash := hash c; kid := kid c; key_ := key_ c; parameters := parameters c;
            salt_ := salt_ c; public_key_ := s |}
  | _ => Raise (SDKException (other_error "Invalid public key."))
  end.

Definition salt (c : t) : string := salt_ c.

Definition set_salt (c : t) (v : pyval) : result t :=
  match v with
  | PyStr s =>
      Ok {| address := address c; algorithm := algorithm c; enc_alg := enc_alg c;
            hash := hash c; kid := kid c; key_ := key_ c; parameters := parameters c;
            salt_ := s; public_key_ := public_key_ c |}
  | _ => Raise (SDKException require_str_params)
  end.

(** [__iter__]: the [(key, value)] pairs, in the order the dict was
    filled. *)
Definition iter (c : t) : list (string * pyval) :=
  [ ("address", PyStr (address c));
    ("algorithm", PyStr (algorithm c));
    ("enc-alg", PyStr (enc_alg c));
    ("hash", PyStr (hash c));
    ("id", PyStr (kid c));
    ("key", PyStr (key c));
    ("parameters", PyDict (PyStr <$> parameters c));
    ("salt", PyStr (salt_ c));
    ("publicKey", PyStr (public_key_ c)) ].

End Control.

(** ** Primitives and constants taken from outside *)

(** The hash functions ([hashlib]) behind addresses and transaction
    digests. *)
Class Hashes := {
  sha256 : list byte -> list byte;
  ripemd160 : list byte -> list byte
}.

(** What the code relies on: the digest lengths. *)
Class HashesSpec `{Hashes} : Prop := {
  sha256_length : forall m, length (sha256 m) = 32%nat;
  ripemd160_length : forall m, length (ripemd160 m) = 20%nat
}.

(** The key-stretching function and the authenticated cipher behind the
    wrapping of private keys: [scrypt_kd password salt n r p dk_len],
    the nonce of an address, and encryption and decryption under a key,
    a nonce and associated data (decryption answers [None] when the tag
    check fails). *)
Class KeyCipher := {
  scrypt_kd : string -> string -> Z -> Z -> Z -> Z -> list byte;
  gcm_nonce : string -> list byte;
  gcm_encrypt : list byte -> list byte -> list byte -> list byte -> list byte;
  gcm_decrypt : list byte -> list byte -> list byte -> list byte -> option (list byte)
}.

(** The cipher's functional contract: decryption under the key, nonce
    and associated data of the encryption gives the plaintext back. *)
Class KeyCipherCorrect `{KeyCipher} : Prop := {
  gcm_decrypt_encrypt : forall key nonce aad m,
    gcm_decrypt key nonce aad (gcm_encrypt key nonce aad m) = Some m
}.

(** The elliptic curve: the public key of a private key, and a
    signature of a digest under a private key ([rnd] is the signer's
    randomness). *)
Class Curve := {
  ec_public_key : list byte -> list byte;
  ec_sign : list byte -> list byte -> list byte -> list byte
}.

(** Constants of [ontology.common.define] and of the address module. *)
Class Constants := {
  ADDR_VERSION : byte;
  DID_ONT : string
}.

(** [ontology.crypto.signature_scheme.SignatureScheme]: the member the
    code names, and the others. *)
Inductive SignatureScheme :=
| SHA256withECDSA
| other_scheme (name : string).

Definition is_SHA256withECDSA (s : SignatureScheme) : bool :=
  match s with SHA256withECDSA => true | other_scheme _ => false end.

Fixpoint bytes_eqb (a b : list byte) : bool :=
  match a, b with
  | [], [] => true
  | x :: a', y :: b' => Byte.eqb x y && bytes_eqb a' b'
  | _, _ => false
  end.

(** ** The address codec *)

Module Address.

(** [Address(script_hash)]. *)
Record t := mk { script_hash : list byte }.

Definition to_bytes (a : t) : list byte := script_hash a.

Section codec.
Context `{Hashes} `{Constants}.

(** Modelled from the spec: [Address.address_from_bytes_pubkey] is not
    in the sources.  A fixed two-stage hash of the public key bytes,
    truncated to 20 bytes. *)
Definition address_from_bytes_pubkey (pubkey : list byte) : t :=
  mk (take 20 (ripemd160 (sha256 pubkey))).

(** Modelled from the spec: the checksum of the versioned payload is
    the first 4 bytes of its double hash. *)
Definition checksum (data : list byte) : list byte :=
  take 4 (sha256 (sha256 data)).

(** Modelled from the spec: [Address.b58encode] is not in the sources.
    It prepends the version byte, appends the 4-byte checksum and
    writes the whole in base 58; a hash that is not 20 bytes long is
    rejected. *)
Definition b58encode (a : t) : result string :=
  if (length (script_hash a) =? 20)%nat then
    let data := ADDR_VERSION :: script_hash a in
    Ok (string_of_list_byte (Base58.b58encode (data ++ checksum data)%list))
  else Raise FormatError.

(** Modelled from the spec: [Address.b58decode] is not in the sources.
    It reverses the encoding and fails with [FormatError] when the text
    is not base 58, when the decoded length is not 1 + 20 + 4 bytes or
    when the checksum does not match. *)
Definition b58decode (text : string) : result t :=
  match Base58.b58decode (list_byte_of_string text) with
  | Raise _ => Raise FormatError
  | Ok data =>
      if (length data =? 25)%nat then
        let body := take 21 data in
        if bytes_eqb (drop 21 data) (checksum body)
        then Ok (mk (drop 1 body))
        else Raise FormatError
      else Raise FormatError
  end.

End codec.
End Address.

(** ** Accounts and the wrapping of private keys *)

Module Account.

(** [Account(private_key, scheme)].  wallet_manager.py hands the key
    around as text; the record keeps the bytes it stands for. *)
Record t := mk { private_key : list byte; scheme : SignatureScheme }.

Definition init (private_key : list byte) (scheme : SignatureScheme) : t :=
  mk private_key scheme.

Section account.
Context `{Hashes} `{Constants} `{KeyCipher} `{Curve}.

Definition get_private_key_hex (a : t) : string := hex (private_key a).

Definition get_public_key_bytes (a : t) : list byte :=
  ec_public_key (private_key a).

Definition get_public_key_hex (a : t) : string := hex (get_public_key_bytes a).

Definition get_address (a : t) : Address.t :=
  Address.address_from_bytes_pubkey (get_public_key_bytes a).

Definition get_address_base58 (a : t) : result string :=
  Address.b58encode (get_address a).

(** The cost parameter arrives as whatever [Scrypt().n] holds. *)
Definition as_int (v : pyval) : result Z :=
  match v with
  | PyInt z => Ok z
  | _ => Raise TypeError
  end.

(** Modelled from the spec: [Account.export_gcm_encrypted_private_key]
    is not in the sources.  The key is derived from the password and
    the salt by the stretching function with [(n, r, p, dkLen)], [r],
    [p] and [dkLen] at their defaults 8, 8 and 64; the nonce comes from
    the address; the raw key is encrypted with the address bound as
    associated data; the result is the base64 text of the ciphertext. *)
Definition export_gcm_encrypted_private_key (a : t) (password salt : string)
    (n : pyval) : result string :=
  n ← as_int n;
  addr ← get_address_base58 a;
  let dk := scrypt_kd password salt n 8 8 64 in
  let ct := gcm_encrypt dk (gcm_nonce addr) (list_byte_of_string addr) (private_key a) in
  decode_ascii (Base64.b64encode ct).

(** Modelled from the spec: [Account.get_gcm_decoded_private_key] is
    not in the sources.  It derives the same key and nonce and
    decrypts; a failed tag check is an [AuthenticationError], and no
    bytes are returned then. *)
Definition get_gcm_decoded_private_key (encrypted_key_str password b58_address salt : string)
    (n : pyval) (scheme : SignatureScheme) : result (list byte) :=
  n ← as_int n;
  enc ← encode_ascii encrypted_key_str;
  ct ← Base64.b64decode enc;
  let dk := scrypt_kd password salt n 8 8 64 in
  match gcm_decrypt dk (gcm_nonce b58_address) (list_byte_of_string b58_address) ct with
  | Some k => Ok k
  | None => Raise AuthenticationError
  end.

End account.
End Account.

(** ** The wallet's records *)

Module Scrypt.

(** [Scrypt(n, r, p, dk_len)] keeps what it is given. *)
Record t := mk { n : pyval; r : pyval; p : pyval; dk_len : pyval }.

(** Modelled from the spec: the class [Scrypt] is not in the sources.
    [Scrypt()] has the default cost parameters n=16384, r=8, p=8 and
    derived key length 64. *)
Definition default : t := mk (PyInt 16384) (PyInt 8) (PyInt 8) (PyInt 64).

End Scrypt.

Module AccountData.

(** The attributes of [ontology.wallet.account.AccountData] that
    wallet_manager.py reads or writes. *)
Record t := mk {
  b58_address : string;
  key : string;
  label : string;
  salt : string;
  public_key : string;
  is_default : bool
}.

Definition set_key (v : string) (a : t) : t :=
  mk (b58_address a) v (label a) (salt a) (public_key a) (is_default a).
Definition set_b58_address (v : string) (a : t) : t :=
  mk v (key a) (label a) (salt a) (public_key a) (is_default a).
Definition set_label (v : string) (a : t) : t :=
  mk (b58_address a) (key a) v (salt a) (public_key a) (is_default a).
Definition set_salt (v : string) (a : t) : t :=
  mk (b58_address a) (key a) (label a) v (public_key a) (is_default a).
Definition set_public_key (v : string) (a : t) : t :=
  mk (b58_address a) (key a) (label a) (salt a) v (is_default a).
Definition set_is_default (v : bool) (a : t) : t :=
  mk (b58_address a) (key a) (label a) (salt a) (public_key a) v.

End AccountData.

Module Identity.

(** The attributes of [ontology.wallet.identity.Identity] that
    wallet_manager.py reads or writes. *)
Record t := mk {
  ont_id : string;
  label : string;
  is_default : bool;
  controls : list Control.t
}.

Definition set_ont_id (v : string) (i : t) : t :=
  mk v (label i) (is_default i) (controls i).
Definition set_label (v : string) (i : t) : t :=
  mk (ont_id i) v (is_default i) (controls i).
Definition set_is_default (v : bool) (i : t) : t :=
  mk (ont_id i) (label i) v (controls i).

(** [idt.controls.append(ctl)]. *)
Definition controls_append (c : Control.t) (i : t) : t :=
  mk (ont_id i) (label i) (is_default i) (controls i ++ [c]).

End Identity.

Module WalletData.

(** A [WalletData] object with everything it reaches, as a value. *)
Record t := mk {
  name : pyval;
  version : pyval;
  create_time : pyval;
  default_ont_id : pyval;
  default_account_address : pyval;
  scrypt : Scrypt.t;
  identities : list Identity.t;
  accounts : list AccountData.t
}.

End WalletData.

Module AccountInfo.

(** [ontology.wallet.account_info.AccountInfo], filled by
    [create_account_info]. *)
Record t := mk {
  address_base58 : string;
  public_key : string;
  encrypted_pri_key : string;
  address_u160 : string;
  salt : string
}.

End AccountInfo.

(** What wallet_manager.py takes from classes and functions that are
    not in the sources:
    - the objects [AccountData()], [Identity()] and [WalletData()]
      start as;
    - [lists_of_json identities accounts]: what [WalletData.__init__]
      makes of the [identities] and [accounts] entries of a wallet
      file, or the exception it raises on entries it cannot read (a
      [KeyError] for a record that lacks a key);
    - the two look-ups of [WalletData];
    - what [json.dump] writes for a wallet;
    - whether [open(path, 'w')] succeeds, and, when it does not,
      whether it fails with [FileNotFoundError] (a directory of the
      path is missing) rather than with another [OSError] (the path is
      a directory, or may not be written);
    - [Account_raises private_key scheme]: the exception that
      [Account(private_key, scheme)] raises under a scheme other than
      SHA256withECDSA, if it raises one. *)
Class WalletClasses := {
  AccountData_new : AccountData.t;
  Identity_new : Identity.t;
  WalletData_new : WalletData.t;
  lists_of_json : pyval -> pyval -> result (list Identity.t * list AccountData.t);
  WalletData_get_account_by_b58_address :
    WalletData.t -> string -> result AccountData.t;
  WalletData_get_identity_by_ont_id :
    WalletData.t -> string -> result Identity.t;
  wallet_to_json : WalletData.t -> pyval;
  can_open_for_writing : string -> bool;
  no_such_directory : string -> bool;
  Account_raises : list byte -> SignatureScheme -> option exn
}.

(** [Account(private_key, scheme)] as wallet_manager.py calls it.  Under
    SHA256withECDSA, the scheme its methods go on with, the constructor
    is taken to return the account; under another scheme it may raise
    before the caller has looked at the scheme. *)
Definition new_Account `{WalletClasses} (private_key : list byte)
    (scheme : SignatureScheme) : result Account.t :=
  match scheme with
  | SHA256withECDSA => Ok (Account.init private_key scheme)
  | other_scheme _ =>
      match Account_raises private_key scheme with
      | Some e => Raise e
      | None => Ok (Account.init private_key scheme)
      end
  end.

(** [str.encode()], UTF-8, on Latin-1 text: one byte below 128, two
    bytes from there on. *)
Definition encode_utf8 (s : string) : list byte :=
  flat_map (fun c =>
    let n := Byte.to_N c in
    if (n <? 128)%N then [c]
    else [byte_of_N (N.lor 192 (N.shiftr n 6)); byte_of_N (N.lor 128 (N.land n 63))])
  (list_byte_of_string s).

(** [base64.b64encode(b).decode('ascii')]. *)
Definition b64encode_str (b : list byte) : result string :=
  decode_ascii (Base64.b64encode b).

(** ** More of Python *)

(** Exceptions that the look-ups of the wallet manager and
    [get_storage] can raise beside those of [exn]. *)
Inductive exn_more :=
| Listed (e : exn)
| IndexError
| NameError (name : string).

(** The outcome of a call that leaves the state as it is. *)
Inductive outcome (A : Type) :=
| Returns (a : A)
| Raises (e : exn_more).
Arguments Returns {A} a.
Arguments Raises {A} e.

Definition outcome_of {A} (r : result A) : outcome A :=
  match r with
  | Ok a => Returns a
  | Raise e => Raises (Listed e)
  end.

(** [l[i]]: a negative index counts from the end; out of range there
    is no item ([IndexError]). *)
Definition list_item {A} (l : list A) (i : Z) : option A :=
  let n := Z.of_nat (length l) in
  if (0 <=? i)%Z then l !! Z.to_nat i
  else if (- n <=? i)%Z then l !! Z.to_nat (n + i)
  else None.

(** [s.replace(old, new)] for a non-empty [old]: the occurrences of
    [old] are replaced from left to right, without overlap.  [skip]
    counts the characters of an occurrence that are still to be
    dropped. *)
Fixpoint replace_from (old new : string) (skip : nat) (s : string) : string :=
  match s with
  | EmptyString => EmptyString
  | String c s' =>
      match skip with
      | S skip' => replace_from old new skip' s'
      | O =>
          if String.prefix old s
          then new +:+ replace_from old new (String.length old - 1) s'
          else String c (replace_from old new 0 s')
      end
  end.

(** [s.replace(old, '')].  With an empty [old] Python puts the new text
    between all characters, which for an empty new text gives [s]. *)
Definition str_remove (old s : string) : string :=
  if String.eqb old "" then s else replace_from old "" 0 s.

(** [base64.b64decode(s)] on a [str]: characters outside ASCII are a
    [ValueError]. *)
Definition b64decode_str (s : string) : result (list byte) :=
  match encode_ascii s with
  | Ok b => Base64.b64decode b
  | Raise _ => Raise ValueError
  end.

(** The value of a hexadecimal digit, in either case. *)
Definition hex_value (c : byte) : option N :=
  let n := Byte.to_N c in
  if (48 <=? n)%N && (n <=? 57)%N then Some (n - 48)%N
  else if (97 <=? n)%N && (n <=? 102)%N then Some (n - 87)%N
  else if (65 <=? n)%N && (n <=? 70)%N then Some (n - 55)%N
  else None.

(** ASCII white space: space, and the characters 9 to 13. *)
Definition is_space (c : byte) : bool :=
  let n := Byte.to_N c in
  (n =? 32)%N || ((9 <=? n)%N && (n <=? 13)%N).

(** [bytearray.fromhex(s)] (Python 3.7 and later): two hexadecimal
    digits per byte, white space allowed before a byte and at the end,
    anything else a [ValueError]. *)
Fixpoint fromhex_bytes (s : list byte) : result (list byte) :=
  match s with
  | [] => Ok []
  | c :: s' =>
      if is_space c then fromhex_bytes s'
      else
        match hex_value c, s' with
        | Some top, d :: s'' =>
            match hex_value d with
            | Some bot =>
                rest ← fromhex_bytes s'';
                Ok (byte_of_N (top * 16 + bot) :: rest)
            | None => Raise ValueError
            end
        | _, _ => Raise ValueError
        end
  end.

Definition fromhex (s : string) : result (list byte) :=
  fromhex_bytes (list_byte_of_string s).

(** ** wallet_manager.py *)

Module WalletManager.

(** *** The store *)

(** [wallet_file] and [wallet_in_mem] are references: after
    [write_wallet] they are one object.  A [WalletData] object holds its
    two lists by reference as well, so that a copy of the object alone
    would still share them; [copy.deepcopy] copies the lists too. *)
Definition loc := positive.

Record WalletObj := mkObj {
  o_name : pyval;
  o_version : pyval;
  o_create_time : pyval;
  o_default_ont_id : pyval;
  o_default_account_address : pyval;
  o_scrypt : Scrypt.t;
  o_identities : loc;
  o_accounts : loc
}.

Inductive obj :=
| OWallet (w : WalletObj)
| OIdentities (l : list Identity.t)
| OAccounts (l : list AccountData.t).

(** The state: the objects, the wallet files by path (each the JSON
    document it holds), and the attributes of the manager [self]. *)
Record world := mkWorld {
  heap : gmap loc obj;
  files : gmap string pyval;
  scheme : SignatureScheme;
  wallet_file : loc;
  wallet_in_mem : loc;
  wallet_path : string
}.

Definition set_heap (h : gmap loc obj) (w : world) : world :=
  mkWorld h (files w) (scheme w) (wallet_file w) (wallet_in_mem w) (wallet_path w).
Definition set_files (f : gmap string pyval) (w : world) : world :=
  mkWorld (heap w) f (scheme w) (wallet_file w) (wallet_in_mem w) (wallet_path w).
Definition set_scheme (s : SignatureScheme) (w : world) : world :=
  mkWorld (heap w) (files w) s (wallet_file w) (wallet_in_mem w) (wallet_path w).
Definition set_wallet_file (l : loc) (w : world) : world :=
  mkWorld (heap w) (files w) (scheme w) l (wallet_in_mem w) (wallet_path w).
Definition set_wallet_in_mem (l : loc) (w : world) : world :=
  mkWorld (heap w) (files w) (scheme w) (wallet_file w) l (wallet_path w).
Definition set_wallet_path (p : string) (w : world) : world :=
  mkWorld (heap w) (files w) (scheme w) (wallet_file w) (wallet_in_mem w) p.

Definition alloc (o : obj) (h : gmap loc obj) : loc * gmap loc obj :=
  let l := fresh (dom h) in (l, <[l := o]> h).

(** A new [WalletData] object with the content [v]: two new lists and
    the object that refers to them. *)
Definition new_WalletData (v : WalletData.t) (h : gmap loc obj) : loc * gmap loc obj :=
  let '(li, h1) := alloc (OIdentities (WalletData.identities v)) h in
  let '(la, h2) := alloc (OAccounts (WalletData.accounts v)) h1 in
  alloc (OWallet (mkObj (WalletData.name v) (WalletData.version v)
                        (WalletData.create_time v) (WalletData.default_ont_id v)
                        (WalletData.default_account_address v) (WalletData.scrypt v)
                        li la)) h2.

(** The content of the [WalletData] object at [l]. *)
Definition read_wallet (h : gmap loc obj) (l : loc) : option WalletData.t :=
  match h !! l with
  | Some (OWallet o) =>
      match h !! o_identities o, h !! o_accounts o with
      | Some (OIdentities ids), Some (OAccounts accts) =>
          Some (WalletData.mk (o_name o) (o_version o) (o_create_time o)
                  (o_default_ont_id o) (o_default_account_address o) (o_scrypt o)
                  ids accts)
      | _, _ => None
      end
  | _ => None
  end.

(** [copy.deepcopy] of the [WalletData] object at [l]. *)
Definition deepcopy (h : gmap loc obj) (l : loc) : option (loc * gmap loc obj) :=
  v ← read_wallet h l; Some (new_WalletData v h).

(** *** The monad of the methods: state, and an exception or a value *)

Definition M (A : Type) : Type := world -> result A * world.

#[global] Instance M_ret : MRet M := fun A a w => (Ok a, w).

#[global] Instance M_bind : MBind M := fun A B k m w =>
  match m w with
  | (Ok a, w') => k a w'
  | (Raise e, w') => (Raise e, w')
  end.

Definition raise {A} (e : exn) : M A := fun w => (Raise e, w).
Definition get : M world := fun w => (Ok w, w).
Definition modify (f : world -> world) : M unit := fun w => (Ok tt, f w).
Definition lift {A} (r : result A) : M A := fun w => (r, w).

Definition get_obj (l : loc) : M WalletObj :=
  w ← get;
  match heap w !! l with
  | Some (OWallet o) => mret o
  | _ => raise DanglingReference
  end.

Definition get_accounts (l : loc) : M (list AccountData.t) :=
  w ← get;
  match heap w !! l with
  | Some (OAccounts a) => mret a
  | _ => raise DanglingReference
  end.

Definition get_identities (l : loc) : M (list Identity.t) :=
  w ← get;
  match heap w !! l with
  | Some (OIdentities a) => mret a
  | _ => raise DanglingReference
  end.

Definition store (l : loc) (o : obj) : M unit :=
  modify (fun w => set_heap (<[l := o]> (heap w)) w).

Definition get_value (l : loc) : M WalletData.t :=
  w ← get;
  match read_wallet (heap w) l with
  | Some v => mret v
  | None => raise DanglingReference
  end.

Definition deepcopy_m (l : loc) : M loc :=
  w ← get;
  match deepcopy (heap w) l with
  | Some (l', h') => modify (set_heap h');; mret l'
  | None => raise DanglingReference
  end.

(** *** The methods *)

Section methods.
Context `{Hashes} `{Constants} `{KeyCipher} `{Curve} `{WalletClasses}.

(** [WalletManager(scheme)]: two [WalletData()] objects and an empty
    path.  [files] is the file system the manager will see. *)
Definition init (scheme : SignatureScheme) (files : gmap string pyval) : world :=
  let '(lf, h1) := new_WalletData WalletData_new ∅ in
  let '(lm, h2) := new_WalletData WalletData_new h1 in
  mkWorld h2 files scheme lf lm "".

Definition is_file_exist (path : string) : M bool :=
  w ← get; mret (bool_decide (is_Some (files w !! path))).

(** [d[key]]. *)
Definition subscript (d : gmap string pyval) (k : string) : result pyval :=
  match d !! k with
  | Some v => Ok v
  | None => Raise (KeyError k)
  end.

(** [Scrypt(scrypt_dict.get('n', 16384), scrypt_dict.get('r', 8),
    scrypt_dict.get('p', 8), scrypt_dict.get('dk_len', 64))]. *)
Definition load_scrypt (scrypt_dict : gmap string pyval) : Scrypt.t :=
  Scrypt.mk (dict_get scrypt_dict "n" (PyInt 16384))
            (dict_get scrypt_dict "r" (PyInt 8))
            (dict_get scrypt_dict "p" (PyInt 8))
            (dict_get scrypt_dict "dk_len" (PyInt 64)).

(** The body of [load_file] after [json.loads]: the [WalletData] built
    from the parsed document.  The subscripts and the call of
    [WalletData(...)] are inside the [try]: a [KeyError] of either
    becomes an [SDKException], another exception passes.  A document or
    a scrypt entry that is no dict has no [get]. *)
Definition wallet_of_dict (wallet_dict : pyval) : result WalletData.t :=
  match wallet_dict with
  | PyDict d =>
      let create_time := dict_get d "createTime" (PyStr "") in
      let default_id := dict_get d "defaultOntid" (PyStr "") in
      let default_address := dict_get d "defaultAccountAddress" (PyStr "") in
      let identities := dict_get d "identities" (PyList []) in
      let tried :=
        scrypt_dict ← subscript d "scrypt";
        match scrypt_dict with
        | PyDict sd =>
            let scrypt_obj := load_scrypt sd in
            name ← subscript d "name";
            version ← subscript d "version";
            accounts ← subscript d "accounts";
            lists ← lists_of_json identities accounts;
            Ok (WalletData.mk name version create_time default_id default_address
                  scrypt_obj lists.1 lists.2)
        | _ => Raise AttributeError
        end in
      match tried with
      | Raise (KeyError k) =>
          Raise (SDKException
                   (param_err ("wallet file format error: '" +:+ k +:+ "'.")))
      | r => r
      end
  | _ => Raise AttributeError
  end.

Definition load_file : M loc :=
  w ← get;
  match files w !! wallet_path w with
  | None => raise FileNotFoundError
  | Some wallet_dict =>
      v ← lift (wallet_of_dict wallet_dict);
      let '(l, h) := new_WalletData v (heap w) in
      modify (set_heap h);; mret l
  end.

Definition open_wallet (wallet_path : string) : M loc :=
  modify (set_wallet_path wallet_path);;
  exists_ ← is_file_exist wallet_path;
  if negb exists_ then raise (SDKException (other_error "Wallet file not found."))
  else
    l ← load_file;
    modify (set_wallet_file l);;
    c ← deepcopy_m l;
    modify (set_wallet_in_mem c);;
    mret l.

(** [save] turns a [FileNotFoundError] of [open] into an
    [SDKException] with the text of the error ([e.args[1]]); another
    [OSError] passes as it is. *)
Definition save : M unit :=
  w ← get;
  if can_open_for_writing (wallet_path w) then
    v ← get_value (wallet_in_mem w);
    modify (fun w => set_files (<[wallet_path w := wallet_to_json v]> (files w)) w)
  else if no_such_directory (wallet_path w)
  then raise (SDKException (other_error "No such file or directory"))
  else raise OSError.

(** [today] is the text of [datetime.today().strftime(...)]. *)
Definition create_wallet (wallet_path : string) (today : string) : M unit :=
  exists_ ← is_file_exist wallet_path;
  if negb exists_ then
    w ← get;
    o ← get_obj (wallet_in_mem w);
    store (wallet_in_mem w)
      (OWallet (mkObj (o_name o) (o_version o) (PyStr today) (o_default_ont_id o)
                  (o_default_account_address o) (o_scrypt o)
                  (o_identities o) (o_accounts o)));;
    save
  else raise (SDKException (other_error "Wallet file has existed.")).

Definition get_wallet : M loc :=
  w ← get; mret (wallet_in_mem w).

Definition write_wallet : M loc :=
  save;;
  modify (fun w => set_wallet_file (wallet_in_mem w) w);;
  w ← get; mret (wallet_file w).

Definition reset_wallet : M loc :=
  w ← get;
  c ← deepcopy_m (wallet_file w);
  modify (set_wallet_in_mem c);;
  mret c.

Definition get_signature_scheme : M SignatureScheme :=
  w ← get; mret (scheme w).

Definition set_signature_scheme (s : SignatureScheme) : M unit :=
  modify (set_scheme s).

(** [label is None or label == ''], then [uuid.uuid4().hex[0:8]];
    [uuid_hex] is the text [uuid.uuid4().hex] would give. *)
Definition default_label (label : option string) (uuid_hex : string) : string :=
  match label with
  | None => substring 0 8 uuid_hex
  | Some l => if String.eqb l "" then substring 0 8 uuid_hex else l
  end.

Definition __create_account (label : option string) (pwd : option string)
    (salt : string) (private_key : list byte) (account_flag : bool)
    (uuid_hex : string) : M Account.t :=
  w ← get;
  account ← lift (new_Account private_key (scheme w));
  if is_SHA256withECDSA (scheme w) then
    let acct_data := AccountData_new in
    key ← lift (match pwd with
                | Some pwd =>
                    Account.export_gcm_encrypted_private_key account pwd salt
                      (Scrypt.n Scrypt.default)
                | None => Ok (Account.get_private_key_hex account)
                end);
    let acct_data := AccountData.set_key key acct_data in
    addr ← lift (Account.get_address_base58 account);
    let acct_data := AccountData.set_b58_address addr acct_data in
    let label := default_label label uuid_hex in
    o ← get_obj (wallet_in_mem w);
    if account_flag then
      accounts ← get_accounts (o_accounts o);
      if existsb (fun a => String.eqb (AccountData.b58_address a) addr) accounts
      then raise (SDKException (other_error "Wallet account exists."))
      else
        let first := (length accounts =? 0)%nat in
        let acct_data :=
          if first then AccountData.set_is_default true acct_data else acct_data in
        (if first then
           store (wallet_in_mem w)
             (OWallet (mkObj (o_name o) (o_version o) (o_create_time o)
                         (o_default_ont_id o) (PyStr addr) (o_scrypt o)
                         (o_identities o) (o_accounts o)))
         else mret tt);;
        let acct_data := AccountData.set_label label acct_data in
        b64_salt ← lift (b64encode_str (encode_latin1 salt));
        let acct_data := AccountData.set_salt b64_salt acct_data in
        let acct_data :=
          AccountData.set_public_key (Account.get_public_key_hex account) acct_data in
        store (o_accounts o) (OAccounts (accounts ++ [acct_data]));;
        mret account
    else
      identities ← get_identities (o_identities o);
      let ont_id := DID_ONT +:+ addr in
      if existsb (fun i => String.eqb (Identity.ont_id i) ont_id) identities
      then raise (SDKException (other_error "Wallet identity exists."))
      else
        let idt := Identity.set_label label (Identity.set_ont_id ont_id Identity_new) in
        let first := (length identities =? 0)%nat in
        let idt := if first then Identity.set_is_default true idt else idt in
        (if first then
           store (wallet_in_mem w)
             (OWallet (mkObj (o_name o) (o_version o) (o_create_time o)
                         (PyStr ont_id) (o_default_account_address o) (o_scrypt o)
                         (o_identities o) (o_accounts o)))
         else mret tt);;
        b64_salt ← lift (b64encode_str (encode_utf8 salt));
        let ctl := Control.init_kw "keys-1" key b64_salt addr
                     (Account.get_public_key_hex account) in
        let idt := Identity.controls_append ctl idt in
        store (o_identities o) (OIdentities (identities ++ [idt]));;
        mret account
  else raise (SDKException (other_error "Scheme type is error.")).

Definition __create_identity (label : option string) (pwd : option string)
    (salt : string) (private_key : list byte) (uuid_hex : string) : M Identity.t :=
  acct ← __create_account label pwd salt private_key false uuid_hex;
  addr ← lift (Account.get_address_base58 acct);
  let ont_id := DID_ONT +:+ addr in
  w ← get;
  v ← get_value (wallet_in_mem w);
  lift (WalletData_get_identity_by_ont_id v ont_id).

(** [pri_key] and [salt] are the draws of [get_random_hex_str]. *)
Definition create_identity (label : option string) (pwd : string)
    (pri_key : list byte) (salt uuid_hex : string) : M Identity.t :=
  __create_identity label (Some pwd) salt pri_key uuid_hex.

Definition create_identity_from_private_key (label : option string) (pwd : string)
    (private_key : list byte) (salt uuid_hex : string) : M Identity.t :=
  __create_identity label (Some pwd) salt private_key uuid_hex.

Definition create_account (label : option string) (pwd : string)
    (pri_key : list byte) (salt uuid_hex : string) : M AccountData.t :=
  acct ← __create_account label (Some pwd) salt pri_key true uuid_hex;
  addr ← lift (Account.get_address_base58 acct);
  w ← get;
  v ← get_value (wallet_in_mem w);
  lift (WalletData_get_account_by_b58_address v addr).

Definition create_account_info (label : option string) (pwd salt : string)
    (private_key : list byte) (uuid_hex : string) : M AccountInfo.t :=
  acct ← __create_account label (Some pwd) salt private_key true uuid_hex;
  address_base58 ←
    lift (Address.b58encode
            (Address.address_from_bytes_pubkey (Account.get_public_key_bytes acct)));
  let public_key := hex (Account.get_public_key_bytes acct) in
  encrypted_pri_key ←
    lift (Account.export_gcm_encrypted_private_key acct pwd salt
            (Scrypt.n Scrypt.default));
  let address_u160 := hex (Address.to_bytes (Account.get_address acct)) in
  mret (AccountInfo.mk address_base58 public_key encrypted_pri_key address_u160 salt).

(** The first account of the list whose address is [addr], as the
    [for ... if ...: return acct] loops find it. *)
Definition find_account (addr : string) (accounts : list AccountData.t)
  : option AccountData.t :=
  List.find (fun a => String.eqb addr (AccountData.b58_address a)) accounts.

(** [base64.b64decode(base64_salt.encode('ascii')).decode('latin-1')]. *)
Definition decode_salt (base64_salt : string) : result string :=
  b ← encode_ascii base64_salt;
  s ← Base64.b64decode b;
  Ok (decode_latin1 s).

Definition import_account (label : option string) (encrypted_pri_key pwd : string)
    (base58_address base64_salt uuid_hex : string) : M AccountData.t :=
  salt ← lift (decode_salt base64_salt);
  w ← get;
  private_key ←
    lift (Account.get_gcm_decoded_private_key encrypted_pri_key pwd base58_address
            salt (Scrypt.n Scrypt.default) (scheme w));
  acct_info ← create_account_info label pwd salt private_key uuid_hex;
  w ← get;
  o ← get_obj (wallet_in_mem w);
  accounts ← get_accounts (o_accounts o);
  match find_account (AccountInfo.address_base58 acct_info) accounts with
  | Some acct => mret acct
  | None => raise (SDKException (other_error "Import account failed."))
  end.

Definition create_account_from_private_key (label : option string) (password : string)
    (private_key : list byte) (salt uuid_hex : string) : M AccountData.t :=
  info ← create_account_info label password salt private_key uuid_hex;
  w ← get;
  o ← get_obj (wallet_in_mem w);
  accounts ← get_accounts (o_accounts o);
  match find_account (AccountInfo.address_base58 info) accounts with
  | Some acct => mret acct
  | None =>
      raise (SDKException
               (other_error ("Create account from key " +:+ hex private_key +:+ " failed.")))
  end.

Definition import_identity (label : option string) (encrypted_pri_key pwd salt : string)
    (b58_address uuid_hex : string) : M Identity.t :=
  w ← get;
  pri_key ←
    lift (Account.get_gcm_decoded_private_key encrypted_pri_key pwd b58_address salt
            (Scrypt.n Scrypt.default) (scheme w));
  info ← __create_identity label (Some pwd) salt pri_key uuid_hex;
  w ← get;
  o ← get_obj (wallet_in_mem w);
  identities ← get_identities (o_identities o);
  match List.find (fun i => String.eqb (Identity.ont_id i) (Identity.ont_id info))
          identities with
  | Some identity => mret identity
  | None => raise (SDKException (other_error "Import identity failed."))
  end.

Definition get_identity_by_ont_id (ont_id : string) : M Identity.t :=
  w ← get;
  v ← get_value (wallet_in_mem w);
  lift (WalletData_get_identity_by_ont_id v ont_id).

Definition get_default_identity : M Identity.t :=
  w ← get;
  o ← get_obj (wallet_in_mem w);
  identities ← get_identities (o_identities o);
  match List.find Identity.is_default identities with
  | Some identity => mret identity
  | None => raise (SDKException param_error)
  end.

Definition get_default_account : M AccountData.t :=
  w ← get;
  o ← get_obj (wallet_in_mem w);
  accounts ← get_accounts (o_accounts o);
  match List.find AccountData.is_default accounts with
  | Some acct => mret acct
  | None => raise (SDKException get_default_account_err)
  end.

End methods.

(** *** Observations on a state *)

(** The content of the wallet that [wallet_file], and that
    [wallet_in_mem], refers to. *)
Definition file_value (w : world) : option WalletData.t :=
  read_wallet (heap w) (wallet_file w).

Definition mem_value (w : world) : option WalletData.t :=
  read_wallet (heap w) (wallet_in_mem w).

(** The locations a wallet object spans: itself and its two lists. *)
Definition footprint (h : gmap loc obj) (l : loc) : gset loc :=
  match h !! l with
  | Some (OWallet o) => {[ l; o_identities o; o_accounts o ]}
  | _ => {[ l ]}
  end.

(** The two wallets share no object. *)
Definition separate (w : world) : Prop :=
  footprint (heap w) (wallet_file w) ## footprint (heap w) (wallet_in_mem w).

(** Both references point to complete wallet objects. *)
Definition well_formed (w : world) : Prop :=
  is_Some (file_value w) /\ is_Some (mem_value w).

(** What a method that works on the wallet in memory may do to the
    state: it keeps both references and the extent of the wallet in
    memory, and writes to no object outside that extent. *)
Definition stable (w w' : world) : Prop :=
  wallet_file w' = wallet_file w /\ wallet_in_mem w' = wallet_in_mem w /\
  footprint (heap w') (wallet_in_mem w) = footprint (heap w) (wallet_in_mem w) /\
  forall l, l ∉ footprint (heap w) (wallet_in_mem w) -> heap w' !! l = heap w !! l.

(** A method is frame preserving when every call of it, returning or
    raising, leaves a state that is [stable] with respect to the one it
    started in. *)
Definition frame_preserving {A} (m : M A) : Prop := forall w, stable w (snd (m w)).

(** The calls that change the wallet in memory, with their arguments
    and the draws they consume: the methods that create or import an
    account or an identity, and [create_wallet], which sets the
    creation time.  ([add_control] and [add_control_by_private_key]
    change an identity through [Identity.add_control], which is not in
    the sources.) *)
Inductive mutation :=
| CreateAccount (label : option string) (pwd : string) (pri_key : list byte)
    (salt uuid_hex : string)
| CreateIdentity (label : option string) (pwd : string) (pri_key : list byte)
    (salt uuid_hex : string)
| CreateIdentityFromPrivateKey (label : option string) (pwd : string)
    (private_key : list byte) (salt uuid_hex : string)
| CreateAccountFromPrivateKey (label : option string) (password : string)
    (private_key : list byte) (salt uuid_hex : string)
| ImportAccount (label : option string) (encrypted_pri_key pwd : string)
    (base58_address base64_salt uuid_hex : string)
| ImportIdentity (label : option string) (encrypted_pri_key pwd salt : string)
    (b58_address uuid_hex : string)
| CreateWalletTime (wallet_path today : string).

Section run.
Context `{Hashes} `{Constants} `{KeyCipher} `{Curve} `{WalletClasses}.

(** The state after a call, whether it returned or raised. *)
Definition after {A} (m : M A) (w : world) : world := snd (m w).

Definition run_mutation (c : mutation) (w : world) : world :=
  match c with
  | CreateAccount label pwd pri_key salt uuid_hex =>
      after (create_account label pwd pri_key salt uuid_hex) w
  | CreateIdentity label pwd pri_key salt uuid_hex =>
      after (create_identity label pwd pri_key salt uuid_hex) w
  | CreateIdentityFromPrivateKey label pwd private_key salt uuid_hex =>
      after (create_identity_from_private_key label pwd private_key salt uuid_hex) w
  | CreateAccountFromPrivateKey label password private_key salt uuid_hex =>
      after (create_account_from_private_key label password private_key salt uuid_hex) w
  | ImportAccount label enc pwd addr b64_salt uuid_hex =>
      after (import_account label enc pwd addr b64_salt uuid_hex) w
  | ImportIdentity label enc pwd salt addr uuid_hex =>
      after (import_identity label enc pwd salt addr uuid_hex) w
  | CreateWalletTime wallet_path today =>
      after (create_wallet wallet_path today) w
  end.

Definition run_mutations (cs : list mutation) (w : world) : world :=
  fold_left (fun w c => run_mutation c w) cs w.

End run.

(** *** The look-ups of accounts *)

(** [Account.get_gcm_decoded_private_key] as the look-ups call it, with
    the salt as the [bytes] that [base64.b64decode] returns: the
    function is not in the sources, and the look-ups are modelled over
    whatever it computes. *)
Class KeyUnwrap := {
  unwrap_key :
    string -> string -> string -> list byte -> pyval -> SignatureScheme ->
    result (list byte)
}.

Section lookups.
Context `{Hashes} `{Constants} `{KeyCipher} `{Curve} `{WalletClasses} `{KeyUnwrap}.

(** The lines the four look-ups end with:
    [salt = base64.b64decode(<salt text>)],
    [n = self.wallet_in_mem.scrypt.n],
    [private_key = Account.get_gcm_decoded_private_key(key, password,
    addr, salt, n, self.scheme)] and
    [return Account(private_key, self.scheme)]. *)
Definition decoded_account (key password addr salt_text : string)
    (v : WalletData.t) (scheme : SignatureScheme) : outcome Account.t :=
  match b64decode_str salt_text with
  | Raise e => Raises (Listed e)
  | Ok salt =>
      match unwrap_key key password addr salt (Scrypt.n (WalletData.scrypt v)) scheme with
      | Raise e => Raises (Listed e)
      | Ok private_key => outcome_of (new_Account private_key scheme)
      end
  end.

Definition get_account_by_ont_id (ont_id password : string) (w : world)
  : outcome Account.t :=
  if negb (String.prefix DID_ONT ont_id)
  then Raises (Listed (SDKException (invalid_ont_id_format ont_id)))
  else
    match mem_value w with
    | None => Raises (Listed DanglingReference)
    | Some v =>
        match List.find (fun i => String.eqb (Identity.ont_id i) ont_id)
                (WalletData.identities v) with
        | Some idt =>
            let addr := str_remove DID_ONT (Identity.ont_id idt) in
            match Identity.controls idt with
            | [] => Raises IndexError
            | ctrl :: _ =>
                decoded_account (Control.key ctrl) password addr (Control.salt ctrl)
                  v (scheme w)
            end
        | None =>
            Raises (Listed (SDKException
                              (other_error ("Get account " +:+ ont_id +:+ " failed."))))
        end
    end.

Definition get_control_account_by_index (ont_id : string) (index : Z)
    (password : string) (w : world) : outcome Account.t :=
  if negb (String.prefix DID_ONT ont_id)
  then Raises (Listed (SDKException (invalid_ont_id_format ont_id)))
  else
    match mem_value w with
    | None => Raises (Listed DanglingReference)
    | Some v =>
        match WalletData_get_identity_by_ont_id v ont_id with
        | Raise e => Raises (Listed e)
        | Ok idt =>
            match list_item (Identity.controls idt) index with
            | None =>
                Raises (Listed (SDKException
                                  (other_error
                                     ("Get " +:+ ont_id +:+ "'s control account failed."))))
            | Some ctrl =>
                decoded_account (Control.key ctrl) password (Control.b58_address ctrl)
                  (Control.salt ctrl) v (scheme w)
            end
        end
    end.

Definition get_control_account_by_b58_address (ont_id b58_address password : string)
    (w : world) : outcome Account.t :=
  if negb (String.prefix DID_ONT ont_id)
  then Raises (Listed (SDKException (invalid_ont_id_format ont_id)))
  else
    match mem_value w with
    | None => Raises (Listed DanglingReference)
    | Some v =>
        match WalletData_get_identity_by_ont_id v ont_id with
        | Raise e => Raises (Listed e)
        | Ok idt =>
            match List.find (fun c => String.eqb (Control.b58_address c) b58_address)
                    (Identity.controls idt) with
            | Some ctrl =>
                decoded_account (Control.key ctrl) password (Control.b58_address ctrl)
                  (Control.salt ctrl) v (scheme w)
            | None =>
                Raises (Listed (SDKException
                                  (other_error
                                     ("Get account " +:+ b58_address +:+ " failed."))))
            end
        end
    end.

Definition get_account_by_b58_address (b58_address password : string) (w : world)
  : outcome Account.t :=
  match mem_value w with
  | None => Raises (Listed DanglingReference)
  | Some v =>
      match List.find (fun a => String.eqb (AccountData.b58_address a) b58_address)
              (WalletData.accounts v) with
      | Some acct =>
          decoded_account (AccountData.key acct) password b58_address
            (AccountData.salt acct) v (scheme w)
      | None =>
          Raises (Listed (SDKException
                            (other_error ("Get account " +:+ b58_address +:+ " failed."))))
      end
  end.

(** [add_control] calls [get_random_bytes], a name the module neither
    defines nor imports. *)
Definition add_control (ont_id : string) (password : pyval) : outcome unit :=
  if negb (String.prefix DID_ONT ont_id)
  then Raises (Listed (SDKException (invalid_ont_id_format ont_id)))
  else if negb (isinstance_str password)
  then Raises (Listed (SDKException require_str_params))
  else Raises (NameError "get_random_bytes").

End lookups.

End WalletManager.

(** ** rpc_client.py *)

Module RpcClient.

(** The constants of [ontology.rpc.define]: the method names, the
    protocol version and the dict [JsonRpcRequest] as the module leaves
    it. *)
Class RpcDefine := {
  JSON_RPC_VERSION : string;
  JsonRpcRequest_initial : gmap string pyval;
  RPC_GET_VERSION : string;
  RPC_GET_BLOCK : string;
  RPC_GET_BLOCK_COUNT : string;
  RPC_GET_CURRENT_BLOCK_HASH : string;
  RPC_GET_BLOCK_HASH : string;
  RPC_GET_BALANCE : string;
  RPC_GET_SMART_CONTRACT_EVENT : string;
  RPC_GET_TRANSACTION : string;
  RPC_GET_SMART_CONTRACT : string;
  RPC_GET_GENERATE_BLOCK_TIME : string;
  RPC_GET_MERKLE_PROOF : string
}.

(** [Sig(public_keys, M, sig_data)] of [ontology.core.transaction]. *)
Record Sig := mkSig {
  public_keys : list (list byte);
  M : Z;
  sig_data : list (list byte)
}.

(** [Transaction(version, tx_type, nonce, gas_price, gas_limit, payer,
    payload, attributes, sigs, hash)]. *)
Record Transaction := mkTransaction {
  version : Z;
  tx_type : Z;
  nonce : Z;
  gas_price : Z;
  gas_limit : Z;
  payer : list byte;
  payload : list byte;
  attributes : list byte;
  sigs : list Sig;
  hash : list byte
}.

Definition set_payer (p : list byte) (tx : Transaction) : Transaction :=
  mkTransaction (version tx) (tx_type tx) (nonce tx) (gas_price tx) (gas_limit tx)
    p (payload tx) (attributes tx) (sigs tx) (hash tx).

Definition set_sigs (s : list Sig) (tx : Transaction) : Transaction :=
  mkTransaction (version tx) (tx_type tx) (nonce tx) (gas_price tx) (gas_limit tx)
    (payer tx) (payload tx) (attributes tx) s (hash tx).

(** One entry of the [state] list of a transfer. *)
Record State := mkState {
  from : list byte;
  to : list byte;
  amount : Z
}.

(** What rpc_client.py calls and the sources do not hold: the
    serialisations and the digest of a transaction, the encoder of a
    native invocation, the address of an asset, and the far end of the
    HTTP connection ([http_post url payload] is the JSON document of
    the response). *)
Class TxCodec := {
  serialize : Transaction -> list byte;
  serialize_unsigned : Transaction -> list byte;
  hash256 : Transaction -> list byte;
  build_native_invoke_code : list byte -> list byte -> string -> list State -> list byte;
  get_asset_address : string -> list byte;
  http_post : string -> gmap string pyval -> pyval
}.

(** The state: the module's dict [JsonRpcRequest], which every call
    overwrites and sends, the client's attributes, and the requests
    sent so far (newest first). *)
Record client := mkClient {
  JsonRpcRequest : gmap string pyval;
  qid : Z;
  addr : string;
  sent : list (string * gmap string pyval)
}.

Definition R (A : Type) : Type := client -> result A * client.

#[global] Instance R_ret : MRet R := fun A a c => (Ok a, c).

#[global] Instance R_bind : MBind R := fun A B k m c =>
  match m c with
  | (Ok a, c') => k a c'
  | (Raise e, c') => (Raise e, c')
  end.

Section methods.
Context `{Hashes} `{Constants} `{Curve} `{RpcDefine} `{TxCodec}.

(** [RpcClient(qid, addr)]. *)
Definition init (qid : Z) (addr : string) : client :=
  mkClient JsonRpcRequest_initial qid addr [].

Definition set_address (a : string) : R unit :=
  fun c => (Ok tt, mkClient (JsonRpcRequest c) (qid c) a (sent c)).

Definition set_json_rpc_version (method : string) (param : list pyval)
  : R (gmap string pyval) :=
  fun c =>
    let d := <["params" := PyList param]>
               (<["method" := PyStr method]>
                  (<["id" := PyStr "1"]>
                     (<["jsonrpc" := PyStr JSON_RPC_VERSION]> (JsonRpcRequest c)))) in
    (Ok d, mkClient d (qid c) (addr c) (sent c)).

(** [HttpRequest.request("post", self.addr, payload)] followed by
    [json.loads(r.content.decode())["result"]]. *)
Definition post_result (payload : gmap string pyval) : R pyval :=
  fun c =>
    let c' := mkClient (JsonRpcRequest c) (qid c) (addr c) ((addr c, payload) :: sent c) in
    match http_post (addr c) payload with
    | PyDict r =>
        match r !! "result" with
        | Some res => (Ok res, c')
        | None => (Raise (KeyError "result"), c')
        end
    | _ => (Raise TypeError, c')
    end.

Definition get_version : R pyval :=
  rpc_struct ← set_json_rpc_version RPC_GET_VERSION [];
  post_result rpc_struct.

Definition get_block_by_hash (hash : string) : R pyval :=
  rpc_struct ← set_json_rpc_version RPC_GET_BLOCK [PyStr hash; PyInt 1];
  post_result rpc_struct.

Definition get_block_by_height (height : Z) : R pyval :=
  rpc_struct ← set_json_rpc_version RPC_GET_BLOCK [PyInt height; PyInt 1];
  post_result rpc_struct.

Definition get_block_count : R pyval :=
  rpc_struct ← set_json_rpc_version RPC_GET_BLOCK_COUNT [];
  post_result rpc_struct.

Definition get_current_block_hash : R pyval :=
  rpc_struct ← set_json_rpc_version RPC_GET_CURRENT_BLOCK_HASH [];
  post_result rpc_struct.

Definition get_block_hash_by_height (height : Z) : R pyval :=
  rpc_struct ← set_json_rpc_version RPC_GET_BLOCK_HASH [PyInt height; PyInt 1];
  post_result rpc_struct.

Definition get_balance (addr : string) : R pyval :=
  rpc_struct ← set_json_rpc_version RPC_GET_BALANCE [PyStr addr; PyInt 1];
  post_result rpc_struct.

Definition get_smart_contract_event_by_txhash (tx_hash : string) : R pyval :=
  rpc_struct ← set_json_rpc_version RPC_GET_SMART_CONTRACT_EVENT [PyStr tx_hash; PyInt 1];
  post_result rpc_struct.

Definition get_raw_transaction (tx_hash : string) : R pyval :=
  rpc_struct ← set_json_rpc_version RPC_GET_TRANSACTION [PyStr tx_hash; PyInt 1];
  post_result rpc_struct.

Definition get_smart_contract (contract_addr : string) : R pyval :=
  rpc_struct ← set_json_rpc_version RPC_GET_SMART_CONTRACT [PyStr contract_addr; PyInt 1];
  post_result rpc_struct.

Definition get_generate_block_time : R pyval :=
  rpc_struct ← set_json_rpc_version RPC_GET_GENERATE_BLOCK_TIME [];
  post_result rpc_struct.

Definition get_merkle_proof (tx_hash : string) : R pyval :=
  rpc_struct ← set_json_rpc_version RPC_GET_MERKLE_PROOF [PyStr tx_hash; PyInt 1];
  post_result rpc_struct.


(** [signer.generateSignature(data, SignatureScheme.SHA256withECDSA)];
    [rnd] is the randomness of the signature. *)
Definition sign_to_data (data : list byte) (signer : Account.t) (rnd : list byte)
  : list byte :=
  ec_sign (Account.private_key signer) data rnd.

Definition sign_to_transaction (tx : Transaction) (signer : Account.t)
    (rnd : list byte) : Transaction :=
  let tx := set_payer (Address.to_bytes (Account.get_address signer)) tx in
  let tx_hash := hash256 tx in
  let sig_data := sign_to_data tx_hash signer rnd in
  let sig := [mkSig [Account.get_public_key_bytes signer] 1 [sig_data]] in
  set_sigs sig tx.


Definition send_raw_transaction (tx : Transaction) : R pyval :=
  let buf := serialize tx in
  let tx_data := hex buf in
  rpc_struct ← set_json_rpc_version RPC_GET_TRANSACTION [PyStr tx_data; PyInt 1];
  post_result rpc_struct.

(** The request a call sends: the newest entry of [sent]. *)
Definition request_of {A} (m : R A) (c : client) : option (string * gmap string pyval) :=
  head (sent (snd (m c))).


End methods.
(** *** The other requests *)

(** The method name of [get_storage], one more constant of
    [ontology.rpc.define]. *)
Class RpcDefineStorage := {
  RPC_GET_STORAGE : string
}.

Section more_methods.
Context `{Hashes} `{Constants} `{Curve} `{RpcDefine} `{TxCodec} `{RpcDefineStorage}.

Definition get_smart_contract_event_by_block (height : Z) : R pyval :=
  rpc_struct ← set_json_rpc_version RPC_GET_SMART_CONTRACT_EVENT [PyInt height; PyInt 1];
  post_result rpc_struct.

(** [s[0] | s[1] << 8 | s[2] << 16 | ... | s[7] << 56] on the bytes of
    the answer; a shift binds tighter than [|]. *)
Definition storage_word (s : list byte) : outcome Z :=
  match s with
  | s0 :: s1 :: s2 :: s3 :: s4 :: s5 :: s6 :: s7 :: _ =>
      let b (x : byte) : Z := Z.of_N (Byte.to_N x) in
      Returns
        (Z.lor (Z.lor (Z.lor (Z.lor (Z.lor (Z.lor (Z.lor
           (b s0) (Z.shiftl (b s1) 8)) (Z.shiftl (b s2) 16)) (Z.shiftl (b s3) 24))
           (Z.shiftl (b s4) 32)) (Z.shiftl (b s5) 40)) (Z.shiftl (b s6) 48))
           (Z.shiftl (b s7) 56))
  | _ => Raises IndexError
  end.

(** [bytearray.fromhex(s)] and the word of the bytes; an answer that is
    no [str] is a [TypeError]. *)
Definition storage_value (s : pyval) : outcome Z :=
  match s with
  | PyStr t =>
      match fromhex t with
      | Ok b => storage_word b
      | Raise e => Raises (Listed e)
      end
  | _ => Raises (Listed TypeError)
  end.

Definition get_storage (addr key : string) : client -> outcome Z * client :=
  fun c =>
    match (rpc_struct ← set_json_rpc_version RPC_GET_STORAGE
                          [PyStr addr; PyStr key; PyInt 1];
           post_result rpc_struct) c with
    | (Ok s, c') => (storage_value s, c')
    | (Raise e, c') => (Raises (Listed e), c')
    end.

(** The calls that send a request and return its result as it is. *)
Inductive query :=
| GetVersion
| GetBlockByHash (hash : string)
| GetBlockByHeight (height : Z)
| GetBlockCount
| GetCurrentBlockHash
| GetBlockHashByHeight (height : Z)
| GetBalance (addr : string)
| GetSmartContractEventByTxhash (tx_hash : string)
| GetSmartContractEventByBlock (height : Z)
| GetRawTransaction (tx_hash : string)
| GetSmartContract (contract_addr : string)
| GetGenerateBlockTime
| GetMerkleProof (tx_hash : string)
| SendRawTransaction (tx : Transaction).

Definition run_query (q : query) : R pyval :=
  match q with
  | GetVersion => get_version
  | GetBlockByHash hash => get_block_by_hash hash
  | GetBlockByHeight height => get_block_by_height height
  | GetBlockCount => get_block_count
  | GetCurrentBlockHash => get_current_block_hash
  | GetBlockHashByHeight height => get_block_hash_by_height height
  | GetBalance addr => get_balance addr
  | GetSmartContractEventByTxhash tx_hash => get_smart_contract_event_by_txhash tx_hash
  | GetSmartContractEventByBlock height => get_smart_contract_event_by_block height
  | GetRawTransaction tx_hash => get_raw_transaction tx_hash
  | GetSmartContract contract_addr => get_smart_contract contract_addr
  | GetGenerateBlockTime => get_generate_block_time
  | GetMerkleProof tx_hash => get_merkle_proof tx_hash
  | SendRawTransaction tx => send_raw_transaction tx
  end.

End more_methods.

End RpcClient.

(** ** Definitions used by the proofs *)

(** Every byte, for checks by exhaustion. *)
Definition all_bytes : list byte :=
  map (fun n => byte_of_N (N.of_nat n)) (seq 0 256).

(** On a sextet the decoder's table inverts the encoder's, and no
    character of the alphabet is the pad. *)
Definition sextet_ok (n : N) : bool :=
  match Base64.table_a2b (Base64.table_b2a n) with
  | Some m => (m =? n)%N && negb (Byte.eqb (Base64.table_b2a n) Base64.PAD)
  | None => false
  end.

(** The four sextets [b64encode] cuts three bytes into. *)
Definition sextet1 (a : N) : N := N.shiftr a 2.
Definition sextet2 (a b : N) : N := N.lor (N.shiftl (N.land a 3) 4) (N.shiftr b 4).
Definition sextet3 (b c : N) : N := N.lor (N.shiftl (N.land b 15) 2) (N.shiftr c 6).
Definition sextet4 (c : N) : N := N.land c 63.

(** The bit identities behind the decoder, on one byte and on two. *)
Definition bits_check1 (x : byte) : bool :=
  let a := Byte.to_N x in
  (sextet1 a <? 64)%N && (sextet4 a <? 64)%N
  && (sextet2 a 0 <? 64)%N && (sextet3 a 0 <? 64)%N
  && (N.lor (N.shiftl (sextet1 a) 2) (N.land a 3) =? a)%N
  && (N.lor (N.shiftl (N.shiftr a 4) 4) (N.land a 15) =? a)%N
  && (N.lor (N.shiftl (N.shiftr a 6) 6) (sextet4 a) =? a)%N
  && (N.shiftr (sextet2 a 0) 4 =? N.land a 3)%N
  && (N.land (sextet2 a 0) 15 =? 0)%N
  && (N.shiftr (sextet3 a 0) 2 =? N.land a 15)%N
  && (N.land (sextet3 a 0) 3 =? 0)%N.

Definition bits_check2 (x y : byte) : bool :=
  let a := Byte.to_N x in
  let b := Byte.to_N y in
  (sextet2 a b <? 64)%N && (sextet3 a b <? 64)%N
  && (N.shiftr (sextet2 a b) 4 =? N.land a 3)%N
  && (N.land (sextet2 a b) 15 =? N.shiftr b 4)%N
  && (N.shiftr (sextet3 a b) 2 =? N.land a 15)%N
  && (N.land (sextet3 a b) 3 =? N.shiftr b 6)%N.

Definition ascii_byte (c : byte) : bool := (Byte.to_N c <? 128)%N.

(** A numeral without a leading zero digit. *)
Definition no_leading_zero (ds : list N) : Prop :=
  match ds with
  | [] => True
  | d :: _ => d <> 0%N
  end.

(** On a base 58 digit the index in the alphabet inverts [b58_char],
    and only the digit 0 is written as the first character. *)
Definition b58_digit_ok (n : N) : bool :=
  match index_of (Base58.b58_char n) Base58.alphabet with
  | Some m => (m =? n)%N
  | None => false
  end
  && Bool.eqb (Byte.eqb (Base58.b58_char n) (Base58.b58_char 0)) (n =? 0)%N.

(** The entry [__create_account] appends to the accounts of the wallet
    in memory: [AccountData()] after the assignments of the method, in
    their order. *)
Definition account_entry `{WalletClasses} (key addr label b64_salt public_key : string)
    (first : bool) : AccountData.t :=
  let acct_data := AccountData.set_key key AccountData_new in
  let acct_data := AccountData.set_b58_address addr acct_data in
  let acct_data :=
    if first then AccountData.set_is_default true acct_data else acct_data in
  let acct_data := AccountData.set_label label acct_data in
  let acct_data := AccountData.set_salt b64_salt acct_data in
  AccountData.set_public_key public_key acct_data.

(** The entry it appends to the identities: [Identity()] after the
    assignments, with the one control. *)
Definition identity_entry `{WalletClasses} (key addr ont_id label b64_salt public_key : string)
    (first : bool) : Identity.t :=
  let idt := Identity.set_label label (Identity.set_ont_id ont_id Identity_new) in
  let idt := if first then Identity.set_is_default true idt else idt in
  Identity.controls_append (Control.init_kw "keys-1" key b64_salt addr public_key) idt.

(** The wallet object after [self.wallet_in_mem.default_account_address
    = ...], and after [self.wallet_in_mem.default_ont_id = ...]. *)
Definition with_default_account_address (a : pyval) (o : WalletManager.WalletObj)
  : WalletManager.WalletObj :=
  WalletManager.mkObj (WalletManager.o_name o) (WalletManager.o_version o)
    (WalletManager.o_create_time o) (WalletManager.o_default_ont_id o) a
    (WalletManager.o_scrypt o) (WalletManager.o_identities o) (WalletManager.o_accounts o).

Definition with_default_ont_id (i : pyval) (o : WalletManager.WalletObj)
  : WalletManager.WalletObj :=
  WalletManager.mkObj (WalletManager.o_name o) (WalletManager.o_version o)
    (WalletManager.o_create_time o) i (WalletManager.o_default_account_address o)
    (WalletManager.o_scrypt o) (WalletManager.o_identities o) (WalletManager.o_accounts o).

(** How the content of the wallet in memory may change under the
    creating methods: entries are added at the end of the two lists and
    nowhere else, name, version and scrypt record stay, and addresses
    and ont ids that were pairwise distinct still are. *)
Definition grows (v v' : WalletData.t) : Prop :=
  WalletData.name v' = WalletData.name v
  /\ WalletData.version v' = WalletData.version v
  /\ WalletData.scrypt v' = WalletData.scrypt v
  /\ WalletData.accounts v `prefix_of` WalletData.accounts v'
  /\ WalletData.identities v `prefix_of` WalletData.identities v'
  /\ (NoDup (map AccountData.b58_address (WalletData.accounts v)) ->
      NoDup (map AccountData.b58_address (WalletData.accounts v')))
  /\ (NoDup (map Identity.ont_id (WalletData.identities v)) ->
      NoDup (map Identity.ont_id (WalletData.identities v'))).

(** A method under which the wallet in memory, if it is a wallet, stays
    one and [grows], whether the call returns or raises. *)
Definition keeps_growing {A} (m : WalletManager.M A) : Prop :=
  forall w v,
    WalletManager.mem_value w = Some v ->
    exists v', WalletManager.mem_value (snd (m w)) = Some v' /\ grows v v'.

(** The number a list of bytes denotes, least significant byte
    first. *)
Definition little_endian (bs : list byte) : Z :=
  fold_right (fun x acc => Z.of_N (Byte.to_N x) + 256 * acc) 0 bs.

(** Reading back the two digits [bytes.hex()] writes for a byte gives
    the byte, and neither digit is white space. *)
Definition hex_pair_ok (c : byte) : bool :=
  let hi := hex_digit (N.shiftr (Byte.to_N c) 4) in
  let lo := hex_digit (N.land (Byte.to_N c) 15) in
  negb (is_space hi)
  && match hex_value hi, hex_value lo with
     | Some top, Some bot => Byte.eqb (byte_of_N (top * 16 + bot)) c
     | _, _ => false
     end.

(** ** Instances for the examples *)

(** Small stand-ins for the primitives, on which the methods can be
    run: a digest that pads or cuts its input to the digest length, a
    cipher that writes a 16-byte tag of key, nonce and associated data
    in front of the plaintext and checks it on the way back, and a
    wallet with no entries. *)
Module Example.

Definition pad_to (n : nat) (m : list byte) : list byte :=
  take n (m ++ replicate n x00)%list.

#[local] Instance hashes : Hashes := {| sha256 := pad_to 32; ripemd160 := pad_to 20 |}.

#[local] Instance constants : Constants := {| ADDR_VERSION := x17; DID_ONT := "did:ont:" |}.

Definition tag (key nonce aad : list byte) : list byte :=
  pad_to 16 (key ++ nonce ++ aad)%list.

#[local] Instance cipher : KeyCipher := {|
  scrypt_kd password salt n r p dk_len :=
    pad_to (Z.to_nat dk_len) (list_byte_of_string (password +:+ salt));
  gcm_nonce addr := pad_to 12 (list_byte_of_string addr);
  gcm_encrypt key nonce aad m := (tag key nonce aad ++ m)%list;
  gcm_decrypt key nonce aad ct :=
    if bytes_eqb (take 16 ct) (tag key nonce aad) then Some (drop 16 ct) else None
|}.

#[local] Instance curve : Curve := {|
  ec_public_key k := x02 :: k;
  ec_sign k digest rnd := (digest ++ rnd)%list
|}.

(** An identity record is read when it has its controls. *)
Fixpoint identities_of (l : list pyval) : result (list Identity.t) :=
  match l with
  | [] => Ok []
  | PyDict d :: l' =>
      match d !! "controls" with
      | Some _ =>
          rest ← identities_of l';
          Ok (Identity.mk (match d !! "ontid" with Some (PyStr s) => s | _ => "" end)
                "" false [] :: rest)
      | None => Raise (KeyError "controls")
      end
  | _ :: _ => Raise TypeError
  end.

(** [AccountData()] starts as a default account, [Identity()] as an
    identity that is not the default one. *)
#[local] Instance classes : WalletClasses := {|
  AccountData_new := AccountData.mk "" "" "" "" "" true;
  Identity_new := Identity.mk "" "" false [];
  WalletData_new :=
    WalletData.mk (PyStr "MyWallet") (PyStr "1.1") (PyStr "") (PyStr "") (PyStr "")
      Scrypt.default [] [];
  lists_of_json identities accounts :=
    match identities with
    | PyList l => ids ← identities_of l; Ok (ids, [])
    | _ => Raise TypeError
    end;
  WalletData_get_account_by_b58_address v a :=
    match List.find (fun x => String.eqb (AccountData.b58_address x) a)
            (WalletData.accounts v) with
    | Some x => Ok x
    | None => Raise (SDKException param_error)
    end;
  WalletData_get_identity_by_ont_id v i :=
    match List.find (fun x => String.eqb (Identity.ont_id x) i)
            (WalletData.identities v) with
    | Some x => Ok x
    | None => Raise (SDKException param_error)
    end;
  wallet_to_json v := PyDict ∅;
  can_open_for_writing p := negb (String.prefix "/" p);
  no_such_directory p := String.prefix "/missing/" p;
  Account_raises _ s :=
    match s with
    | other_scheme "SM3withSM2" => Some TypeError
    | _ => None
    end
|}.

(** A wallet file that leaves [r], [p] and [dk_len] out of its scrypt
    record, and a manager that sees it. *)
Definition wallet_json : pyval :=
  PyDict (<["scrypt" := PyDict {[ "n" := PyInt 4096 ]}]>
            (<["name" := PyStr "MyWallet"]>
               (<["version" := PyStr "1.1"]>
                  {[ "accounts" := PyList [] ]}))).

Definition w0 : WalletManager.world :=
  WalletManager.set_wallet_path "wallet.json"
    (WalletManager.init SHA256withECDSA {[ "wallet.json" := wallet_json ]}).

(** A wallet file that gives the derived key length under the name
    [dkLen], and a manager that sees it. *)
Definition wallet_json_dkLen : pyval :=
  PyDict (<["scrypt" := PyDict {[ "n" := PyInt 4096; "dkLen" := PyInt 32 ]}]>
            (<["name" := PyStr "MyWallet"]>
               (<["version" := PyStr "1.1"]>
                  {[ "accounts" := PyList [] ]}))).

Definition w_dkLen : WalletManager.world :=
  WalletManager.set_wallet_path "wallet.json"
    (WalletManager.init SHA256withECDSA {[ "wallet.json" := wallet_json_dkLen ]}).

Definition k0 : list byte := [x01; x02].

End Example.

(** More stand-ins, for the client and the look-ups: the constants of
    the protocol, a node that answers every request with the same
    storage word, and an unwrapping that checks the password. *)
Module Sample.

#[local] Existing Instances Example.hashes Example.constants Example.cipher
  Example.curve Example.classes.

#[local] Instance rpc : RpcClient.RpcDefine := {|
  RpcClient.JSON_RPC_VERSION := "2.0";
  RpcClient.JsonRpcRequest_initial := {[ "jsonrpc" := PyStr ""; "method" := PyStr "" ]};
  RpcClient.RPC_GET_VERSION := "getversion";
  RpcClient.RPC_GET_BLOCK := "getblock";
  RpcClient.RPC_GET_BLOCK_COUNT := "getblockcount";
  RpcClient.RPC_GET_CURRENT_BLOCK_HASH := "getbestblockhash";
  RpcClient.RPC_GET_BLOCK_HASH := "getblockhash";
  RpcClient.RPC_GET_BALANCE := "getbalance";
  RpcClient.RPC_GET_SMART_CONTRACT_EVENT := "getsmartcodeevent";
  RpcClient.RPC_GET_TRANSACTION := "getrawtransaction";
  RpcClient.RPC_GET_SMART_CONTRACT := "getcontractstate";
  RpcClient.RPC_GET_GENERATE_BLOCK_TIME := "getgenerateblocktime";
  RpcClient.RPC_GET_MERKLE_PROOF := "getmerkleproof"
|}.

#[local] Instance storage : RpcClient.RpcDefineStorage := {|
  RpcClient.RPC_GET_STORAGE := "getstorage"
|}.

(** The bytes of the answer: the word 1000 and one byte more. *)
Definition word : list byte := [xe8; x03; x00; x00; x00; x00; x00; x00; xff].

#[local] Instance codec : RpcClient.TxCodec := {|
  RpcClient.serialize tx := RpcClient.payload tx;
  RpcClient.serialize_unsigned tx := RpcClient.payload tx;
  RpcClient.hash256 tx := Example.pad_to 32 (RpcClient.payload tx);
  RpcClient.build_native_invoke_code contract version method state := contract;
  RpcClient.get_asset_address asset := list_byte_of_string asset;
  RpcClient.http_post url payload := PyDict {[ "result" := PyStr (hex word) ]}
|}.

#[local] Instance unwrap : WalletManager.KeyUnwrap := {|
  WalletManager.unwrap_key key password addr salt n scheme :=
    if String.eqb password "pw" then Ok salt else Raise AuthenticationError
|}.

(** Managers under two other schemes: one under which the example
    [Account(...)] raises, and one under which it returns.  Then an
    identity with two controls. *)
Definition w_other : WalletManager.world :=
  WalletManager.init (other_scheme "SM3withSM2") ∅.

Definition w_sha512 : WalletManager.world :=
  WalletManager.init (other_scheme "SHA512withECDSA") ∅.

Definition two_controls : Identity.t :=
  Identity.mk "did:ont:A" "label" true
    [ Control.init_kw "keys-1" "k1" "c2FsdA==" "A1" "p1";
      Control.init_kw "keys-2" "k2" "c2FsdA==" "A2" "p2" ].

(** A manager whose two wallets have the content [v]. *)
Definition world_of (v : WalletData.t) : WalletManager.world :=
  let '(lf, h1) := WalletManager.new_WalletData v ∅ in
  let '(lm, h2) := WalletManager.new_WalletData v h1 in
  WalletManager.mkWorld h2 ∅ SHA256withECDSA lf lm "".

Definition wallet_two : WalletData.t :=
  WalletData.mk (PyStr "MyWallet") (PyStr "1.1") (PyStr "") (PyStr "did:ont:A")
    (PyStr "") Scrypt.default [two_controls] [].

Definition w_two : WalletManager.world := world_of wallet_two.

(** A manager that sees a wallet file without a name. *)
Definition w_broken : WalletManager.world :=
  WalletManager.init SHA256withECDSA
    {[ "broken.json" := PyDict {[ "scrypt" := PyDict ∅ ]} ]}.

(** A wallet file with the four required entries and an identity
    record that has no controls, and a manager that sees it. *)
Definition bad_identity_json : gmap string pyval :=
  <["scrypt" := PyDict ∅]>
    (<["name" := PyStr "MyWallet"]>
       (<["version" := PyStr "1.1"]>
          (<["accounts" := PyList []]>
             {[ "identities" := PyList [PyDict {[ "ontid" := PyStr "did:ont:A" ]}] ]}))).

Definition w_bad_identity : WalletManager.world :=
  WalletManager.init SHA256withECDSA {[ "bad.json" := PyDict bad_identity_json ]}.

(** Managers whose stored path is a directory, and a path under a
    directory that does not exist. *)
Definition w_directory : WalletManager.world :=
  WalletManager.set_wallet_path "/" (WalletManager.init SHA256withECDSA ∅).


(** A manager whose wallet has one account, not marked default. *)
Definition wallet_plain : WalletData.t :=
  WalletData.mk (PyStr "MyWallet") (PyStr "1.1") (PyStr "") (PyStr "") (PyStr "")
    Scrypt.default [] [AccountData.mk "A1" "k1" "first" "c2FsdA==" "p1" false].

Definition w_plain : WalletManager.world := world_of wallet_plain.

End Sample.

(** * Part II: lemmas and theorems *)

Local Open Scope list_scope.

(** ** Bytes *)

Lemma byte_to_N_lt (b : byte) : (Byte.to_N b < 256)%N.
Proof. pose proof (Byte.to_N_bounded b). lia. Qed.

Lemma byte_of_to_N (b : byte) : byte_of_N (Byte.to_N b) = b.
Proof.
  unfold byte_of_N. rewrite N.mod_small by apply byte_to_N_lt.
  now rewrite Byte.of_to_N.
Qed.

Lemma byte_to_of_N (n : N) : (n < 256)%N -> Byte.to_N (byte_of_N n) = n.
Proof.
  intros Hn. unfold byte_of_N. rewrite N.mod_small by exact Hn.
  destruct (Byte.of_N n) as [b|] eqn:E.
  - now apply Byte.to_of_N.
  - exfalso. pose proof (Byte.to_of_N_option_map n) as Hm.
    rewrite E in Hm. simpl in Hm.
    destruct (N.leb_spec n 255); [discriminate | lia].
Qed.

Lemma in_all_bytes (b : byte) : In b all_bytes.
Proof.
  unfold all_bytes. apply in_map_iff.
  exists (N.to_nat (Byte.to_N b)). split.
  - rewrite N2Nat.id. apply byte_of_to_N.
  - apply in_seq. pose proof (byte_to_N_lt b). lia.
Qed.

Lemma forall_bytes (P : byte -> bool) :
  forallb P all_bytes = true -> forall b, P b = true.
Proof.
  intros H b. rewrite forallb_forall in H. apply H, in_all_bytes.
Qed.

Lemma forall_bytes2 (P : byte -> byte -> bool) :
  forallb (fun a => forallb (P a) all_bytes) all_bytes = true ->
  forall a b, P a b = true.
Proof.
  intros H a b.
  apply (forall_bytes (P a)). revert a. apply forall_bytes. exact H.
Qed.

Lemma byte_eqb_eq (a b : byte) : Byte.eqb a b = true <-> a = b.
Proof. split; [apply Byte.byte_dec_bl | apply Byte.byte_dec_lb]. Qed.

Lemma byte_eqb_refl (a : byte) : Byte.eqb a a = true.
Proof. now apply byte_eqb_eq. Qed.

Lemma byte_eqb_neq (a b : byte) : Byte.eqb a b = false <-> a <> b.
Proof.
  rewrite <- byte_eqb_eq. destruct (Byte.eqb a b); split; congruence.
Qed.

Lemma bytes_eqb_eq (a b : list byte) : bytes_eqb a b = true <-> a = b.
Proof.
  revert b. induction a as [|x a IH]; intros [|y b]; simpl; try (split; congruence).
  rewrite andb_true_iff, byte_eqb_eq, IH. split.
  - intros [-> ->]. reflexivity.
  - intros [= -> ->]. auto.
Qed.

(** ** base64: decoding what was encoded *)

Lemma list_ind3 {A} (P : list A -> Prop) :
  P [] -> (forall a, P [a]) -> (forall a b, P [a; b]) ->
  (forall a b c l, P l -> P (a :: b :: c :: l)) ->
  forall l, P l.
Proof.
  intros H0 H1 H2 H3 l.
  assert (Hall : P l /\ (forall a, P (a :: l)) /\ (forall a b, P (a :: b :: l))).
  { induction l as [|x l (IH0 & IH1 & IH2)]; [now auto|].
    split; [apply IH1|]. split; [intros a; apply IH2|].
    intros a b. now apply H3. }
  apply Hall.
Qed.

Lemma sextet_table (n : N) :
  (n < 64)%N ->
  Base64.table_a2b (Base64.table_b2a n) = Some n
  /\ Byte.eqb (Base64.table_b2a n) Base64.PAD = false.
Proof.
  intros Hn.
  assert (Hall : forallb sextet_ok (map N.of_nat (seq 0 64)) = true) by (vm_compute; reflexivity).
  rewrite forallb_forall in Hall.
  specialize (Hall n). unfold sextet_ok in Hall.
  destruct (Base64.table_a2b (Base64.table_b2a n)) as [m|].
  - assert (Hin : In n (map N.of_nat (seq 0 64))).
    { apply in_map_iff. exists (N.to_nat n). split; [apply N2Nat.id|].
      apply in_seq. lia. }
    apply Hall in Hin. apply andb_true_iff in Hin as [Hm Hp].
    apply N.eqb_eq in Hm. subst m. split; [reflexivity|].
    now destruct (Byte.eqb (Base64.table_b2a n) Base64.PAD).
  - assert (Hin : In n (map N.of_nat (seq 0 64))).
    { apply in_map_iff. exists (N.to_nat n). split; [apply N2Nat.id|].
      apply in_seq. lia. }
    apply Hall in Hin. discriminate.
Qed.

Lemma bits_facts1 (x : byte) : bits_check1 x = true.
Proof. revert x. apply forall_bytes. vm_compute. reflexivity. Qed.

Lemma bits_facts2 (x y : byte) : bits_check2 x y = true.
Proof. revert x y. apply forall_bytes2. vm_compute. reflexivity. Qed.

Ltac split_checks H :=
  repeat match type of H with
         | (_ && _) = true => let H' := fresh "Hc" in apply andb_true_iff in H as [H H']
         end;
  repeat match goal with
         | Hx : (_ =? _)%N = true |- _ => apply N.eqb_eq in Hx
         | Hx : (_ <? _)%N = true |- _ => apply N.ltb_lt in Hx
         end.

(** One full quad: four alphabet characters give three bytes and leave
    the decoder where it started. *)
Lemma a2b_quad (v1 v2 v3 v4 l p : N) (s : list byte) :
  (v1 < 64)%N -> (v2 < 64)%N -> (v3 < 64)%N -> (v4 < 64)%N ->
  Base64.a2b_base64 0 l p
    (Base64.table_b2a v1 :: Base64.table_b2a v2 :: Base64.table_b2a v3
       :: Base64.table_b2a v4 :: s)
  = (out ← Base64.a2b_base64 0 0%N 0%N s;
     Ok (byte_of_N (N.lor (N.shiftl v1 2) (N.shiftr v2 4))
           :: byte_of_N (N.lor (N.shiftl (N.land v2 15) 4) (N.shiftr v3 2))
           :: byte_of_N (N.lor (N.shiftl (N.land v3 3) 6) v4) :: out)).
Proof.
  intros H1 H2 H3 H4.
  destruct (sextet_table v1 H1) as [T1 P1], (sextet_table v2 H2) as [T2 P2],
           (sextet_table v3 H3) as [T3 P3], (sextet_table v4 H4) as [T4 P4].
  cbn [Base64.a2b_base64].
  rewrite P1, T1, P2, T2. cbn [mbind result_bind].
  rewrite P3, T3. cbn [mbind result_bind].
  rewrite P4, T4.
  destruct (Base64.a2b_base64 0 0%N 0%N s); reflexivity.
Qed.

Lemma b64encode_cons3 (a b c : byte) (rest : list byte) :
  Base64.b64encode (a :: b :: c :: rest)
  = Base64.table_b2a (sextet1 (Byte.to_N a))
      :: Base64.table_b2a (sextet2 (Byte.to_N a) (Byte.to_N b))
      :: Base64.table_b2a (sextet3 (Byte.to_N b) (Byte.to_N c))
      :: Base64.table_b2a (sextet4 (Byte.to_N c))
      :: Base64.b64encode rest.
Proof. reflexivity. Qed.

Lemma decoded_bytes (a b c : byte) :
  byte_of_N (N.lor (N.shiftl (sextet1 (Byte.to_N a)) 2)
               (N.shiftr (sextet2 (Byte.to_N a) (Byte.to_N b)) 4)) = a
  /\ byte_of_N (N.lor (N.shiftl (N.land (sextet2 (Byte.to_N a) (Byte.to_N b)) 15) 4)
                  (N.shiftr (sextet3 (Byte.to_N b) (Byte.to_N c)) 2)) = b
  /\ byte_of_N (N.lor (N.shiftl (N.land (sextet3 (Byte.to_N b) (Byte.to_N c)) 3) 6)
                  (sextet4 (Byte.to_N c))) = c.
Proof.
  pose proof (bits_facts1 a) as Ha. pose proof (bits_facts1 b) as Hb.
  pose proof (bits_facts1 c) as Hc.
  pose proof (bits_facts2 a b) as Hab. pose proof (bits_facts2 b c) as Hbc.
  unfold bits_check1, bits_check2 in *. cbv zeta in *.
  split_checks Ha. split_checks Hb. split_checks Hc.
  split_checks Hab. split_checks Hbc.
  repeat split.
  - replace (N.shiftr (sextet2 (Byte.to_N a) (Byte.to_N b)) 4) with (N.land (Byte.to_N a) 3) by congruence.
    replace (N.lor _ _) with (Byte.to_N a) by congruence. apply byte_of_to_N.
  - replace (N.land (sextet2 (Byte.to_N a) (Byte.to_N b)) 15) with (N.shiftr (Byte.to_N b) 4) by congruence.
    replace (N.shiftr (sextet3 (Byte.to_N b) (Byte.to_N c)) 2) with (N.land (Byte.to_N b) 15) by congruence.
    replace (N.lor _ _) with (Byte.to_N b) by congruence. apply byte_of_to_N.
  - replace (N.land (sextet3 (Byte.to_N b) (Byte.to_N c)) 3) with (N.shiftr (Byte.to_N c) 6) by congruence.
    replace (N.lor _ _) with (Byte.to_N c) by congruence. apply byte_of_to_N.
Qed.

Lemma sextets_lt (a b : byte) :
  (sextet1 (Byte.to_N a) < 64)%N /\ (sextet2 (Byte.to_N a) (Byte.to_N b) < 64)%N
  /\ (sextet3 (Byte.to_N a) (Byte.to_N b) < 64)%N /\ (sextet4 (Byte.to_N a) < 64)%N.
Proof.
  pose proof (bits_facts1 a) as Ha. pose proof (bits_facts2 a b) as Hab.
  unfold bits_check1, bits_check2 in *. cbv zeta in *.
  split_checks Ha. split_checks Hab. auto.
Qed.

Lemma a2b_tail1 (v1 v2 l p : N) :
  (v1 < 64)%N -> (v2 < 64)%N ->
  Base64.a2b_base64 0 l p
    [Base64.table_b2a v1; Base64.table_b2a v2; Base64.PAD; Base64.PAD]
  = Ok [byte_of_N (N.lor (N.shiftl v1 2) (N.shiftr v2 4))].
Proof.
  intros H1 H2.
  destruct (sextet_table v1 H1) as [T1 P1], (sextet_table v2 H2) as [T2 P2].
  cbn [Base64.a2b_base64]. rewrite P1, T1, P2, T2.
  rewrite byte_eqb_refl. reflexivity.
Qed.

Lemma a2b_tail2 (v1 v2 v3 l p : N) :
  (v1 < 64)%N -> (v2 < 64)%N -> (v3 < 64)%N ->
  Base64.a2b_base64 0 l p
    [Base64.table_b2a v1; Base64.table_b2a v2; Base64.table_b2a v3; Base64.PAD]
  = Ok [byte_of_N (N.lor (N.shiftl v1 2) (N.shiftr v2 4));
        byte_of_N (N.lor (N.shiftl (N.land v2 15) 4) (N.shiftr v3 2))].
Proof.
  intros H1 H2 H3.
  destruct (sextet_table v1 H1) as [T1 P1], (sextet_table v2 H2) as [T2 P2],
           (sextet_table v3 H3) as [T3 P3].
  cbn [Base64.a2b_base64]. rewrite P1, T1, P2, T2. cbn [mbind result_bind].
  rewrite P3, T3. rewrite byte_eqb_refl. reflexivity.
Qed.

(** The decoder, started at the beginning of a quad, gives back the
    bytes the encoder was given. *)
Lemma a2b_b64encode (s : list byte) (l p : N) :
  Base64.a2b_base64 0 l p (Base64.b64encode s) = Ok s.
Proof.
  revert l p. induction s as [| a | a b | a b c s IH] using list_ind3; intros l p.
  - reflexivity.
  - change (Base64.b64encode [a])
      with [Base64.table_b2a (sextet1 (Byte.to_N a));
            Base64.table_b2a (N.shiftl (N.land (Byte.to_N a) 3) 4);
            Base64.PAD; Base64.PAD].
    replace (N.shiftl (N.land (Byte.to_N a) 3) 4)
      with (sextet2 (Byte.to_N a) (Byte.to_N x00))
      by (unfold sextet2; simpl (Byte.to_N x00); simpl (N.shiftr 0 4); apply N.lor_0_r).
    destruct (sextets_lt a x00) as (L1 & L2 & _).
    rewrite a2b_tail1 by assumption.
    destruct (decoded_bytes a x00 x00) as (-> & _). reflexivity.
  - change (Base64.b64encode [a; b])
      with [Base64.table_b2a (sextet1 (Byte.to_N a));
            Base64.table_b2a (sextet2 (Byte.to_N a) (Byte.to_N b));
            Base64.table_b2a (N.shiftl (N.land (Byte.to_N b) 15) 2);
            Base64.PAD].
    replace (N.shiftl (N.land (Byte.to_N b) 15) 2)
      with (sextet3 (Byte.to_N b) (Byte.to_N x00))
      by (unfold sextet3; simpl (Byte.to_N x00); simpl (N.shiftr 0 6); apply N.lor_0_r).
    destruct (sextets_lt a b) as (L1 & L2 & _).
    destruct (sextets_lt b x00) as (_ & _ & L3 & _).
    rewrite a2b_tail2 by assumption.
    destruct (decoded_bytes a b x00) as (-> & -> & _). reflexivity.
  - rewrite b64encode_cons3.
    destruct (sextets_lt a b) as (L1 & L2 & _).
    destruct (sextets_lt b c) as (_ & _ & L3 & _).
    destruct (sextets_lt c x00) as (_ & _ & _ & L4).
    rewrite a2b_quad by assumption. rewrite IH. cbn [mbind result_bind].
    destruct (decoded_bytes a b c) as (-> & -> & ->). reflexivity.
Qed.

Theorem b64decode_b64encode (s : list byte) :
  Base64.b64decode (Base64.b64encode s) = Ok s.
Proof. apply a2b_b64encode. Qed.

Lemma table_b2a_ascii (n : N) : ascii_byte (Base64.table_b2a n) = true.
Proof.
  unfold Base64.table_b2a.
  assert (Hall : forallb ascii_byte Base64.alphabet = true) by (vm_compute; reflexivity).
  rewrite forallb_forall in Hall.
  destruct (nth_in_or_default (N.to_nat n) Base64.alphabet Base64.PAD) as [Hin | ->].
  - now apply Hall.
  - reflexivity.
Qed.

Lemma b64encode_is_ascii (s : list byte) : is_ascii (Base64.b64encode s) = true.
Proof.
  unfold is_ascii.
  induction s as [| a | a b | a b c s IH] using list_ind3.
  - reflexivity.
  - cbn [Base64.b64encode forallb].
    fold (ascii_byte (Base64.table_b2a (N.shiftr (Byte.to_N a) 2))).
    fold (ascii_byte (Base64.table_b2a (N.shiftl (N.land (Byte.to_N a) 3) 4))).
    now rewrite !table_b2a_ascii.
  - cbn [Base64.b64encode forallb].
    repeat match goal with
           | |- context [(Byte.to_N (Base64.table_b2a ?n) <? 128)%N] =>
               fold (ascii_byte (Base64.table_b2a n)); rewrite (table_b2a_ascii n)
           end.
    reflexivity.
  - rewrite b64encode_cons3. cbn [forallb].
    repeat match goal with
           | |- context [(Byte.to_N (Base64.table_b2a ?n) <? 128)%N] =>
               fold (ascii_byte (Base64.table_b2a n)); rewrite (table_b2a_ascii n)
           end.
    exact IH.
Qed.

(** [b64encode(b).decode('ascii')] never raises, and encoding the text
    again as ASCII and decoding it gives [b] back. *)
Lemma b64encode_str_ok (b : list byte) :
  b64encode_str b = Ok (string_of_list_byte (Base64.b64encode b)).
Proof. unfold b64encode_str, decode_ascii. now rewrite b64encode_is_ascii. Qed.

Lemma encode_ascii_b64 (b : list byte) :
  encode_ascii (string_of_list_byte (Base64.b64encode b)) = Ok (Base64.b64encode b).
Proof.
  unfold encode_ascii. cbv zeta.
  rewrite list_byte_of_string_of_list_byte. now rewrite b64encode_is_ascii.
Qed.

(** ** The wrapping of private keys *)

Lemma decode_salt_b64encode (salt : string) :
  b64encode_str (encode_latin1 salt)
  = Ok (string_of_list_byte (Base64.b64encode (encode_latin1 salt)))
  /\ WalletManager.decode_salt
       (string_of_list_byte (Base64.b64encode (encode_latin1 salt))) = Ok salt.
Proof.
  split; [apply b64encode_str_ok|].
  unfold WalletManager.decode_salt. rewrite encode_ascii_b64. cbn [mbind result_bind].
  rewrite b64decode_b64encode. cbn [mbind result_bind].
  unfold decode_latin1, encode_latin1. now rewrite string_of_list_byte_of_string.
Qed.

Section key_wrapping.
Context `{Hashes} `{Constants} `{KeyCipher} `{Curve}.
Context `{!KeyCipherCorrect}.

(** Unwrapping what [export_gcm_encrypted_private_key] wrapped, with
    the password, salt, cost parameter and address of the wrapping,
    gives the key of the account. *)
Lemma export_then_decode (acct : Account.t) (password salt addr : string) (n : Z)
    (scheme : SignatureScheme) :
  Account.get_address_base58 acct = Ok addr ->
  exists enc,
    Account.export_gcm_encrypted_private_key acct password salt (PyInt n) = Ok enc
    /\ Account.get_gcm_decoded_private_key enc password addr salt (PyInt n) scheme
       = Ok (Account.private_key acct).
Proof.
  intros Haddr.
  unfold Account.export_gcm_encrypted_private_key, Account.get_gcm_decoded_private_key.
  cbn [Account.as_int mbind result_bind]. rewrite Haddr. cbn [mbind result_bind].
  fold (b64encode_str
          (gcm_encrypt (scrypt_kd password salt n 8 8 64) (gcm_nonce addr)
             (list_byte_of_string addr) (Account.private_key acct))).
  rewrite b64encode_str_ok. eexists. split; [reflexivity|].
  rewrite encode_ascii_b64. cbn [mbind result_bind].
  rewrite b64decode_b64encode. cbn [mbind result_bind].
  now rewrite gcm_decrypt_encrypt.
Qed.

End key_wrapping.

Lemma size_nat_bound (i : N) : (i < 2 ^ N.of_nat (N.size_nat i))%N.
Proof.
  destruct i as [|p]; [reflexivity|]. cbn [N.size_nat].
  induction p as [p IH | p IH |]; cbn [Pos.size_nat].
  - rewrite Nat2N.inj_succ, N.pow_succ_r'. lia.
  - rewrite Nat2N.inj_succ, N.pow_succ_r'. lia.
  - reflexivity.
Qed.

Lemma of_digits_snoc (base : N) (ds : list N) (d : N) :
  Base58.of_digits base (ds ++ [d]) = (Base58.of_digits base ds * base + d)%N.
Proof. unfold Base58.of_digits. now rewrite fold_left_app. Qed.

Lemma no_leading_zero_snoc (ds : list N) (d : N) :
  no_leading_zero (ds ++ [d]) -> no_leading_zero ds /\ (ds = [] -> d <> 0%N).
Proof.
  destruct ds as [|x ds]; cbn; [auto|].
  intros Hx. split; [exact Hx | discriminate].
Qed.

Lemma of_digits_pos (base : N) (ds : list N) :
  (1 <= base)%N -> no_leading_zero ds -> ds <> [] -> (0 < Base58.of_digits base ds)%N.
Proof.
  intros Hb. induction ds as [|d ds IH] using rev_ind; [congruence|].
  intros Hnz _. rewrite of_digits_snoc.
  apply no_leading_zero_snoc in Hnz as [Hnz Hd].
  destruct ds as [|x ds'].
  - cbn. specialize (Hd eq_refl). lia.
  - specialize (IH Hnz ltac:(discriminate)). nia.
Qed.

Section base.
Variable base : N.
Hypothesis base_ge_2 : (2 <= base)%N.

(** The loop writes the digits of [i] in front of [acc]: they are
    digits, the first of them is not zero, and they denote [i]. *)
Lemma to_digits_spec (fuel : nat) (i : N) (acc : list N) :
  (i < 2 ^ N.of_nat fuel)%N ->
  exists ds,
    Base58.to_digits base fuel i acc = ds ++ acc
    /\ Base58.of_digits base ds = i
    /\ Forall (fun d => (d < base)%N) ds
    /\ no_leading_zero ds.
Proof.
  revert i acc. induction fuel as [|fuel IH]; intros i acc Hi.
  - exists []. cbn in *. assert (i = 0%N) by lia. subst. auto.
  - cbn [Base58.to_digits]. destruct (N.eqb_spec i 0) as [-> | Hnz].
    + exists []. cbn. auto.
    + rewrite Nat2N.inj_succ, N.pow_succ_r' in Hi.
      assert (Hdiv : (i / base < 2 ^ N.of_nat fuel)%N).
      { apply N.Div0.div_lt_upper_bound. nia. }
      destruct (IH (i / base)%N ((i mod base)%N :: acc) Hdiv)
        as (ds & Hrun & Hval & Hall & Hlead).
      exists (ds ++ [(i mod base)%N]). split; [|split; [|split]].
      * rewrite Hrun. now rewrite <- app_assoc.
      * rewrite of_digits_snoc, Hval.
        pose proof (N.div_mod i base ltac:(lia)). lia.
      * apply Forall_app. split; [exact Hall|].
        constructor; [|constructor]. apply N.mod_lt. lia.
      * destruct ds as [|x ds']; cbn; [|exact Hlead].
        cbn in Hval. rewrite N.mod_small; [exact Hnz|].
        apply N.div_small_iff; [lia | congruence].
Qed.

(** Conversely the loop finds the digits a number was built from. *)
Lemma to_digits_of_digits (ds : list N) :
  Forall (fun d => (d < base)%N) ds -> no_leading_zero ds ->
  forall (fuel : nat) (acc : list N),
    (Base58.of_digits base ds < 2 ^ N.of_nat fuel)%N ->
    Base58.to_digits base fuel (Base58.of_digits base ds) acc = ds ++ acc.
Proof.
  induction ds as [|d ds IH] using rev_ind; intros Hall Hlead fuel acc Hfuel.
  - cbn. destruct fuel; reflexivity.
  - apply Forall_app in Hall as [Hall Hd]. inversion Hd as [|? ? Hdlt _]; subst.
    pose proof (no_leading_zero_snoc _ _ Hlead) as [Hlead' Hdnz].
    assert (Hpos : (0 < Base58.of_digits base (ds ++ [d]))%N).
    { apply of_digits_pos; [lia | exact Hlead |]. now destruct ds. }
    rewrite of_digits_snoc in *.
    destruct fuel as [|fuel]; [cbn in Hfuel; lia|].
    cbn [Base58.to_digits].
    destruct (N.eqb_spec (Base58.of_digits base ds * base + d) 0) as [E|_]; [lia|].
    rewrite Nat2N.inj_succ, N.pow_succ_r' in Hfuel.
    assert (Hq : ((Base58.of_digits base ds * base + d) / base
                  = Base58.of_digits base ds)%N).
    { symmetry. apply (N.div_unique _ _ _ d); [exact Hdlt | lia]. }
    assert (Hr : ((Base58.of_digits base ds * base + d) mod base = d)%N).
    { symmetry. apply (N.mod_unique _ _ (Base58.of_digits base ds)); [exact Hdlt | lia]. }
    rewrite Hq, Hr, IH; [now rewrite <- app_assoc | exact Hall | exact Hlead' | nia].
Qed.

Lemma digits_spec (i : N) :
  Base58.of_digits base (Base58.digits base i) = i
  /\ Forall (fun d => (d < base)%N) (Base58.digits base i)
  /\ no_leading_zero (Base58.digits base i).
Proof.
  unfold Base58.digits.
  destruct (to_digits_spec (N.size_nat i) i [] (size_nat_bound i))
    as (ds & -> & Hv & Hall & Hlead).
  rewrite app_nil_r. auto.
Qed.

Lemma digits_of_digits (ds : list N) :
  Forall (fun d => (d < base)%N) ds -> no_leading_zero ds ->
  Base58.digits base (Base58.of_digits base ds) = ds.
Proof.
  intros Hall Hlead. unfold Base58.digits.
  rewrite to_digits_of_digits by (auto using size_nat_bound).
  apply app_nil_r.
Qed.

End base.

Lemma b58_digit_table (n : N) :
  (n < 58)%N ->
  index_of (Base58.b58_char n) Base58.alphabet = Some n
  /\ (n <> 0%N -> Byte.eqb (Base58.b58_char n) (Base58.b58_char 0) = false).
Proof.
  intros Hn.
  assert (Hall : forallb b58_digit_ok (map N.of_nat (seq 0 58)) = true)
    by (vm_compute; reflexivity).
  rewrite forallb_forall in Hall.
  assert (Hin : In n (map N.of_nat (seq 0 58))).
  { apply in_map_iff. exists (N.to_nat n). split; [apply N2Nat.id|].
    apply in_seq. lia. }
  apply Hall in Hin. unfold b58_digit_ok in Hin.
  apply andb_true_iff in Hin as [Hidx Hone].
  destruct (index_of (Base58.b58_char n) Base58.alphabet) as [m|]; [|discriminate].
  apply N.eqb_eq in Hidx. subst m. split; [reflexivity|].
  intros Hnz. apply Bool.eqb_prop in Hone. rewrite Hone. now apply N.eqb_neq.
Qed.

Lemma lstrip_replicate (c : byte) (k : nat) (rest : list byte) :
  match rest with [] => True | x :: _ => Byte.eqb x c = false end ->
  Base58.lstrip c (replicate k c ++ rest) = rest.
Proof.
  intros Hrest. induction k as [|k IH]; cbn.
  - destruct rest as [|x rest]; [reflexivity|]. cbn. now rewrite Hrest.
  - now rewrite byte_eqb_refl.
Qed.

Lemma lstrip_split (c : byte) (v : list byte) :
  v = replicate (length v - length (Base58.lstrip c v)) c ++ Base58.lstrip c v
  /\ match Base58.lstrip c v with [] => True | x :: _ => Byte.eqb x c = false end.
Proof.
  induction v as [|x v [IH1 IH2]]; cbn [Base58.lstrip]; [now auto|].
  destruct (Byte.eqb x c) eqn:E.
  - apply byte_eqb_eq in E. subst x. split; [|exact IH2].
    assert (Hlen : (length (Base58.lstrip c v) <= length v)%nat).
    { rewrite IH1 at 2. rewrite length_app. lia. }
    cbn [length]. replace (S (length v) - length (Base58.lstrip c v))%nat
      with (S (length v - length (Base58.lstrip c v))) by lia.
    cbn [replicate]. cbn. now rewrite <- IH1.
  - split; [|exact E]. now rewrite Nat.sub_diag.
Qed.

Lemma b58_indices_map (ds : list N) :
  Forall (fun d => (d < 58)%N) ds ->
  Base58.b58_indices (map Base58.b58_char ds) = Ok ds.
Proof.
  induction 1 as [|d ds Hd _ IH]; cbn [map Base58.b58_indices]; [reflexivity|].
  destruct (b58_digit_table d Hd) as [-> _]. rewrite IH. reflexivity.
Qed.

Lemma map_byte_of_to_N (v : list byte) : map byte_of_N (map Byte.to_N v) = v.
Proof.
  rewrite map_map. rewrite <- (map_id v) at 2.
  apply map_ext. apply byte_of_to_N.
Qed.

Lemma Forall_to_N_lt (v : list byte) :
  Forall (fun d => (d < 256)%N) (map Byte.to_N v).
Proof. induction v; cbn [map]; constructor; auto using byte_to_N_lt. Qed.

Theorem b58decode_b58encode (v : list byte) :
  Base58.b58decode (Base58.b58encode v) = Ok v.
Proof.
  destruct (lstrip_split x00 v) as [Hv Hhead].
  set (rest := Base58.lstrip x00 v) in *.
  set (k := (length v - length rest)%nat) in *.
  unfold Base58.b58encode. fold rest. fold k. cbv zeta.
  set (acc := Base58.of_digits 256 (map Byte.to_N rest)).
  destruct (digits_spec 58 ltac:(lia) acc) as (Hval & Hall & Hlead).
  unfold Base58.b58encode_int.
  assert (Hstrip : Base58.lstrip (Base58.b58_char 0)
                     (replicate k (Base58.b58_char 0)
                        ++ map Base58.b58_char (Base58.digits 58 acc))
                   = map Base58.b58_char (Base58.digits 58 acc)).
  { apply lstrip_replicate.
    destruct (Base58.digits 58 acc) as [|d ds]; cbn [map]; [exact I|].
    inversion Hall as [|? ? Hd _]. now apply b58_digit_table. }
  unfold Base58.b58decode. rewrite Hstrip. cbv zeta.
  rewrite length_app, length_replicate.
  replace (k + length (map Base58.b58_char (Base58.digits 58 acc))
           - length (map Base58.b58_char (Base58.digits 58 acc)))%nat with k by lia.
  unfold Base58.b58decode_int. rewrite b58_indices_map by exact Hall.
  cbn [mbind result_bind]. rewrite Hval. unfold acc.
  rewrite digits_of_digits.
  - rewrite map_byte_of_to_N. now rewrite <- Hv.
  - lia.
  - apply Forall_to_N_lt.
  - destruct rest as [|x rest']; cbn; [exact I|].
    apply byte_eqb_neq in Hhead. intros E. apply Hhead.
    rewrite <- (byte_of_to_N x), E. reflexivity.
Qed.

(** ** The address codec *)

Section address.
Context `{Hashes} `{Constants} {hashes_ok : HashesSpec}.

Lemma checksum_length (data : list byte) : length (Address.checksum data) = 4%nat.
Proof. unfold Address.checksum. rewrite length_take, sha256_length. reflexivity. Qed.

(** Decoding the text of an address gives the address. *)
Lemma address_b58decode_b58encode (h : list byte) :
  length h = 20%nat ->
  exists text,
    Address.b58encode (Address.mk h) = Ok text
    /\ Address.b58decode text = Ok (Address.mk h).
Proof.
  intros Hlen. unfold Address.b58encode. cbn [Address.script_hash].
  rewrite Hlen. cbn [Nat.eqb]. eexists. split; [reflexivity|].
  unfold Address.b58decode.
  rewrite list_byte_of_string_of_list_byte, b58decode_b58encode.
  set (data := ADDR_VERSION :: h).
  assert (Hdata : length data = 21%nat) by (cbn; lia).
  rewrite length_app, Hdata, checksum_length. cbn [Nat.add Nat.eqb].
  rewrite take_app_length' by (symmetry; exact Hdata).
  rewrite drop_app_length' by (symmetry; exact Hdata).
  assert (Heq : bytes_eqb (Address.checksum data) (Address.checksum data) = true)
    by now apply bytes_eqb_eq.
  rewrite Heq. reflexivity.
Qed.

(** A text that is not base 58, or whose bytes are not 25, or whose
    last four bytes are not the checksum of the first 21, is not
    decoded. *)
Lemma address_b58decode_rejects (text : string) :
  match Base58.b58decode (list_byte_of_string text) with
  | Raise _ => Address.b58decode text = Raise FormatError
  | Ok data =>
      (length data <> 25%nat \/ drop 21 data <> Address.checksum (take 21 data)) ->
      Address.b58decode text = Raise FormatError
  end.
Proof.
  unfold Address.b58decode.
  destruct (Base58.b58decode (list_byte_of_string text)) as [data|e]; [|reflexivity].
  intros [Hlen | Hsum].
  - apply Nat.eqb_neq in Hlen. now rewrite Hlen.
  - destruct (length data =? 25)%nat; [|reflexivity].
    destruct (bytes_eqb (drop 21 data) (Address.checksum (take 21 data))) eqn:E;
      [|reflexivity].
    apply bytes_eqb_eq in E. contradiction.
Qed.

(** What is decoded was well formed: 25 bytes with a matching
    checksum. *)
Lemma address_b58decode_accepts (text : string) (a : Address.t) :
  Address.b58decode text = Ok a ->
  exists data,
    Base58.b58decode (list_byte_of_string text) = Ok data
    /\ length data = 25%nat
    /\ drop 21 data = Address.checksum (take 21 data)
    /\ Address.to_bytes a = drop 1 (take 21 data).
Proof.
  unfold Address.b58decode.
  destruct (Base58.b58decode (list_byte_of_string text)) as [data|e]; [|discriminate].
  destruct (length data =? 25)%nat eqn:Hlen; [|discriminate].
  destruct (bytes_eqb (drop 21 data) (Address.checksum (take 21 data))) eqn:E;
    [|discriminate].
  intros [= <-]. exists data. apply Nat.eqb_eq in Hlen. apply bytes_eqb_eq in E.
  auto.
Qed.

(** C3.  For every 20-byte script hash [h], [Address(h)] has a base 58
    text, and decoding that text and taking the bytes gives [h];
    decoding a text that is not base 58, whose bytes are not 25, or
    whose last four bytes are not the checksum of the first 21, fails
    with [FormatError]. *)
Theorem address_round_trip (h : list byte) :
  length h = 20%nat ->
  (exists text,
      Address.b58encode (Address.mk h) = Ok text
      /\ (a ← Address.b58decode text; Ok (Address.to_bytes a)) = Ok h)
  /\ (forall text,
        match Base58.b58decode (list_byte_of_string text) with
        | Raise _ => Address.b58decode text = Raise FormatError
        | Ok data =>
            length data <> 25%nat \/ drop 21 data <> Address.checksum (take 21 data) ->
            Address.b58decode text = Raise FormatError
        end).
Proof.
  intros Hlen. split; [|apply address_b58decode_rejects].
  destruct (address_b58decode_b58encode h Hlen) as (text & Henc & Hdec).
  exists text. split; [exact Henc|]. now rewrite Hdec.
Qed.

End address.

(** ** The wallet manager *)

Import WalletManager.

(** ** The store *)

Lemma alloc_fresh (o : obj) (h : gmap loc obj) : h !! (alloc o h).1 = None.
Proof. apply not_elem_of_dom, is_fresh. Qed.

Lemma new_WalletData_spec (v : WalletData.t) (h : gmap loc obj) :
  exists li la lw,
    new_WalletData v h
    = (lw, <[lw := OWallet (mkObj (WalletData.name v) (WalletData.version v)
                          (WalletData.create_time v) (WalletData.default_ont_id v)
                          (WalletData.default_account_address v) (WalletData.scrypt v)
                          li la)]>
             (<[la := OAccounts (WalletData.accounts v)]>
                (<[li := OIdentities (WalletData.identities v)]> h)))
    /\ h !! li = None /\ h !! la = None /\ h !! lw = None
    /\ li <> la /\ li <> lw /\ la <> lw.
Proof.
  unfold new_WalletData, alloc.
  set (li := fresh (dom h)).
  set (h1 := <[li := OIdentities (WalletData.identities v)]> h).
  set (la := fresh (dom h1)).
  set (h2 := <[la := OAccounts (WalletData.accounts v)]> h1).
  set (lw := fresh (dom h2)).
  assert (Hli : h !! li = None) by apply not_elem_of_dom, is_fresh.
  assert (Hla : h1 !! la = None) by apply not_elem_of_dom, is_fresh.
  assert (Hlw : h2 !! lw = None) by apply not_elem_of_dom, is_fresh.
  exists li, la, lw. split; [reflexivity|].
  unfold h2, h1 in *.
  apply lookup_insert_None in Hla as [Hla1 Hla2].
  apply lookup_insert_None in Hlw as [Hlw1 Hlw2].
  apply lookup_insert_None in Hlw1 as [Hlw1 Hlw3].
  repeat split; auto.
Qed.

Lemma read_new_WalletData (v : WalletData.t) (h : gmap loc obj) :
  read_wallet (new_WalletData v h).2 (new_WalletData v h).1 = Some v.
Proof.
  destruct (new_WalletData_spec v h) as (li & la & lw & -> & Hi & Ha & Hw & N1 & N2 & N3).
  cbn [fst snd]. unfold read_wallet.
  rewrite lookup_insert_eq. cbn.
  rewrite lookup_insert_ne, lookup_insert_ne, lookup_insert_eq by auto.
  rewrite lookup_insert_ne, lookup_insert_eq by auto.
  now destruct v.
Qed.

Lemma new_WalletData_extends (v : WalletData.t) (h : gmap loc obj) (l : loc) :
  is_Some (h !! l) -> (new_WalletData v h).2 !! l = h !! l.
Proof.
  intros [o Ho].
  destruct (new_WalletData_spec v h) as (li & la & lw & -> & Hi & Ha & Hw & _).
  cbn [snd]. rewrite !lookup_insert_ne by congruence. reflexivity.
Qed.

Lemma new_WalletData_footprint (v : WalletData.t) (h : gmap loc obj) (l : loc) :
  l ∈ footprint (new_WalletData v h).2 (new_WalletData v h).1 -> h !! l = None.
Proof.
  destruct (new_WalletData_spec v h) as (li & la & lw & -> & Hi & Ha & Hw & _).
  cbn [fst snd]. unfold footprint. rewrite lookup_insert_eq. cbn.
  intros Hl. apply elem_of_union in Hl as [Hl | Hl].
  - apply elem_of_union in Hl as [Hl | Hl]; apply elem_of_singleton in Hl; now subst.
  - apply elem_of_singleton in Hl; now subst.
Qed.

Lemma footprint_allocated (h : gmap loc obj) (l : loc) (v : WalletData.t) :
  read_wallet h l = Some v -> forall l', l' ∈ footprint h l -> is_Some (h !! l').
Proof.
  unfold read_wallet, footprint. intros Hr l' Hl'.
  destruct (h !! l) as [[o| |]|] eqn:E; try discriminate.
  destruct (h !! o_identities o) as [[| ids |]|] eqn:Ei; try discriminate.
  destruct (h !! o_accounts o) as [[| | accts]|] eqn:Ea; try discriminate.
  apply elem_of_union in Hl' as [Hl' | Hl'].
  - apply elem_of_union in Hl' as [Hl' | Hl']; apply elem_of_singleton in Hl'; subst; eauto.
  - apply elem_of_singleton in Hl'; subst; eauto.
Qed.

(** The value and the footprint of a wallet depend on the objects of
    its footprint alone. *)
Lemma read_wallet_agree (h h' : gmap loc obj) (l : loc) :
  (forall l', l' ∈ footprint h l -> h' !! l' = h !! l') ->
  read_wallet h' l = read_wallet h l /\ footprint h' l = footprint h l.
Proof.
  intros Hag. unfold read_wallet, footprint in *.
  assert (Hl : h' !! l = h !! l).
  { apply Hag. destruct (h !! l) as [[o| |]|]; set_solver. }
  rewrite Hl. destruct (h !! l) as [[o| |]|]; auto.
  rewrite (Hag (o_identities o)), (Hag (o_accounts o)) by set_solver. auto.
Qed.

(** ** Methods that stay inside the wallet in memory *)

Lemma stable_refl (w : world) : stable w w.
Proof. unfold stable. auto. Qed.

Lemma stable_trans (w1 w2 w3 : world) : stable w1 w2 -> stable w2 w3 -> stable w1 w3.
Proof.
  intros (F1 & M1 & P1 & H1) (F2 & M2 & P2 & H2).
  rewrite M1 in *. unfold stable. repeat split; try congruence.
  intros l Hl. rewrite H2 by (rewrite P1; exact Hl). now apply H1.
Qed.

(** Changing the files, the path or the scheme moves no object. *)
Lemma stable_same_heap (w w' : world) :
  heap w' = heap w -> wallet_file w' = wallet_file w ->
  wallet_in_mem w' = wallet_in_mem w -> stable w w'.
Proof. intros Hh Hf Hm. unfold stable. rewrite Hh. auto. Qed.

Lemma in_footprint_self (h : gmap loc obj) (l : loc) : l ∈ footprint h l.
Proof. unfold footprint. destruct (h !! l) as [[o| |]|]; set_solver. Qed.

(** Overwriting the wallet object in memory by one with the same two
    lists. *)
Lemma stable_store_wallet (w : world) (o o' : WalletObj) :
  heap w !! wallet_in_mem w = Some (OWallet o) ->
  o_identities o' = o_identities o -> o_accounts o' = o_accounts o ->
  stable w (set_heap (<[wallet_in_mem w := OWallet o']> (heap w)) w).
Proof.
  intros Ho Hi Ha. unfold stable. cbn [set_heap heap wallet_in_mem wallet_file].
  split; [reflexivity|]. split; [reflexivity|]. split.
  - unfold footprint. rewrite lookup_insert_eq, Ho. now rewrite Hi, Ha.
  - intros l Hl. apply lookup_insert_ne. intros E. subst l. apply Hl, in_footprint_self.
Qed.

(** Overwriting one of its two lists. *)
Lemma stable_store_list (w : world) (o : WalletObj) (l : loc) (ob : obj) :
  heap w !! wallet_in_mem w = Some (OWallet o) ->
  l = o_identities o \/ l = o_accounts o ->
  l <> wallet_in_mem w ->
  stable w (set_heap (<[l := ob]> (heap w)) w).
Proof.
  intros Ho Hlist Hne. unfold stable. cbn [set_heap heap wallet_in_mem wallet_file].
  split; [reflexivity|]. split; [reflexivity|]. split.
  - unfold footprint. rewrite lookup_insert_ne by exact Hne. reflexivity.
  - intros l' Hout. apply lookup_insert_ne. intros E. subst l'. apply Hout.
    unfold footprint. rewrite Ho. destruct Hlist as [-> | ->]; set_solver.
Qed.

Lemma fp_ret {A} (a : A) : frame_preserving (mret a : M A).
Proof. intros w. apply stable_refl. Qed.

Lemma fp_raise {A} (e : exn) : frame_preserving (raise e : M A).
Proof. intros w. apply stable_refl. Qed.

Lemma fp_lift {A} (r : result A) : frame_preserving (lift r).
Proof. intros w. apply stable_refl. Qed.

Lemma fp_get : frame_preserving get.
Proof. intros w. apply stable_refl. Qed.

Lemma fp_bind {A B} (m : M A) (k : A -> M B) :
  frame_preserving m -> (forall a, frame_preserving (k a)) ->
  frame_preserving (m ≫= k).
Proof.
  intros Hm Hk w. unfold mbind, M_bind. specialize (Hm w).
  destruct (m w) as [[a|e] w']; cbn in *; [|exact Hm].
  eapply stable_trans; [exact Hm | apply Hk].
Qed.

Lemma fp_get_obj (l : loc) : frame_preserving (get_obj l).
Proof.
  intros w. unfold get_obj, mbind, M_bind, get. cbn.
  destruct (heap w !! l) as [[o| |]|]; apply stable_refl.
Qed.

Lemma fp_get_accounts (l : loc) : frame_preserving (get_accounts l).
Proof.
  intros w. unfold get_accounts, mbind, M_bind, get. cbn.
  destruct (heap w !! l) as [[o| |]|]; apply stable_refl.
Qed.

Lemma fp_get_identities (l : loc) : frame_preserving (get_identities l).
Proof.
  intros w. unfold get_identities, mbind, M_bind, get. cbn.
  destruct (heap w !! l) as [[o| |]|]; apply stable_refl.
Qed.

Lemma fp_get_value (l : loc) : frame_preserving (get_value l).
Proof.
  intros w. unfold get_value, mbind, M_bind, get. cbn.
  destruct (read_wallet (heap w) l); apply stable_refl.
Qed.

Lemma fp_case_find {A B} (o : option A) (f : A -> M B) (m : M B) :
  (forall a, frame_preserving (f a)) -> frame_preserving m ->
  frame_preserving (match o with Some a => f a | None => m end).
Proof. intros Hf Hm. destruct o; auto. Qed.

Create HintDb fp.

#[local] Hint Resolve fp_ret fp_raise fp_lift fp_get fp_get_obj fp_get_accounts
  fp_get_identities fp_get_value : fp.

Ltac fp_step :=
  first [ solve [auto with fp]
        | apply fp_bind; [| intros ?]
        | apply fp_case_find; [intros ? |] ].

Section frame.
Context `{Hashes} `{Constants} `{KeyCipher} `{Curve} `{WalletClasses}.

Lemma fp_create_account (label pwd : option string) (salt : string)
    (private_key : list byte) (account_flag : bool) (uuid_hex : string) :
  frame_preserving (__create_account label pwd salt private_key account_flag uuid_hex).
Proof.
  intros w. unfold __create_account.
  unfold mbind at 1, M_bind at 1. cbn [get].
  unfold mbind at 1, M_bind at 1, lift at 1.
  destruct (new_Account private_key (scheme w)) as [account|e]; [|apply stable_refl].
  destruct (is_SHA256withECDSA (scheme w)); [|apply stable_refl].
  unfold mbind at 1, M_bind at 1, lift at 1.
  destruct (match pwd with Some _ => _ | None => _ end) as [key|e]; [|apply stable_refl].
  unfold mbind at 1, M_bind at 1, lift at 1.
  destruct (Account.get_address_base58 _) as [addr|e]; [|apply stable_refl].
  unfold mbind at 1, M_bind at 1, get_obj at 1.
  unfold mbind at 1, M_bind at 1. cbn [get].
  destruct (heap w !! wallet_in_mem w) as [[o| |]|] eqn:Ho; try apply stable_refl.
  cbn [mret M_ret].
  destruct account_flag.
  - unfold mbind at 1, M_bind at 1, get_accounts at 1.
    unfold mbind at 1, M_bind at 1. cbn [get].
    destruct (heap w !! o_accounts o) as [[| |accounts]|] eqn:Ha; try apply stable_refl.
    cbn [mret M_ret].
    destruct (existsb _ accounts); [apply stable_refl|].
    rewrite b64encode_str_ok.
    assert (Hne : o_accounts o <> wallet_in_mem w) by congruence.
    destruct (length accounts =? 0)%nat.
    + cbn [mbind M_bind store modify lift mret M_ret snd fst set_heap heap wallet_in_mem wallet_file].
      eapply stable_trans; cycle 1.
      * eapply (stable_store_list (set_heap _ w) _ (o_accounts o));
          cbn [set_heap heap wallet_in_mem wallet_file].
        -- apply lookup_insert_eq.
        -- right. reflexivity.
        -- exact Hne.
      * eapply (stable_store_wallet w o); [exact Ho | reflexivity | reflexivity].
    + cbn [mbind M_bind store modify lift mret M_ret snd fst set_heap heap wallet_in_mem wallet_file].
      eapply (stable_store_list w o (o_accounts o)); auto.
  - unfold mbind at 1, M_bind at 1, get_identities at 1.
    unfold mbind at 1, M_bind at 1. cbn [get].
    destruct (heap w !! o_identities o) as [[|identities|]|] eqn:Hi; try apply stable_refl.
    cbn [mret M_ret].
    destruct (existsb _ identities); [apply stable_refl|].
    unfold b64encode_str, decode_ascii. rewrite b64encode_is_ascii.
    assert (Hne : o_identities o <> wallet_in_mem w) by congruence.
    destruct (length identities =? 0)%nat.
    + cbn [mbind M_bind store modify lift mret M_ret snd fst set_heap heap wallet_in_mem wallet_file].
      eapply stable_trans; cycle 1.
      * eapply (stable_store_list (set_heap _ w) _ (o_identities o));
          cbn [set_heap heap wallet_in_mem wallet_file].
        -- apply lookup_insert_eq.
        -- left. reflexivity.
        -- exact Hne.
      * eapply (stable_store_wallet w o); [exact Ho | reflexivity | reflexivity].
    + cbn [mbind M_bind store modify lift mret M_ret snd fst set_heap heap wallet_in_mem wallet_file].
      eapply (stable_store_list w o (o_identities o)); auto.
Qed.

End frame.

Section public_methods.
Context `{Hashes} `{Constants} `{KeyCipher} `{Curve} `{WalletClasses}.

#[local] Hint Resolve fp_create_account : fp.

Lemma fp_is_file_exist (path : string) : frame_preserving (is_file_exist path).
Proof. intros w. apply stable_refl. Qed.

Lemma fp_save : frame_preserving save.
Proof.
  intros w. unfold save, get_value.
  unfold mbind, M_bind, mret, M_ret, get, modify, raise. cbv beta iota zeta.
  destruct (can_open_for_writing (wallet_path w));
    [|destruct (no_such_directory (wallet_path w)); apply stable_refl].
  destruct (read_wallet (heap w) (wallet_in_mem w)); [|apply stable_refl].
  now apply stable_same_heap.
Qed.

Lemma fp_create_wallet (wallet_path today : string) :
  frame_preserving (create_wallet wallet_path today).
Proof.
  unfold create_wallet. apply fp_bind; [apply fp_is_file_exist|]. intros ex.
  destruct (negb ex); [|apply fp_raise].
  intros w. unfold get_obj, store.
  unfold mbind at 1 2 3 4, M_bind at 1 2 3 4, mret, M_ret, get, modify, raise.
  cbv beta iota zeta.
  destruct (heap w !! wallet_in_mem w) as [[o| |]|] eqn:Ho; try apply stable_refl.
  eapply stable_trans; [| apply fp_save].
  now apply (stable_store_wallet w o).
Qed.

Lemma fp_create_identity_ (label pwd : option string) (salt : string)
    (private_key : list byte) (uuid_hex : string) :
  frame_preserving (__create_identity label pwd salt private_key uuid_hex).
Proof. unfold __create_identity. repeat fp_step. Qed.

Lemma fp_create_account_pub (label : option string) (pwd : string)
    (pri_key : list byte) (salt uuid_hex : string) :
  frame_preserving (create_account label pwd pri_key salt uuid_hex).
Proof. unfold create_account. repeat fp_step. Qed.

Lemma fp_create_account_info (label : option string) (pwd salt : string)
    (private_key : list byte) (uuid_hex : string) :
  frame_preserving (create_account_info label pwd salt private_key uuid_hex).
Proof. unfold create_account_info. repeat fp_step. Qed.

#[local] Hint Resolve fp_create_identity_ fp_create_account_info : fp.

Lemma fp_import_account (label : option string) (enc pwd addr b64_salt uuid_hex : string) :
  frame_preserving (import_account label enc pwd addr b64_salt uuid_hex).
Proof. unfold import_account. repeat fp_step. Qed.

Lemma fp_create_account_from_private_key (label : option string) (password : string)
    (private_key : list byte) (salt uuid_hex : string) :
  frame_preserving
    (create_account_from_private_key label password private_key salt uuid_hex).
Proof. unfold create_account_from_private_key. repeat fp_step. Qed.

Lemma fp_import_identity (label : option string) (enc pwd salt addr uuid_hex : string) :
  frame_preserving (import_identity label enc pwd salt addr uuid_hex).
Proof. unfold import_identity. repeat fp_step. Qed.

Lemma run_mutation_stable (c : mutation) (w : world) : stable w (run_mutation c w).
Proof.
  destruct c; cbn [run_mutation]; unfold after.
  - apply fp_create_account_pub.
  - unfold create_identity. apply fp_create_identity_.
  - unfold create_identity_from_private_key. apply fp_create_identity_.
  - apply fp_create_account_from_private_key.
  - apply fp_import_account.
  - apply fp_import_identity.
  - apply fp_create_wallet.
Qed.

Lemma run_mutations_stable (cs : list mutation) (w : world) :
  stable w (run_mutations cs w).
Proof.
  unfold run_mutations. revert w.
  induction cs as [|c cs IH]; intros w; cbn [fold_left].
  - apply stable_refl.
  - eapply stable_trans; [apply run_mutation_stable | apply IH].
Qed.

End public_methods.

(** What a stable step leaves alone: the wallet [wallet_file] refers
    to, as long as it shares no object with the wallet in memory. *)
Lemma stable_file_value (w w' : world) :
  separate w -> stable w w' -> file_value w' = file_value w /\ separate w'.
Proof.
  intros Hsep (Hf & Hm & Hfp & Hh).
  assert (Hag : forall l, l ∈ footprint (heap w) (wallet_file w) ->
                          heap w' !! l = heap w !! l).
  { intros l Hl. apply Hh. intros Hl'. exact (Hsep l Hl Hl'). }
  destruct (read_wallet_agree (heap w) (heap w') (wallet_file w) Hag) as [Hv Hfoot].
  unfold file_value, separate. rewrite Hf, Hm. split; [exact Hv|].
  rewrite Hfoot, Hfp. exact Hsep.
Qed.

(** An aliased manager: [wallet_file] is the wallet in memory. *)
Lemma stable_aliased (w w' : world) :
  wallet_file w = wallet_in_mem w -> stable w w' ->
  wallet_file w' = wallet_in_mem w' /\ file_value w' = mem_value w'.
Proof.
  intros Hal (Hf & Hm & _). unfold file_value, mem_value.
  rewrite Hf, Hm, Hal. auto.
Qed.

(** ** Deep copies *)

(** The state in which [wallet_in_mem] is a new deep copy of the
    wallet [wallet_file] refers to. *)
Lemma deepcopy_into_mem (w : world) (v : WalletData.t) :
  file_value w = Some v ->
  let '(c, h') := new_WalletData v (heap w) in
  let w' := set_wallet_in_mem c (set_heap h' w) in
  deepcopy_m (wallet_file w) w = (Ok c, set_heap h' w)
  /\ separate w' /\ file_value w' = Some v /\ mem_value w' = Some v.
Proof.
  unfold file_value. intros Hv.
  pose proof (read_new_WalletData v (heap w)) as Hread.
  pose proof (new_WalletData_extends v (heap w)) as Hext.
  pose proof (new_WalletData_footprint v (heap w)) as Hfresh.
  destruct (new_WalletData v (heap w)) as [c h'] eqn:Hnew. cbn [fst snd] in *.
  assert (Hag : forall l, l ∈ footprint (heap w) (wallet_file w) -> h' !! l = heap w !! l).
  { intros l Hl. apply Hext. eapply footprint_allocated; eauto. }
  destruct (read_wallet_agree (heap w) h' (wallet_file w) Hag) as [Hrv Hfoot].
  split; [|split; [|split]].
  - unfold deepcopy_m, deepcopy.
    unfold mbind at 1, M_bind at 1. cbn [get]. rewrite Hv. cbn [mbind option_bind].
    rewrite Hnew. reflexivity.
  - unfold separate. cbn [set_wallet_in_mem set_heap heap wallet_file wallet_in_mem].
    rewrite Hfoot. intros l Hl Hl'.
    apply Hfresh in Hl'.
    destruct (footprint_allocated _ _ _ Hv l Hl) as [o Ho]. congruence.
  - unfold file_value. cbn [set_wallet_in_mem set_heap heap wallet_file]. congruence.
  - unfold mem_value. cbn [set_wallet_in_mem set_heap heap wallet_in_mem]. exact Hread.
Qed.

Section copies.
Context `{Hashes} `{Constants} `{KeyCipher} `{Curve} `{WalletClasses}.

(** [reset_wallet]: afterwards the wallet in memory is a copy that
    shares nothing with the wallet of [wallet_file], which is as it
    was, and the two are equal. *)
Lemma reset_wallet_spec (w : world) (v : WalletData.t) :
  file_value w = Some v ->
  let w' := after reset_wallet w in
  separate w' /\ wallet_file w' = wallet_file w
  /\ file_value w' = Some v /\ mem_value w' = Some v.
Proof.
  intros Hv. pose proof (deepcopy_into_mem w v Hv) as Hd.
  destruct (new_WalletData v (heap w)) as [c h'].
  destruct Hd as (Hrun & Hsep & Hf & Hm).
  unfold after, reset_wallet, mbind, M_bind, modify, mret, M_ret, get.
  cbv beta iota zeta. rewrite Hrun. cbn [snd].
  repeat split; assumption || reflexivity.
Qed.

(** [open_wallet], when it returns: [wallet_file] is the wallet read
    from the file and [wallet_in_mem] a deep copy of it. *)
Lemma open_wallet_spec (path : string) (w w' : world) (l : loc) :
  open_wallet path w = (Ok l, w') ->
  separate w' /\ wallet_file w' = l
  /\ is_Some (file_value w') /\ mem_value w' = file_value w'.
Proof.
  unfold open_wallet.
  unfold mbind at 1, M_bind at 1. cbn [modify].
  unfold mbind at 1, M_bind at 1. unfold is_file_exist at 1.
  unfold mbind at 1, M_bind at 1. cbn [get mret M_ret].
  destruct (negb _); [discriminate|].
  unfold mbind at 1, M_bind at 1. unfold load_file at 1.
  unfold mbind at 1, M_bind at 1. cbn [get].
  cbn [set_wallet_path files wallet_path].
  destruct (files w !! path) as [doc|]; [|discriminate].
  unfold mbind at 1, M_bind at 1. cbn [lift].
  destruct (wallet_of_dict doc) as [v|e]; [|discriminate].
  cbn [set_wallet_path heap].
  pose proof (read_new_WalletData v (heap w)) as Hread.
  destruct (new_WalletData v (heap w)) as [lf h1] eqn:Hnew. cbn [fst snd] in Hread.
  set (w1 := set_wallet_file lf (set_heap h1 (set_wallet_path path w))).
  assert (Hv1 : file_value w1 = Some v) by exact Hread.
  pose proof (deepcopy_into_mem w1 v Hv1) as Hd.
  destruct (new_WalletData v (heap w1)) as [c h2].
  destruct Hd as (Hrun & Hsep & Hf & Hm).
  unfold mbind, M_bind, modify, mret, M_ret. cbv beta iota zeta.
  fold w1. change (deepcopy_m lf w1) with (deepcopy_m (wallet_file w1) w1).
  rewrite Hrun. intros [= <- <-].
  split; [exact Hsep|]. split; [reflexivity|].
  rewrite Hf, Hm. eauto.
Qed.

(** [write_wallet], when the file can be written: [wallet_file] becomes
    the very object [wallet_in_mem] refers to, and no object changes. *)
Lemma write_wallet_spec (w : world) :
  can_open_for_writing (wallet_path w) = true ->
  is_Some (mem_value w) ->
  let w' := after write_wallet w in
  wallet_file w' = wallet_in_mem w /\ wallet_in_mem w' = wallet_in_mem w
  /\ heap w' = heap w.
Proof.
  intros Hcan [v Hv]. unfold after, write_wallet, save, get_value.
  unfold mbind, M_bind, mret, M_ret, get, modify, raise. cbv beta iota zeta.
  rewrite Hcan. unfold mem_value in Hv. rewrite Hv. cbn.
  auto.
Qed.

(** [write_wallet], when the file cannot be written: it raises and
    [wallet_file] is as it was. *)
Lemma write_wallet_raises (w : world) :
  can_open_for_writing (wallet_path w) = false ->
  write_wallet w
  = (Raise (if no_such_directory (wallet_path w)
            then SDKException (other_error "No such file or directory")
            else OSError), w).
Proof.
  intros Hcan. unfold write_wallet, save.
  unfold mbind, M_bind, mret, M_ret, get, modify, raise. cbv beta iota zeta.
  rewrite Hcan. now destruct (no_such_directory (wallet_path w)).
Qed.

End copies.

(** ** What a call that returned went through *)

Lemma bind_ok {A B} (m : M A) (k : A -> M B) (w w' : world) (b : B) :
  (m ≫= k) w = (Ok b, w') ->
  exists a w1, m w = (Ok a, w1) /\ k a w1 = (Ok b, w').
Proof.
  unfold mbind, M_bind. destruct (m w) as [[a|e] w1]; [eauto | discriminate].
Qed.

Lemma lift_ok {A} (r : result A) (w w' : world) (a : A) :
  lift r w = (Ok a, w') -> r = Ok a /\ w' = w.
Proof. unfold lift. now intros [= -> ->]. Qed.

Lemma ret_ok {A} (x a : A) (w w' : world) :
  mret (M := M) x w = (Ok a, w') -> a = x /\ w' = w.
Proof. unfold mret, M_ret. now intros [= -> ->]. Qed.

Lemma get_ok (w w' x : world) : get w = (Ok x, w') -> x = w /\ w' = w.
Proof. unfold get. now intros [= -> ->]. Qed.

Section returned.
Context `{Hashes} `{Constants} `{KeyCipher} `{Curve} `{WalletClasses}.

(** [__create_account] returns the account of the key it was given,
    under the scheme of the manager; the scheme is not changed. *)
Lemma create_account_returns (label pwd : option string) (salt : string)
    (private_key : list byte) (flag : bool) (uuid_hex : string)
    (w w' : world) (acct : Account.t) :
  __create_account label pwd salt private_key flag uuid_hex w = (Ok acct, w') ->
  acct = Account.init private_key (scheme w).
Proof.
  unfold __create_account. intros Hrun.
  apply bind_ok in Hrun as (w0 & w1 & Hget & Hrun).
  apply get_ok in Hget as [-> ->].
  apply bind_ok in Hrun as (account & w0 & Hacct & Hrun).
  apply lift_ok in Hacct as [Hacct ->]. cbv zeta in Hrun.
  destruct (scheme w) as [|name]; cbn [is_SHA256withECDSA] in Hrun; [|discriminate].
  cbn [new_Account] in Hacct. injection Hacct as <-.
  apply bind_ok in Hrun as (key & w1 & _ & Hrun).
  apply bind_ok in Hrun as (addr & w2 & _ & Hrun).
  apply bind_ok in Hrun as (o & w3 & _ & Hrun).
  destruct flag.
  - apply bind_ok in Hrun as (accounts & w4 & _ & Hrun).
    destruct (existsb _ accounts); [discriminate|].
    apply bind_ok in Hrun as (? & w5 & _ & Hrun).
    apply bind_ok in Hrun as (? & w6 & _ & Hrun).
    apply bind_ok in Hrun as (? & w7 & _ & Hrun).
    now apply ret_ok in Hrun as [-> _].
  - apply bind_ok in Hrun as (identities & w4 & _ & Hrun).
    destruct (existsb _ identities); [discriminate|].
    apply bind_ok in Hrun as (? & w5 & _ & Hrun).
    apply bind_ok in Hrun as (? & w6 & _ & Hrun).
    apply bind_ok in Hrun as (? & w7 & _ & Hrun).
    now apply ret_ok in Hrun as [-> _].
Qed.

(** What [create_account_info] reports: the address and the wrapped key
    of the account of the key, and the salt it was given. *)
Lemma create_account_info_returns (label : option string) (pwd salt : string)
    (private_key : list byte) (uuid_hex : string)
    (w w' : world) (info : AccountInfo.t) :
  create_account_info label pwd salt private_key uuid_hex w = (Ok info, w') ->
  let acct := Account.init private_key (scheme w) in
  Account.get_address_base58 acct = Ok (AccountInfo.address_base58 info)
  /\ Account.export_gcm_encrypted_private_key acct pwd salt (Scrypt.n Scrypt.default)
     = Ok (AccountInfo.encrypted_pri_key info)
  /\ AccountInfo.salt info = salt.
Proof.
  unfold create_account_info. intros Hrun.
  apply bind_ok in Hrun as (acct & w1 & Hacct & Hrun).
  apply create_account_returns in Hacct as ->.
  apply bind_ok in Hrun as (addr & w2 & Haddr & Hrun).
  apply lift_ok in Haddr as [Haddr ->].
  apply bind_ok in Hrun as (enc & w3 & Henc & Hrun).
  apply lift_ok in Henc as [Henc ->].
  apply ret_ok in Hrun as [-> _]. cbn. auto.
Qed.

End returned.

Section round_trip.
Context `{Hashes} `{Constants} `{KeyCipher} `{Curve} `{WalletClasses}.
Context {hashes_ok : HashesSpec} {cipher_ok : KeyCipherCorrect}.

Lemma get_address_base58_ok (acct : Account.t) :
  exists a, Account.get_address_base58 acct = Ok a.
Proof.
  unfold Account.get_address_base58, Account.get_address,
    Address.address_from_bytes_pubkey, Address.b58encode.
  cbn [Address.script_hash].
  rewrite length_take, ripemd160_length. cbn. eauto.
Qed.

(** C1.  Unwrapping a wrapped key gives the key back.  For every raw key
    [k], password [p], salt and scheme: the account of [k] has an
    address [a], [export_gcm_encrypted_private_key] wraps [k] under [p]
    and the salt for [a], and [get_gcm_decoded_private_key] with the
    same password, salt and address returns [k].  And on the path of
    the code: whenever [create_account_info] returns, the salt it
    reports survives its base64 text as [import_account] reads it, and
    unwrapping the wrapped key it reports, with the password, that salt
    and the address it reports, returns [k]. *)
Theorem wrap_then_unwrap (k : list byte) (p salt : string) (s : SignatureScheme) :
  (exists a enc,
      Account.get_address_base58 (Account.init k s) = Ok a
      /\ Account.export_gcm_encrypted_private_key (Account.init k s) p salt
           (Scrypt.n Scrypt.default) = Ok enc
      /\ Account.get_gcm_decoded_private_key enc p a salt (Scrypt.n Scrypt.default) s
         = Ok k)
  /\ (forall label uuid_hex w info w',
        create_account_info label p salt k uuid_hex w = (Ok info, w') ->
        exists base64_salt,
          b64encode_str (encode_latin1 (AccountInfo.salt info)) = Ok base64_salt
          /\ decode_salt base64_salt = Ok salt
          /\ Account.get_gcm_decoded_private_key (AccountInfo.encrypted_pri_key info) p
               (AccountInfo.address_base58 info) salt (Scrypt.n Scrypt.default) (scheme w')
             = Ok k).
Proof.
  split.
  - destruct (get_address_base58_ok (Account.init k s)) as [a Ha].
    destruct (export_then_decode (Account.init k s) p salt a 16384 s Ha)
      as (enc & Henc & Hdec).
    exists a, enc. auto.
  - intros label uuid_hex w info w' Hrun.
    destruct (create_account_info_returns _ _ _ _ _ _ _ _ Hrun) as (Ha & Henc & Hsalt).
    destruct (export_then_decode _ p salt _ 16384 (scheme w') Ha) as (enc & Henc' & Hdec).
    change (PyInt 16384) with (Scrypt.n Scrypt.default) in Henc', Hdec.
    rewrite Henc in Henc'. injection Henc' as <-.
    rewrite Hsalt. destruct (decode_salt_b64encode salt) as [Hb Hd].
    eexists. split; [exact Hb|]. split; [exact Hd|]. exact Hdec.
Qed.

End round_trip.

Section copy.
Context `{Hashes} `{Constants} `{KeyCipher} `{Curve} `{WalletClasses}.

(** While the two wallets are separate objects, no sequence of
    mutations reaches the wallet of the file. *)
Lemma mutations_leave_file (cs : list mutation) (w : world) :
  separate w ->
  wallet_file (run_mutations cs w) = wallet_file w
  /\ file_value (run_mutations cs w) = file_value w
  /\ separate (run_mutations cs w).
Proof.
  intros Hsep. pose proof (run_mutations_stable cs w) as Hst.
  destruct (stable_file_value _ _ Hsep Hst) as [Hv Hsep'].
  destruct Hst as (Hf & _). auto.
Qed.

(** Once they are one object, they stay one object. *)
Lemma mutations_keep_alias (cs : list mutation) (w : world) :
  wallet_file w = wallet_in_mem w ->
  wallet_file (run_mutations cs w) = wallet_in_mem (run_mutations cs w)
  /\ file_value (run_mutations cs w) = mem_value (run_mutations cs w).
Proof. intros Hal. eapply stable_aliased; [exact Hal | apply run_mutations_stable]. Qed.

(** C10.  After [open_wallet] has returned, and after [reset_wallet] on
    a state whose [wallet_file] is a wallet, [wallet_in_mem] has the
    content of [wallet_file] and shares no object with it, and no
    sequence of calls of [create_account], [create_identity],
    [create_identity_from_private_key], [create_account_from_private_key],
    [import_account], [import_identity] and [create_wallet], returning
    or raising, changes the content of [wallet_file]; [reset_wallet]
    after such a sequence gives [wallet_in_mem] the content of
    [wallet_file] again.  After [write_wallet] has saved,
    [wallet_file] is the object [wallet_in_mem] refers to, and from
    then on both have the same content whatever is called. *)
Theorem wallet_in_mem_is_a_copy (w : world) :
  (forall path l w1,
      open_wallet path w = (Ok l, w1) ->
      is_Some (file_value w1) /\ mem_value w1 = file_value w1 /\ separate w1
      /\ forall cs, file_value (run_mutations cs w1) = file_value w1)
  /\ (forall v,
        file_value w = Some v ->
        let w1 := after reset_wallet w in
        file_value w1 = Some v /\ mem_value w1 = Some v /\ separate w1
        /\ forall cs,
            file_value (run_mutations cs w1) = Some v
            /\ mem_value (after reset_wallet (run_mutations cs w1)) = Some v)
  /\ (can_open_for_writing (wallet_path w) = true ->
      is_Some (mem_value w) ->
      let w1 := after write_wallet w in
      wallet_file w1 = wallet_in_mem w1 /\ file_value w1 = mem_value w
      /\ forall cs, file_value (run_mutations cs w1) = mem_value (run_mutations cs w1)).
Proof.
  split; [|split].
  - intros path l w1 Hopen.
    destruct (open_wallet_spec path w w1 l Hopen) as (Hsep & _ & Hsome & Hmem).
    repeat split; try assumption.
    intros cs. now destruct (mutations_leave_file cs w1 Hsep) as (_ & Hv & _).
  - intros v Hv w1.
    destruct (reset_wallet_spec w v Hv) as (Hsep & _ & Hf & Hm). fold w1 in Hsep, Hf, Hm.
    repeat split; try assumption.
    + destruct (mutations_leave_file cs w1 Hsep) as (_ & Hv' & _). congruence.
    + destruct (mutations_leave_file cs w1 Hsep) as (_ & Hv' & _).
      rewrite Hf in Hv'.
      now destruct (reset_wallet_spec _ v Hv') as (_ & _ & _ & Hm').
  - intros Hcan Hsome w1.
    destruct (write_wallet_spec w Hcan Hsome) as (Hf & Hm & Hh). fold w1 in Hf, Hm, Hh.
    assert (Hal : wallet_file w1 = wallet_in_mem w1) by congruence.
    repeat split; [exact Hal | |].
    + unfold file_value, mem_value. now rewrite Hf, Hh.
    + intros cs. now destruct (mutations_keep_alias cs w1 Hal).
Qed.

End copy.

(** ** The cost parameters of a wallet file *)

Section scrypt_defaults.
Context `{Hashes} `{Constants} `{KeyCipher} `{Curve} `{WalletClasses}.

Lemma load_scrypt_fields (sd : gmap string pyval) :
  Scrypt.n (load_scrypt sd) = default (PyInt 16384) (sd !! "n")
  /\ Scrypt.r (load_scrypt sd) = default (PyInt 8) (sd !! "r")
  /\ Scrypt.p (load_scrypt sd) = default (PyInt 8) (sd !! "p")
  /\ Scrypt.dk_len (load_scrypt sd) = default (PyInt 64) (sd !! "dk_len").
Proof. repeat split. Qed.

(** The record of a wallet file that spells the key length [dkLen] is
    read as if the field were left out. *)
Lemma load_scrypt_dkLen (sd : gmap string pyval) (v : pyval) :
  Scrypt.dk_len (load_scrypt (<["dkLen" := v]> sd))
  = default (PyInt 64) (sd !! "dk_len").
Proof.
  unfold load_scrypt, dict_get. cbn [Scrypt.dk_len].
  now rewrite lookup_insert_ne by discriminate.
Qed.

Lemma wallet_of_dict_scrypt (d sd : gmap string pyval) (name version accounts : pyval)
    (ids : list Identity.t) (accts : list AccountData.t) :
  d !! "scrypt" = Some (PyDict sd) ->
  d !! "name" = Some name -> d !! "version" = Some version ->
  d !! "accounts" = Some accounts ->
  lists_of_json (dict_get d "identities" (PyList [])) accounts = Ok (ids, accts) ->
  exists v, wallet_of_dict (PyDict d) = Ok v /\ WalletData.scrypt v = load_scrypt sd.
Proof.
  intros Hs Hn Hv Ha Hl. unfold wallet_of_dict, subscript.
  rewrite Hs. cbn [mbind result_bind]. rewrite Hn, Hv, Ha. cbn [mbind result_bind].
  rewrite Hl. cbn [mbind result_bind]. eexists. split; reflexivity.
Qed.

(** C6.  [load_file] on a wallet file with a scrypt record, a name, a
    version and accounts that [WalletData(...)] accepts returns a
    wallet whose cost parameters are the fields [n], [r], [p] and
    [dk_len] of the record, and 16384, 8, 8 and 64 for those the record
    leaves out.  The derived key length is read under the name
    [dk_len]: a record that gives it under the name [dkLen] is read as
    if it gave none, and the wallet has 64 whatever the record says. *)
Theorem load_file_scrypt_defaults (w : world) (d sd : gmap string pyval)
    (name version accounts : pyval) (ids : list Identity.t)
    (accts : list AccountData.t) :
  files w !! wallet_path w = Some (PyDict d) ->
  d !! "scrypt" = Some (PyDict sd) ->
  d !! "name" = Some name -> d !! "version" = Some version ->
  d !! "accounts" = Some accounts ->
  lists_of_json (dict_get d "identities" (PyList [])) accounts = Ok (ids, accts) ->
  exists l w' v,
    load_file w = (Ok l, w') /\ read_wallet (heap w') l = Some v
    /\ Scrypt.n (WalletData.scrypt v) = default (PyInt 16384) (sd !! "n")
    /\ Scrypt.r (WalletData.scrypt v) = default (PyInt 8) (sd !! "r")
    /\ Scrypt.p (WalletData.scrypt v) = default (PyInt 8) (sd !! "p")
    /\ Scrypt.dk_len (WalletData.scrypt v) = default (PyInt 64) (sd !! "dk_len")
    /\ (forall x,
          sd !! "dkLen" = Some x -> sd !! "dk_len" = None ->
          Scrypt.dk_len (WalletData.scrypt v) = PyInt 64).
Proof.
  intros Hfile Hs Hn Hv Ha Hl.
  destruct (wallet_of_dict_scrypt d sd name version accounts ids accts Hs Hn Hv Ha Hl)
    as (v & Hw & Hsc).
  pose proof (read_new_WalletData v (heap w)) as Hread.
  unfold load_file. unfold mbind at 1, M_bind at 1. cbn [get]. rewrite Hfile.
  unfold mbind at 1, M_bind at 1. unfold lift at 1. rewrite Hw.
  destruct (new_WalletData v (heap w)) as [l h] eqn:Hnew. cbn [fst snd] in Hread.
  exists l, (set_heap h w), v. split; [reflexivity|]. split; [exact Hread|].
  rewrite Hsc. destruct (load_scrypt_fields sd) as (Hn' & Hr' & Hp' & Hd').
  repeat split; try assumption.
  intros x _ Hnone. now rewrite Hd', Hnone.
Qed.

End scrypt_defaults.

(** ** control.py *)

(** C9.  The assignment [c.b58_address = v] returns with the object as
    it was when [v] is a [str], so that [c.b58_address] read afterwards
    is the address of before, and raises
    [SDKException(require_str_params)] otherwise; the address of a new
    object is the one given to the constructor. *)
Theorem b58_address_setter_stores_nothing (c : Control.t) (v : pyval) :
  match v with
  | PyStr s =>
      Control.set_b58_address c v = Ok c
      /\ (c' ← Control.set_b58_address c v; Ok (Control.b58_address c'))
         = Ok (Control.b58_address c)
  | _ => Control.set_b58_address c v = Raise (SDKException require_str_params)
  end
  /\ forall kid address enc_alg key algorithm salt param hash_value public_key,
      Control.b58_address
        (Control.init kid address enc_alg key algorithm salt param hash_value public_key)
      = address.
Proof. split; [destruct v; cbn; auto | reflexivity]. Qed.

(** ** rpc_client.py *)

Section rpc.
Context `{Hashes} `{Constants} `{Curve} `{RpcClient.RpcDefine} `{RpcClient.TxCodec}.
Import RpcClient.

Lemma hex_digit_in (n : N) : (n < 16)%N -> In (hex_digit n) hex_digits.
Proof.
  intros Hn. unfold hex_digit. apply nth_In.
  change (length hex_digits) with 16%nat. lia.
Qed.

(** The text of [bytes.hex()] is made of the digits [0-9a-f]. *)
Lemma bytes_hex_lowercase (b : list byte) :
  Forall (fun c => In c hex_digits) (bytes_hex b).
Proof.
  induction b as [|c b IH]; cbn [bytes_hex]; [constructor|].
  pose proof (byte_to_N_lt c) as Hc.
  constructor; [|constructor; [|exact IH]]; apply hex_digit_in.
  - rewrite N.shiftr_div_pow2. change (2 ^ 4)%N with 16%N.
    apply N.Div0.div_lt_upper_bound. lia.
  - change 15%N with (N.ones 4). rewrite N.land_ones. apply N.mod_lt. discriminate.
Qed.

(** C5.  What [send_raw_transaction] does: it is the very call
    [get_raw_transaction] makes on the hexadecimal text of the
    serialised transaction.  The request it sends has the method name
    [RPC_GET_TRANSACTION], the one of the fetch of a raw transaction by
    hash, and two positional parameters, the text and [1]; the text is
    made of the digits [0-9a-f]. *)
Theorem send_raw_transaction_request (tx : Transaction) (c : client) :
  send_raw_transaction tx c = get_raw_transaction (hex (serialize tx)) c
  /\ (exists payload,
        request_of (send_raw_transaction tx) c = Some (addr c, payload)
        /\ payload !! "method" = Some (PyStr RPC_GET_TRANSACTION)
        /\ payload !! "params" = Some (PyList [PyStr (hex (serialize tx)); PyInt 1]))
  /\ Forall (fun ch => In ch hex_digits) (bytes_hex (serialize tx)).
Proof.
  split; [reflexivity|]. split; [|apply bytes_hex_lowercase].
  unfold request_of, send_raw_transaction, post_result, set_json_rpc_version.
  unfold mbind, R_bind. cbv zeta. cbn [addr JsonRpcRequest qid sent].
  eexists. split.
  - destruct (http_post _ _) as [| | | | | |r]; try reflexivity.
    destruct (r !! "result"); reflexivity.
  - split.
    + rewrite lookup_insert_ne by discriminate. now rewrite lookup_insert_eq.
    + now rewrite lookup_insert_eq.
Qed.


End rpc.

(** ** The example instances meet their contracts *)

Lemma pad_to_length (n : nat) (m : list byte) : length (Example.pad_to n m) = n.
Proof.
  unfold Example.pad_to. rewrite length_take, length_app, length_replicate. lia.
Qed.

Lemma example_hashes_spec : @HashesSpec Example.hashes.
Proof. split; intros m; apply pad_to_length. Qed.

Lemma example_cipher_correct : @KeyCipherCorrect Example.cipher.
Proof.
  split. intros key nonce aad m. cbn.
  assert (Hlen : length (Example.tag key nonce aad) = 16%nat) by apply pad_to_length.
  rewrite take_app_length' by (symmetry; exact Hlen).
  rewrite drop_app_length' by (symmetry; exact Hlen).
  assert (Heq : bytes_eqb (Example.tag key nonce aad) (Example.tag key nonce aad) = true)
    by now apply bytes_eqb_eq.
  now rewrite Heq.
Qed.

Section examples.
#[local] Existing Instances Example.hashes Example.constants Example.cipher
  Example.curve Example.classes.

(** On the example instances [create_account_info] returns, and the
    wrapped key it reports unwraps to the key. *)
Lemma wrap_then_unwrap_witness :
  exists info w',
    create_account_info None "pw" "salt" Example.k0 "0123456789abcdef" Example.w0
    = (Ok info, w')
    /\ Account.get_gcm_decoded_private_key (AccountInfo.encrypted_pri_key info) "pw"
         (AccountInfo.address_base58 info) "salt" (Scrypt.n Scrypt.default) (scheme w')
       = Ok Example.k0.
Proof.
  destruct (create_account_info None "pw" "salt" Example.k0 "0123456789abcdef" Example.w0)
    as [[info|e] w'] eqn:E; [|vm_compute in E; discriminate E].
  exists info, w'. split; [reflexivity|].
  destruct (wrap_then_unwrap (hashes_ok := example_hashes_spec)
              (cipher_ok := example_cipher_correct)
              Example.k0 "pw" "salt" SHA256withECDSA) as [_ Hinfo].
  destruct (Hinfo None "0123456789abcdef" Example.w0 info w' E) as (b64 & _ & _ & Hdec).
  exact Hdec.
Defined.

(** The round trip of the hash of twenty bytes 1. *)
Lemma address_round_trip_witness :
  exists text,
    Address.b58encode (Address.mk (replicate 20 x01)) = Ok text
    /\ (a ← Address.b58decode text; Ok (Address.to_bytes a)) = Ok (replicate 20 x01).
Proof.
  apply (address_round_trip (hashes_ok := example_hashes_spec) (replicate 20 x01)).
  reflexivity.
Defined.

(** A wallet file whose scrypt record gives [n] = 4096 and [dkLen] =
    32: [load_file] reads 4096, fills in 8 and 8, and takes 64 for the
    derived key length. *)
Lemma load_file_scrypt_defaults_witness :
  exists l w' v,
    load_file Example.w_dkLen = (Ok l, w') /\ read_wallet (heap w') l = Some v
    /\ Scrypt.n (WalletData.scrypt v) = PyInt 4096
    /\ Scrypt.r (WalletData.scrypt v) = PyInt 8
    /\ Scrypt.p (WalletData.scrypt v) = PyInt 8
    /\ Scrypt.dk_len (WalletData.scrypt v) = PyInt 64.
Proof.
  pose proof (load_file_scrypt_defaults Example.w_dkLen
                (<["scrypt" := PyDict {[ "n" := PyInt 4096; "dkLen" := PyInt 32 ]}]>
                   (<["name" := PyStr "MyWallet"]>
                      (<["version" := PyStr "1.1"]>
                         {[ "accounts" := PyList [] ]})))
                {[ "n" := PyInt 4096; "dkLen" := PyInt 32 ]}
                (PyStr "MyWallet") (PyStr "1.1") (PyList []) [] []) as Hthm.
  destruct (Hthm ltac:(vm_compute; reflexivity) ltac:(vm_compute; reflexivity)
              ltac:(vm_compute; reflexivity) ltac:(vm_compute; reflexivity)
              ltac:(vm_compute; reflexivity) ltac:(vm_compute; reflexivity))
    as (l & w' & v & Hrun & Hread & Hn & Hr & Hp & Hd & Hbug).
  exists l, w', v. split; [exact Hrun|]. split; [exact Hread|].
  split; [exact Hn|]. split; [exact Hr|]. split; [exact Hp|].
  apply (Hbug (PyInt 32)); vm_compute; reflexivity.
Defined.

(** On the example manager [open_wallet] returns; [create_account]
    then adds an account to the wallet in memory, and the wallet of
    the file still has none. *)
Lemma wallet_in_mem_is_a_copy_witness :
  exists l w1,
    open_wallet "wallet.json" Example.w0 = (Ok l, w1)
    /\ let w2 := run_mutations
                   [CreateAccount None "pw" Example.k0 "salt" "0123456789abcdef"] w1 in
       file_value w2 = file_value w1
       /\ (WalletData.accounts <$> file_value w1) = Some []
       /\ (length ∘ WalletData.accounts <$> mem_value w2) = Some 1%nat.
Proof.
  destruct (open_wallet "wallet.json" Example.w0) as [[l|e] w1] eqn:E;
    [|vm_compute in E; discriminate E].
  exists l, w1. split; [reflexivity|].
  destruct (wallet_in_mem_is_a_copy Example.w0) as [Hopen _].
  destruct (Hopen "wallet.json" l w1 E) as (_ & _ & _ & Hframe).
  split; [apply Hframe|].
  assert (Hw1 : w1 = snd (open_wallet "wallet.json" Example.w0)) by now rewrite E.
  rewrite Hw1. split; vm_compute; reflexivity.
Defined.

End examples.

(** * Part III: more of the code *)

(** ** What the creating methods write *)

Lemma read_wallet_inv (h : gmap loc obj) (l : loc) (v : WalletData.t) :
  read_wallet h l = Some v ->
  exists o,
    h !! l = Some (OWallet o)
    /\ h !! o_identities o = Some (OIdentities (WalletData.identities v))
    /\ h !! o_accounts o = Some (OAccounts (WalletData.accounts v))
    /\ v = WalletData.mk (o_name o) (o_version o) (o_create_time o) (o_default_ont_id o)
             (o_default_account_address o) (o_scrypt o)
             (WalletData.identities v) (WalletData.accounts v)
    /\ l <> o_identities o /\ l <> o_accounts o /\ o_identities o <> o_accounts o.
Proof.
  unfold read_wallet. intros Hr.
  destruct (h !! l) as [[o| |]|] eqn:El; try discriminate.
  destruct (h !! o_identities o) as [[| ids |]|] eqn:Ei; try discriminate.
  destruct (h !! o_accounts o) as [[| | accts]|] eqn:Ea; try discriminate.
  injection Hr as <-. exists o. cbn.
  repeat split; try reflexivity; congruence.
Qed.

Lemma read_wallet_intro (h : gmap loc obj) (l : loc) (o : WalletObj)
    (ids : list Identity.t) (accts : list AccountData.t) :
  h !! l = Some (OWallet o) ->
  h !! o_identities o = Some (OIdentities ids) ->
  h !! o_accounts o = Some (OAccounts accts) ->
  read_wallet h l
  = Some (WalletData.mk (o_name o) (o_version o) (o_create_time o) (o_default_ont_id o)
            (o_default_account_address o) (o_scrypt o) ids accts).
Proof. unfold read_wallet. now intros -> -> ->. Qed.

Section effects.
Context `{Hashes} `{Constants} `{KeyCipher} `{Curve} `{WalletClasses}.

(** Wrapping fails only where the address does. *)
Lemma export_ok (acct : Account.t) (pwd salt addr : string) :
  Account.get_address_base58 acct = Ok addr ->
  Account.export_gcm_encrypted_private_key acct pwd salt (Scrypt.n Scrypt.default)
  = Ok (string_of_list_byte
          (Base64.b64encode
             (gcm_encrypt (scrypt_kd pwd salt 16384 8 8 64) (gcm_nonce addr)
                (list_byte_of_string addr) (Account.private_key acct)))).
Proof.
  intros Haddr. unfold Account.export_gcm_encrypted_private_key.
  cbn [Scrypt.n Scrypt.default Account.as_int mbind result_bind].
  rewrite Haddr. cbn [mbind result_bind]. apply b64encode_str_ok.
Qed.

(** [__create_account] for an account, in one piece. *)
Lemma create_account_for_account (label : option string) (pwd salt : string)
    (k : list byte) (uuid_hex : string) (w : world) :
  __create_account label (Some pwd) salt k true uuid_hex w
  = match new_Account k (scheme w) with
    | Raise e => (Raise e, w)
    | Ok account =>
    if is_SHA256withECDSA (scheme w) then
      match Account.export_gcm_encrypted_private_key account pwd salt
              (Scrypt.n Scrypt.default) with
      | Raise e => (Raise e, w)
      | Ok key =>
          match Account.get_address_base58 account with
          | Raise e => (Raise e, w)
          | Ok addr =>
              match heap w !! wallet_in_mem w with
              | Some (OWallet o) =>
                  match heap w !! o_accounts o with
                  | Some (OAccounts accounts) =>
                      if existsb (fun a => String.eqb (AccountData.b58_address a) addr)
                           accounts
                      then (Raise (SDKException (other_error "Wallet account exists.")), w)
                      else
                        let first := (length accounts =? 0)%nat in
                        let entry :=
                          account_entry key addr (default_label label uuid_hex)
                            (string_of_list_byte (Base64.b64encode (encode_latin1 salt)))
                            (Account.get_public_key_hex account) first in
                        let h1 :=
                          if first
                          then <[wallet_in_mem w :=
                                   OWallet (with_default_account_address (PyStr addr) o)]>
                                 (heap w)
                          else heap w in
                        (Ok account,
                         set_heap (<[o_accounts o := OAccounts (accounts ++ [entry])]> h1) w)
                  | _ => (Raise DanglingReference, w)
                  end
              | _ => (Raise DanglingReference, w)
              end
          end
      end
    else (Raise (SDKException (other_error "Scheme type is error.")), w)
    end.
Proof.
  unfold __create_account.
  unfold mbind at 1, M_bind at 1. cbn [get].
  unfold mbind at 1, M_bind at 1. unfold lift at 1.
  destruct (new_Account k (scheme w)) as [account|e]; [|reflexivity]. cbv zeta.
  destruct (is_SHA256withECDSA (scheme w)); [|reflexivity].
  unfold mbind at 1, M_bind at 1. unfold lift at 1.
  destruct (Account.export_gcm_encrypted_private_key account pwd salt _) as [key|e];
    [|reflexivity].
  unfold mbind at 1, M_bind at 1. unfold lift at 1.
  destruct (Account.get_address_base58 account) as [addr|e]; [|reflexivity].
  unfold mbind at 1, M_bind at 1. unfold get_obj at 1.
  unfold mbind at 1, M_bind at 1. cbn [get].
  destruct (heap w !! wallet_in_mem w) as [[o| |]|]; try reflexivity.
  cbn [mret M_ret].
  unfold mbind at 1, M_bind at 1. unfold get_accounts at 1.
  unfold mbind at 1, M_bind at 1. cbn [get].
  destruct (heap w !! o_accounts o) as [[| |accounts]|]; try reflexivity.
  cbn [mret M_ret].
  destruct (existsb _ accounts); [reflexivity|].
  rewrite b64encode_str_ok.
  destruct (length accounts =? 0)%nat;
    unfold mbind, M_bind, store, modify, lift, mret, M_ret; cbn [heap set_heap];
    reflexivity.
Qed.

(** [__create_account] for an identity, in one piece. *)
Lemma create_account_for_identity (label : option string) (pwd salt : string)
    (k : list byte) (uuid_hex : string) (w : world) :
  __create_account label (Some pwd) salt k false uuid_hex w
  = match new_Account k (scheme w) with
    | Raise e => (Raise e, w)
    | Ok account =>
    if is_SHA256withECDSA (scheme w) then
      match Account.export_gcm_encrypted_private_key account pwd salt
              (Scrypt.n Scrypt.default) with
      | Raise e => (Raise e, w)
      | Ok key =>
          match Account.get_address_base58 account with
          | Raise e => (Raise e, w)
          | Ok addr =>
              match heap w !! wallet_in_mem w with
              | Some (OWallet o) =>
                  match heap w !! o_identities o with
                  | Some (OIdentities identities) =>
                      if existsb (fun i => String.eqb (Identity.ont_id i) (DID_ONT +:+ addr))
                           identities
                      then (Raise (SDKException (other_error "Wallet identity exists.")), w)
                      else
                        let first := (length identities =? 0)%nat in
                        let entry :=
                          identity_entry key addr (DID_ONT +:+ addr)
                            (default_label label uuid_hex)
                            (string_of_list_byte (Base64.b64encode (encode_utf8 salt)))
                            (Account.get_public_key_hex account) first in
                        let h1 :=
                          if first
                          then <[wallet_in_mem w :=
                                   OWallet (with_default_ont_id (PyStr (DID_ONT +:+ addr)) o)]>
                                 (heap w)
                          else heap w in
                        (Ok account,
                         set_heap (<[o_identities o := OIdentities (identities ++ [entry])]> h1) w)
                  | _ => (Raise DanglingReference, w)
                  end
              | _ => (Raise DanglingReference, w)
              end
          end
      end
    else (Raise (SDKException (other_error "Scheme type is error.")), w)
    end.
Proof.
  unfold __create_account.
  unfold mbind at 1, M_bind at 1. cbn [get].
  unfold mbind at 1, M_bind at 1. unfold lift at 1.
  destruct (new_Account k (scheme w)) as [account|e]; [|reflexivity]. cbv zeta.
  destruct (is_SHA256withECDSA (scheme w)); [|reflexivity].
  unfold mbind at 1, M_bind at 1. unfold lift at 1.
  destruct (Account.export_gcm_encrypted_private_key account pwd salt _) as [key|e];
    [|reflexivity].
  unfold mbind at 1, M_bind at 1. unfold lift at 1.
  destruct (Account.get_address_base58 account) as [addr|e]; [|reflexivity].
  unfold mbind at 1, M_bind at 1. unfold get_obj at 1.
  unfold mbind at 1, M_bind at 1. cbn [get].
  destruct (heap w !! wallet_in_mem w) as [[o| |]|]; try reflexivity.
  cbn [mret M_ret].
  unfold mbind at 1, M_bind at 1. unfold get_identities at 1.
  unfold mbind at 1, M_bind at 1. cbn [get].
  destruct (heap w !! o_identities o) as [[|identities|]|]; try reflexivity.
  cbn [mret M_ret].
  destruct (existsb _ identities); [reflexivity|].
  rewrite b64encode_str_ok.
  destruct (length identities =? 0)%nat;
    unfold mbind, M_bind, store, modify, lift, mret, M_ret; cbn [heap set_heap];
    reflexivity.
Qed.

End effects.

Lemma read_after_account (h : gmap loc obj) (l : loc) (v : WalletData.t) (o : WalletObj)
    (a : pyval) (first : bool) (accounts : list AccountData.t) :
  read_wallet h l = Some v ->
  h !! l = Some (OWallet o) ->
  read_wallet
    (<[o_accounts o := OAccounts accounts]>
       (if first then <[l := OWallet (with_default_account_address a o)]> h else h)) l
  = Some (WalletData.mk (WalletData.name v) (WalletData.version v)
            (WalletData.create_time v) (WalletData.default_ont_id v)
            (if first then a else WalletData.default_account_address v)
            (WalletData.scrypt v) (WalletData.identities v) accounts).
Proof.
  intros Hr Ho.
  destruct (read_wallet_inv h l v Hr) as (o' & Ho' & Hi & Ha & Hv & N1 & N2 & N3).
  assert (o' = o) by congruence. subst o'.
  rewrite Hv. cbn [WalletData.name WalletData.version WalletData.create_time
    WalletData.default_ont_id WalletData.default_account_address WalletData.scrypt
    WalletData.identities].
  destruct first.
  - erewrite (read_wallet_intro _ l (with_default_account_address a o)
                (WalletData.identities v) accounts); [reflexivity| | |].
    + rewrite lookup_insert_ne by congruence. apply lookup_insert_eq.
    + cbn. rewrite !lookup_insert_ne by congruence. exact Hi.
    + cbn. apply lookup_insert_eq.
  - erewrite (read_wallet_intro _ l o (WalletData.identities v) accounts);
      [reflexivity| | |].
    + rewrite lookup_insert_ne by congruence. exact Ho.
    + rewrite lookup_insert_ne by congruence. exact Hi.
    + apply lookup_insert_eq.
Qed.

Lemma read_after_identity (h : gmap loc obj) (l : loc) (v : WalletData.t) (o : WalletObj)
    (i : pyval) (first : bool) (identities : list Identity.t) :
  read_wallet h l = Some v ->
  h !! l = Some (OWallet o) ->
  read_wallet
    (<[o_identities o := OIdentities identities]>
       (if first then <[l := OWallet (with_default_ont_id i o)]> h else h)) l
  = Some (WalletData.mk (WalletData.name v) (WalletData.version v)
            (WalletData.create_time v)
            (if first then i else WalletData.default_ont_id v)
            (WalletData.default_account_address v)
            (WalletData.scrypt v) identities (WalletData.accounts v)).
Proof.
  intros Hr Ho.
  destruct (read_wallet_inv h l v Hr) as (o' & Ho' & Hi & Ha & Hv & N1 & N2 & N3).
  assert (o' = o) by congruence. subst o'.
  rewrite Hv. cbn [WalletData.name WalletData.version WalletData.create_time
    WalletData.default_ont_id WalletData.default_account_address WalletData.scrypt
    WalletData.accounts].
  destruct first.
  - erewrite (read_wallet_intro _ l (with_default_ont_id i o) identities
                (WalletData.accounts v)); [reflexivity| | |].
    + rewrite lookup_insert_ne by congruence. apply lookup_insert_eq.
    + cbn. apply lookup_insert_eq.
    + cbn. rewrite !lookup_insert_ne by congruence. exact Ha.
  - erewrite (read_wallet_intro _ l o identities (WalletData.accounts v));
      [reflexivity| | |].
    + rewrite lookup_insert_ne by congruence. exact Ho.
    + apply lookup_insert_eq.
    + rewrite lookup_insert_ne by congruence. exact Ha.
Qed.

Lemma existsb_address_false (addr : string) (accounts : list AccountData.t) :
  existsb (fun a => String.eqb (AccountData.b58_address a) addr) accounts = false
  <-> Forall (fun a => AccountData.b58_address a <> addr) accounts.
Proof.
  induction accounts as [|a l IH]; cbn.
  - split; [constructor | reflexivity].
  - rewrite orb_false_iff, IH, String.eqb_neq. split.
    + intros [? ?]. now constructor.
    + intros Hall. inversion Hall; subst. auto.
Qed.

Lemma existsb_ont_id_false (ont_id : string) (identities : list Identity.t) :
  existsb (fun i => String.eqb (Identity.ont_id i) ont_id) identities = false
  <-> Forall (fun i => Identity.ont_id i <> ont_id) identities.
Proof.
  induction identities as [|a l IH]; cbn.
  - split; [constructor | reflexivity].
  - rewrite orb_false_iff, IH, String.eqb_neq. split.
    + intros [? ?]. now constructor.
    + intros Hall. inversion Hall; subst. auto.
Qed.

Section appends.
Context `{Hashes} `{Constants} `{KeyCipher} `{Curve} `{WalletClasses}.

Lemma account_entry_fields (key addr label b64_salt public_key : string) (first : bool) :
  let entry := account_entry key addr label b64_salt public_key first in
  AccountData.b58_address entry = addr /\ AccountData.key entry = key
  /\ AccountData.label entry = label /\ AccountData.salt entry = b64_salt
  /\ AccountData.public_key entry = public_key
  /\ AccountData.is_default entry
     = (if first then true else AccountData.is_default AccountData_new).
Proof. destruct first; cbn; auto 10. Qed.

(** What a call of [create_account_info] that finds no account of the
    address does, in full. *)
Lemma create_account_info_effect (label : option string) (pwd salt : string)
    (k : list byte) (uuid_hex : string) (w : world) (v : WalletData.t) (addr : string) :
  mem_value w = Some v ->
  scheme w = SHA256withECDSA ->
  Account.get_address_base58 (Account.init k (scheme w)) = Ok addr ->
  Forall (fun a => AccountData.b58_address a <> addr) (WalletData.accounts v) ->
  exists info w' entry,
    create_account_info label pwd salt k uuid_hex w = (Ok info, w')
    /\ AccountInfo.address_base58 info = addr
    /\ mem_value w'
       = Some (WalletData.mk (WalletData.name v) (WalletData.version v)
                 (WalletData.create_time v) (WalletData.default_ont_id v)
                 (match WalletData.accounts v with
                  | [] => PyStr addr
                  | _ :: _ => WalletData.default_account_address v
                  end)
                 (WalletData.scrypt v) (WalletData.identities v)
                 (WalletData.accounts v ++ [entry]))
    /\ AccountData.b58_address entry = addr
    /\ AccountData.key entry = AccountInfo.encrypted_pri_key info
    /\ AccountData.label entry = default_label label uuid_hex
    /\ b64encode_str (encode_latin1 salt) = Ok (AccountData.salt entry)
    /\ decode_salt (AccountData.salt entry) = Ok salt
    /\ AccountData.public_key entry = AccountInfo.public_key info
    /\ AccountData.is_default entry
       = (match WalletData.accounts v with
          | [] => true
          | _ :: _ => AccountData.is_default AccountData_new
          end)
    /\ wallet_file w' = wallet_file w /\ wallet_in_mem w' = wallet_in_mem w
    /\ files w' = files w /\ scheme w' = scheme w.
Proof.
  intros Hv Hs Haddr Hnew.
  pose proof (export_ok _ pwd salt addr Haddr) as Hkey.
  destruct (read_wallet_inv _ _ _ Hv) as (o & Ho & Hi & Ha & _).
  apply existsb_address_false in Hnew.
  unfold create_account_info. unfold mbind at 1, M_bind at 1.
  rewrite create_account_for_account. cbv zeta.
  rewrite Hs in Haddr, Hkey |- *. cbn [is_SHA256withECDSA new_Account].
  rewrite Hkey, Haddr, Ho, Ha, Hnew.
  unfold mbind at 1, M_bind at 1. unfold lift at 1.
  change (Address.b58encode
            (Address.address_from_bytes_pubkey
               (Account.get_public_key_bytes (Account.init k SHA256withECDSA))))
    with (Account.get_address_base58 (Account.init k SHA256withECDSA)).
  rewrite Haddr.
  unfold mbind at 1, M_bind at 1. unfold lift at 1. rewrite Hkey.
  cbn [mret M_ret].
  set (first := (length (WalletData.accounts v) =? 0)%nat).
  set (entry := account_entry _ addr _ _ _ first).
  destruct (account_entry_fields
              (string_of_list_byte
                 (Base64.b64encode
                    (gcm_encrypt (scrypt_kd pwd salt 16384 8 8 64) (gcm_nonce addr)
                       (list_byte_of_string addr)
                       (Account.private_key (Account.init k SHA256withECDSA)))))
              addr (default_label label uuid_hex)
              (string_of_list_byte (Base64.b64encode (encode_latin1 salt)))
              (Account.get_public_key_hex (Account.init k SHA256withECDSA)) first)
    as (F1 & F2 & F3 & F4 & F5 & F6).
  fold entry in F1, F2, F3, F4, F5, F6.
  eexists _, _, entry. split; [reflexivity|].
  cbn [AccountInfo.address_base58 AccountInfo.encrypted_pri_key AccountInfo.public_key].
  split; [reflexivity|]. split.
  - unfold mem_value. cbn [heap set_heap wallet_in_mem].
    rewrite (read_after_account (heap w) (wallet_in_mem w) v o (PyStr addr) first
               (WalletData.accounts v ++ [entry]) Hv Ho).
    subst first. now destruct (WalletData.accounts v).
  - repeat split; try assumption; try reflexivity.
    + rewrite F4. apply b64encode_str_ok.
    + rewrite F4. apply decode_salt_b64encode.
    + rewrite F6. subst first. now destruct (WalletData.accounts v).
Qed.

(** X1.  On a manager under SHA256withECDSA whose wallet in memory holds
    no account of the key's address, [create_account_info], called
    with a salt of Latin-1 characters (the texts of this model; a salt
    beyond them cannot be encoded by line 183), returns and appends
    exactly one account: address, wrapped key, label (the first eight
    characters of the uuid when none is given), the salt in base64 as
    [import_account] decodes it, and the public key.  Its address
    becomes the wallet's default address exactly when it is the first
    account.  Its default flag is set when it is the first account and
    is otherwise left as [AccountData()] made it: the account is a
    default one exactly when it is the first or [AccountData()] starts
    default, so that with a class that starts default every account
    created is a default one.  Nothing else of the wallet and of the
    manager changes. *)
Theorem create_account_info_appends (label : option string) (pwd salt : string)
    (k : list byte) (uuid_hex : string) (w : world) (v : WalletData.t) (addr : string) :
  mem_value w = Some v ->
  scheme w = SHA256withECDSA ->
  Account.get_address_base58 (Account.init k (scheme w)) = Ok addr ->
  Forall (fun a => AccountData.b58_address a <> addr) (WalletData.accounts v) ->
  exists info w' entry,
    create_account_info label pwd salt k uuid_hex w = (Ok info, w')
    /\ AccountInfo.address_base58 info = addr
    /\ mem_value w'
       = Some (WalletData.mk (WalletData.name v) (WalletData.version v)
                 (WalletData.create_time v) (WalletData.default_ont_id v)
                 (match WalletData.accounts v with
                  | [] => PyStr addr
                  | _ :: _ => WalletData.default_account_address v
                  end)
                 (WalletData.scrypt v) (WalletData.identities v)
                 (WalletData.accounts v ++ [entry]))
    /\ AccountData.b58_address entry = addr
    /\ AccountData.key entry = AccountInfo.encrypted_pri_key info
    /\ AccountData.label entry = default_label label uuid_hex
    /\ b64encode_str (encode_latin1 salt) = Ok (AccountData.salt entry)
    /\ decode_salt (AccountData.salt entry) = Ok salt
    /\ AccountData.public_key entry = AccountInfo.public_key info
    /\ AccountData.is_default entry
       = (match WalletData.accounts v with
          | [] => true
          | _ :: _ => AccountData.is_default AccountData_new
          end)
    /\ (AccountData.is_default entry = true
        <-> WalletData.accounts v = [] \/ AccountData.is_default AccountData_new = true)
    /\ wallet_file w' = wallet_file w /\ wallet_in_mem w' = wallet_in_mem w
    /\ files w' = files w /\ scheme w' = scheme w.
Proof.
  intros Hv Hs Haddr Hnew.
  destruct (create_account_info_effect label pwd salt k uuid_hex w v addr Hv Hs Haddr Hnew)
    as (info & w' & entry & P1 & P2 & P3 & P4 & P5 & P6 & P7 & P8 & P9 & P10 & P11).
  exists info, w', entry.
  repeat (split; [assumption|]). split; [|exact P11].
  rewrite P10. destruct (WalletData.accounts v) as [|a l].
  - split; auto.
  - split; [auto | intros [Hnil | Hd]; [discriminate | exact Hd]].
Qed.

End appends.

Section duplicates.
Context `{Hashes} `{Constants} `{KeyCipher} `{Curve} `{WalletClasses}.

Lemma existsb_address_true (addr : string) (accounts : list AccountData.t) :
  existsb (fun a => String.eqb (AccountData.b58_address a) addr) accounts = true
  <-> Exists (fun a => AccountData.b58_address a = addr) accounts.
Proof.
  rewrite existsb_exists, List.Exists_exists.
  split; intros (a & Hin & Ha); exists a; split; auto; now apply String.eqb_eq.
Qed.

(** An address that is in the wallet is refused, and nothing is
    written. *)
Lemma create_account_exists (label : option string) (pwd salt : string)
    (k : list byte) (uuid_hex : string) (w : world) (v : WalletData.t) (addr : string) :
  mem_value w = Some v ->
  scheme w = SHA256withECDSA ->
  Account.get_address_base58 (Account.init k (scheme w)) = Ok addr ->
  Exists (fun a => AccountData.b58_address a = addr) (WalletData.accounts v) ->
  __create_account label (Some pwd) salt k true uuid_hex w
  = (Raise (SDKException (other_error "Wallet account exists.")), w).
Proof.
  intros Hv Hs Haddr Hold.
  pose proof (export_ok _ pwd salt addr Haddr) as Hkey.
  destruct (read_wallet_inv _ _ _ Hv) as (o & Ho & Hi & Ha & _).
  apply existsb_address_true in Hold.
  rewrite create_account_for_account. cbv zeta.
  rewrite Hs in Haddr, Hkey |- *. cbn [is_SHA256withECDSA new_Account].
  now rewrite Hkey, Haddr, Ho, Ha, Hold.
Qed.

(** X2.  After [create_account_info] has added the account of a key,
    every further [create_account_info], [create_account] or
    [create_account_from_private_key] with that key, whatever the
    label, password and salt, raises "Wallet account exists." and
    leaves the state as it was. *)
Theorem create_account_info_twice (label : option string) (pwd salt : string)
    (k : list byte) (uuid_hex : string) (w : world) (v : WalletData.t) (addr : string) :
  mem_value w = Some v ->
  scheme w = SHA256withECDSA ->
  Account.get_address_base58 (Account.init k (scheme w)) = Ok addr ->
  Forall (fun a => AccountData.b58_address a <> addr) (WalletData.accounts v) ->
  let w1 := after (create_account_info label pwd salt k uuid_hex) w in
  is_ok (fst (create_account_info label pwd salt k uuid_hex w)) = true
  /\ forall label' pwd' salt' uuid_hex',
      create_account_info label' pwd' salt' k uuid_hex' w1
      = (Raise (SDKException (other_error "Wallet account exists.")), w1)
      /\ create_account label' pwd' k salt' uuid_hex' w1
         = (Raise (SDKException (other_error "Wallet account exists.")), w1)
      /\ create_account_from_private_key label' pwd' k salt' uuid_hex' w1
         = (Raise (SDKException (other_error "Wallet account exists.")), w1).
Proof.
  intros Hv Hs Haddr Hnew w1.
  destruct (create_account_info_effect label pwd salt k uuid_hex w v addr Hv Hs Haddr Hnew)
    as (info & w' & entry & Hrun & _ & Hv' & Hentry & _ & _ & _ & _ & _ & _ & _ & _ & _ & Hs').
  assert (Hw1 : w1 = w') by (unfold w1, after; now rewrite Hrun). rewrite Hrun.
  split; [reflexivity|]. rewrite Hw1. clear Hw1 w1.
  intros label' pwd' salt' uuid_hex'.
  assert (Hraise : __create_account label' (Some pwd') salt' k true uuid_hex' w'
                   = (Raise (SDKException (other_error "Wallet account exists.")), w')).
  { eapply create_account_exists; [exact Hv' | congruence | rewrite Hs'; exact Haddr |].
    cbn [WalletData.accounts]. apply Exists_app. right. now constructor. }
  unfold create_account_info, create_account, create_account_from_private_key.
  unfold create_account_info.
  unfold mbind, M_bind. rewrite Hraise. auto.
Qed.

(** Whatever the state, a call of [__create_account] for an account
    that returned has left the account at the end of the list that
    [wallet_in_mem] refers to. *)
Lemma create_account_returned (label : option string) (pwd salt : string)
    (k : list byte) (uuid_hex : string) (w w' : world) (acct : Account.t) :
  __create_account label (Some pwd) salt k true uuid_hex w = (Ok acct, w') ->
  exists o accounts entry addr,
    Account.get_address_base58 acct = Ok addr
    /\ AccountData.b58_address entry = addr
    /\ Forall (fun a => AccountData.b58_address a <> addr) accounts
    /\ wallet_in_mem w' = wallet_in_mem w
    /\ heap w' !! wallet_in_mem w = Some (OWallet o)
    /\ heap w' !! o_accounts o = Some (OAccounts (accounts ++ [entry])).
Proof.
  rewrite create_account_for_account. cbv zeta. intros Hrun.
  destruct (new_Account k (scheme w)) as [account|]; [|discriminate].
  destruct (is_SHA256withECDSA (scheme w)); [|discriminate].
  destruct (Account.export_gcm_encrypted_private_key _ pwd salt _) as [key|]; [|discriminate].
  destruct (Account.get_address_base58 _) as [addr|] eqn:Haddr; [|discriminate].
  destruct (heap w !! wallet_in_mem w) as [[o| |]|] eqn:Ho; try discriminate.
  destruct (heap w !! o_accounts o) as [[| |accounts]|] eqn:Ha; try discriminate.
  destruct (existsb _ accounts) eqn:Hex; [discriminate|].
  injection Hrun as <- <-.
  assert (Hne : wallet_in_mem w <> o_accounts o) by congruence.
  set (first := (length accounts =? 0)%nat).
  exists (if first then with_default_account_address (PyStr addr) o else o),
    accounts, (account_entry key addr (default_label label uuid_hex)
                 (string_of_list_byte (Base64.b64encode (encode_latin1 salt)))
                 (Account.get_public_key_hex account) first), addr.
  split; [exact Haddr|]. split; [apply account_entry_fields|].
  split; [now apply existsb_address_false|]. split; [reflexivity|].
  cbn [heap set_heap]. split.
  - rewrite lookup_insert_ne by congruence.
    destruct first; [apply lookup_insert_eq | exact Ho].
  - destruct first; cbn; apply lookup_insert_eq.
Qed.

Lemma find_account_last (addr : string) (accounts : list AccountData.t)
    (entry : AccountData.t) :
  AccountData.b58_address entry = addr ->
  Forall (fun a => AccountData.b58_address a <> addr) accounts ->
  find_account addr (accounts ++ [entry]) = Some entry.
Proof.
  intros He Hall. unfold find_account.
  induction Hall as [|a l Ha _ IH]; cbn.
  - rewrite He. now rewrite String.eqb_refl.
  - assert (E : String.eqb addr (AccountData.b58_address a) = false)
      by (apply String.eqb_neq; congruence).
    now rewrite E.
Qed.

(** After [create_account_info] has returned, the loop over the
    accounts finds the new entry. *)
Lemma create_account_info_found (label : option string) (pwd salt : string)
    (k : list byte) (uuid_hex : string) (w w' : world) (info : AccountInfo.t) :
  create_account_info label pwd salt k uuid_hex w = (Ok info, w') ->
  exists o accounts entry,
    heap w' !! wallet_in_mem w' = Some (OWallet o)
    /\ heap w' !! o_accounts o = Some (OAccounts (accounts ++ [entry]))
    /\ AccountData.b58_address entry = AccountInfo.address_base58 info
    /\ find_account (AccountInfo.address_base58 info) (accounts ++ [entry]) = Some entry.
Proof.
  unfold create_account_info. intros Hrun.
  apply bind_ok in Hrun as (acct & w1 & Hacct & Hrun).
  apply create_account_returned in Hacct
    as (o & accounts & entry & addr & Haddr & He & Hall & Hm & Ho & Ha).
  apply bind_ok in Hrun as (addr' & w2 & Haddr' & Hrun).
  apply lift_ok in Haddr' as [Haddr' ->].
  change (Address.b58encode _) with (Account.get_address_base58 acct) in Haddr'.
  assert (addr' = addr) by congruence. subst addr'.
  apply bind_ok in Hrun as (enc & w3 & Henc & Hrun).
  apply lift_ok in Henc as [_ ->].
  apply ret_ok in Hrun as [-> ->]. cbn [AccountInfo.address_base58].
  exists o, accounts, entry. rewrite Hm. repeat split; try assumption.
  now apply find_account_last.
Qed.

(** The loop that follows [create_account_info]. *)
Lemma scan_accounts_found (info : AccountInfo.t) (w1 : world) (o : WalletObj)
    (accounts : list AccountData.t) (entry : AccountData.t) (msg : string) :
  heap w1 !! wallet_in_mem w1 = Some (OWallet o) ->
  heap w1 !! o_accounts o = Some (OAccounts accounts) ->
  find_account (AccountInfo.address_base58 info) accounts = Some entry ->
  (w2 ← get; o ← get_obj (wallet_in_mem w2);
   accounts ← get_accounts (o_accounts o);
   match find_account (AccountInfo.address_base58 info) accounts with
   | Some acct => mret acct
   | None => raise (SDKException (other_error msg))
   end) w1 = (Ok entry, w1).
Proof.
  intros Ho Ha Hfind.
  unfold mbind, M_bind, get_obj, get_accounts, get, mret, M_ret.
  unfold mbind, M_bind, get, mret, M_ret. now rewrite Ho, Ha, Hfind.
Qed.

(** X3.  The loop that closes [create_account_from_private_key] finds
    the account that [create_account_info] added: when
    [create_account_info] returns, the method returns the entry of the
    address it reports, in the same state, and when it raises, the
    method raises the same exception.  Likewise [import_account], once
    the salt and the key are decoded and [create_account_info] returns,
    returns the entry of that address. *)
Theorem created_account_is_found (label : option string) (pwd : string)
    (k : list byte) (salt uuid_hex : string) (w : world) :
  (forall info w1,
      create_account_info label pwd salt k uuid_hex w = (Ok info, w1) ->
      exists entry,
        create_account_from_private_key label pwd k salt uuid_hex w = (Ok entry, w1)
        /\ AccountData.b58_address entry = AccountInfo.address_base58 info)
  /\ (forall e w1,
        create_account_info label pwd salt k uuid_hex w = (Raise e, w1) ->
        create_account_from_private_key label pwd k salt uuid_hex w = (Raise e, w1))
  /\ (forall enc addr base64_salt info w1,
        decode_salt base64_salt = Ok salt ->
        Account.get_gcm_decoded_private_key enc pwd addr salt (Scrypt.n Scrypt.default)
          (scheme w) = Ok k ->
        create_account_info label pwd salt k uuid_hex w = (Ok info, w1) ->
        exists entry,
          import_account label enc pwd addr base64_salt uuid_hex w = (Ok entry, w1)
          /\ AccountData.b58_address entry = AccountInfo.address_base58 info).
Proof.
  split; [|split].
  - intros info w1 Hrun.
    destruct (create_account_info_found _ _ _ _ _ _ _ _ Hrun)
      as (o & accounts & entry & Ho & Ha & He & Hfind).
    exists entry. split; [|exact He].
    unfold create_account_from_private_key. unfold mbind at 1, M_bind at 1.
    rewrite Hrun. now apply (scan_accounts_found info w1 o (accounts ++ [entry])).
  - intros e w1 Hrun.
    unfold create_account_from_private_key. unfold mbind at 1, M_bind at 1.
    now rewrite Hrun.
  - intros enc addr base64_salt info w1 Hsalt Hdec Hrun.
    destruct (create_account_info_found _ _ _ _ _ _ _ _ Hrun)
      as (o & accounts & entry & Ho & Ha & He & Hfind).
    exists entry. split; [|exact He].
    unfold import_account. unfold mbind at 1, M_bind at 1. unfold lift at 1.
    rewrite Hsalt. unfold mbind at 1, M_bind at 1. cbn [get].
    unfold mbind at 1, M_bind at 1. unfold lift at 1. rewrite Hdec.
    unfold mbind at 1, M_bind at 1. rewrite Hrun.
    now apply (scan_accounts_found info w1 o (accounts ++ [entry])).
Qed.

End duplicates.

(** ** What the wallet in memory keeps *)

Lemma grows_refl (v : WalletData.t) : grows v v.
Proof. unfold grows. repeat split; auto. Qed.

Lemma grows_trans (v1 v2 v3 : WalletData.t) : grows v1 v2 -> grows v2 v3 -> grows v1 v3.
Proof.
  intros (A1 & A2 & A3 & A4 & A5 & A6 & A7) (B1 & B2 & B3 & B4 & B5 & B6 & B7).
  unfold grows. repeat split; try congruence; auto.
  - now transitivity (WalletData.accounts v2).
  - now transitivity (WalletData.identities v2).
Qed.

Lemma NoDup_map_snoc {A B} (f : A -> B) (l : list A) (x : A) :
  Forall (fun a => f a <> f x) l -> NoDup (map f l) -> NoDup (map f (l ++ [x])).
Proof.
  intros Hall Hnd. rewrite map_app. cbn [map]. apply NoDup_app. split; [exact Hnd|].
  split; [|apply NoDup_singleton].
  intros y Hy Hx. apply list_elem_of_singleton in Hx. subst y.
  apply list_elem_of_In, in_map_iff in Hy as (a & Ha & Hin).
  rewrite List.Forall_forall in Hall. now apply (Hall a).
Qed.

Lemma kg_same_value {A} (m : M A) :
  (forall w, mem_value (snd (m w)) = mem_value w) -> keeps_growing m.
Proof. intros Hm w v Hv. rewrite Hm. exists v. split; [exact Hv | apply grows_refl]. Qed.

Lemma kg_same {A} (m : M A) : (forall w, snd (m w) = w) -> keeps_growing m.
Proof. intros Hm. apply kg_same_value. intros w. now rewrite Hm. Qed.

Lemma kg_bind {A B} (m : M A) (k : A -> M B) :
  keeps_growing m -> (forall a, keeps_growing (k a)) -> keeps_growing (m ≫= k).
Proof.
  intros Hm Hk w v Hv. unfold mbind, M_bind.
  destruct (Hm w v Hv) as (v1 & Hv1 & G1).
  destruct (m w) as [[a|e] w1]; cbn [snd] in *.
  - destruct (Hk a w1 v1 Hv1) as (v2 & Hv2 & G2).
    exists v2. split; [exact Hv2 | now apply grows_trans with v1].
  - exists v1. auto.
Qed.

Lemma kg_ret {A} (a : A) : keeps_growing (mret a : M A).
Proof. now apply kg_same. Qed.

Lemma kg_raise {A} (e : exn) : keeps_growing (raise e : M A).
Proof. now apply kg_same. Qed.

Lemma kg_lift {A} (r : result A) : keeps_growing (lift r).
Proof. now apply kg_same. Qed.

Lemma kg_get : keeps_growing get.
Proof. now apply kg_same. Qed.

Lemma kg_get_obj (l : loc) : keeps_growing (get_obj l).
Proof.
  apply kg_same. intros w. unfold get_obj, mbind, M_bind, get.
  now destruct (heap w !! l) as [[| |]|].
Qed.

Lemma kg_get_accounts (l : loc) : keeps_growing (get_accounts l).
Proof.
  apply kg_same. intros w. unfold get_accounts, mbind, M_bind, get.
  now destruct (heap w !! l) as [[| |]|].
Qed.

Lemma kg_get_identities (l : loc) : keeps_growing (get_identities l).
Proof.
  apply kg_same. intros w. unfold get_identities, mbind, M_bind, get.
  now destruct (heap w !! l) as [[| |]|].
Qed.

Lemma kg_get_value (l : loc) : keeps_growing (get_value l).
Proof.
  apply kg_same. intros w. unfold get_value, mbind, M_bind, get.
  now destruct (read_wallet (heap w) l).
Qed.

Lemma kg_case_find {A B} (o : option A) (f : A -> M B) (m : M B) :
  (forall a, keeps_growing (f a)) -> keeps_growing m ->
  keeps_growing (match o with Some a => f a | None => m end).
Proof. intros Hf Hm. destruct o; auto. Qed.

Create HintDb kg.

#[local] Hint Resolve kg_ret kg_raise kg_lift kg_get kg_get_obj kg_get_accounts
  kg_get_identities kg_get_value : kg.

Ltac kg_step :=
  first [ solve [auto with kg]
        | apply kg_bind; [| intros ?]
        | apply kg_case_find; [intros ? |] ].

Section growth.
Context `{Hashes} `{Constants} `{KeyCipher} `{Curve} `{WalletClasses}.

Lemma kg_create_account (label : option string) (pwd salt : string)
    (k : list byte) (flag : bool) (uuid_hex : string) :
  keeps_growing (__create_account label (Some pwd) salt k flag uuid_hex).
Proof.
  intros w v Hv.
  assert (Hsame : exists v', mem_value w = Some v' /\ grows v v')
    by (exists v; split; [exact Hv | apply grows_refl]).
  destruct (read_wallet_inv _ _ _ Hv) as (o & Ho & Hi & Ha & _).
  destruct flag.
  - rewrite create_account_for_account. cbv zeta.
    destruct (new_Account k (scheme w)) as [account|]; [|exact Hsame].
    destruct (is_SHA256withECDSA (scheme w)); [|exact Hsame].
    destruct (Account.export_gcm_encrypted_private_key _ pwd salt _) as [key|];
      [|exact Hsame].
    destruct (Account.get_address_base58 _) as [addr|]; [|exact Hsame].
    rewrite Ho, Ha.
    destruct (existsb _ (WalletData.accounts v)) eqn:Hex; [exact Hsame|].
    cbn [snd]. unfold mem_value. cbn [heap set_heap wallet_in_mem].
    rewrite (read_after_account (heap w) (wallet_in_mem w) v o (PyStr addr) _ _ Hv Ho).
    eexists. split; [reflexivity|]. unfold grows.
    cbn [WalletData.name WalletData.version WalletData.scrypt WalletData.accounts
           WalletData.identities].
    repeat split; auto.
    + now apply prefix_app_r.
    + apply NoDup_map_snoc. apply existsb_address_false in Hex.
      eapply Forall_impl; [exact Hex|]. intros a Hne.
      now rewrite (proj1 (account_entry_fields _ _ _ _ _ _)).
  - rewrite create_account_for_identity. cbv zeta.
    destruct (new_Account k (scheme w)) as [account|]; [|exact Hsame].
    destruct (is_SHA256withECDSA (scheme w)); [|exact Hsame].
    destruct (Account.export_gcm_encrypted_private_key _ pwd salt _) as [key|];
      [|exact Hsame].
    destruct (Account.get_address_base58 _) as [addr|]; [|exact Hsame].
    rewrite Ho, Hi.
    destruct (existsb _ (WalletData.identities v)) eqn:Hex; [exact Hsame|].
    cbn [snd]. unfold mem_value. cbn [heap set_heap wallet_in_mem].
    rewrite (read_after_identity (heap w) (wallet_in_mem w) v o _ _ _ Hv Ho).
    eexists. split; [reflexivity|]. unfold grows.
    cbn [WalletData.name WalletData.version WalletData.scrypt WalletData.accounts
           WalletData.identities].
    repeat split; auto.
    + now apply prefix_app_r.
    + apply NoDup_map_snoc. apply existsb_ont_id_false in Hex.
      eapply Forall_impl; [exact Hex|]. intros a Hne.
      now destruct (length (WalletData.identities v) =? 0)%nat.
Qed.

#[local] Hint Resolve kg_create_account : kg.

Lemma kg_create_identity_ (label : option string) (pwd salt : string)
    (k : list byte) (uuid_hex : string) :
  keeps_growing (__create_identity label (Some pwd) salt k uuid_hex).
Proof. unfold __create_identity. repeat kg_step. Qed.

Lemma kg_create_account_info (label : option string) (pwd salt : string)
    (k : list byte) (uuid_hex : string) :
  keeps_growing (create_account_info label pwd salt k uuid_hex).
Proof. unfold create_account_info. repeat kg_step. Qed.

#[local] Hint Resolve kg_create_identity_ kg_create_account_info : kg.

Lemma kg_save : keeps_growing save.
Proof.
  apply kg_same_value. intros w. unfold save, get_value.
  unfold mbind, M_bind, mret, M_ret, get, modify, raise. cbv beta iota zeta.
  destruct (can_open_for_writing (wallet_path w));
    [|destruct (no_such_directory (wallet_path w)); reflexivity].
  destruct (read_wallet (heap w) (wallet_in_mem w)); reflexivity.
Qed.

Lemma read_after_create_time (h : gmap loc obj) (l : loc) (v : WalletData.t)
    (o : WalletObj) (t : pyval) :
  read_wallet h l = Some v ->
  h !! l = Some (OWallet o) ->
  read_wallet
    (<[l := OWallet (mkObj (o_name o) (o_version o) t (o_default_ont_id o)
                       (o_default_account_address o) (o_scrypt o)
                       (o_identities o) (o_accounts o))]> h) l
  = Some (WalletData.mk (WalletData.name v) (WalletData.version v) t
            (WalletData.default_ont_id v) (WalletData.default_account_address v)
            (WalletData.scrypt v) (WalletData.identities v) (WalletData.accounts v)).
Proof.
  intros Hr Ho.
  destruct (read_wallet_inv h l v Hr) as (o' & Ho' & Hi & Ha & Hv & N1 & N2 & N3).
  assert (o' = o) by congruence. subst o'.
  destruct v as [n ver ct doi daa sc ids accts]. cbn in Hi, Ha, Hv |- *.
  injection Hv as -> -> -> -> -> ->.
  erewrite (read_wallet_intro _ l
              (mkObj (o_name o) (o_version o) t (o_default_ont_id o)
                 (o_default_account_address o) (o_scrypt o)
                 (o_identities o) (o_accounts o)) ids accts); [reflexivity| | |].
  - apply lookup_insert_eq.
  - cbn. rewrite lookup_insert_ne by congruence. exact Hi.
  - cbn. rewrite lookup_insert_ne by congruence. exact Ha.
Qed.

(** [create_wallet], in one piece, on a state whose wallet in memory is
    a wallet. *)
Lemma create_wallet_eq (path today : string) (w : world) (v : WalletData.t) :
  mem_value w = Some v ->
  let v' := WalletData.mk (WalletData.name v) (WalletData.version v) (PyStr today)
              (WalletData.default_ont_id v) (WalletData.default_account_address v)
              (WalletData.scrypt v) (WalletData.identities v) (WalletData.accounts v) in
  exists w1,
    mem_value w1 = Some v' /\ wallet_file w1 = wallet_file w
    /\ wallet_in_mem w1 = wallet_in_mem w /\ files w1 = files w
    /\ wallet_path w1 = wallet_path w /\ scheme w1 = scheme w
    /\ create_wallet path today w
       = match files w !! path with
         | Some _ => (Raise (SDKException (other_error "Wallet file has existed.")), w)
         | None =>
             if can_open_for_writing (wallet_path w)
             then (Ok tt, set_files (<[wallet_path w := wallet_to_json v']> (files w)) w1)
             else (Raise (if no_such_directory (wallet_path w)
                          then SDKException (other_error "No such file or directory")
                          else OSError), w1)
         end.
Proof.
  intros Hv v'.
  destruct (read_wallet_inv _ _ _ Hv) as (o & Ho & _).
  pose proof (read_after_create_time _ _ _ o (PyStr today) Hv Ho) as Hread.
  set (o1 := mkObj _ _ (PyStr today) _ _ _ _ _) in Hread.
  exists (set_heap (<[wallet_in_mem w := OWallet o1]> (heap w)) w).
  unfold mem_value. cbn [heap set_heap wallet_in_mem wallet_file files wallet_path scheme].
  repeat split; try exact Hread.
  unfold create_wallet, is_file_exist, get_obj, store, save, get_value.
  unfold mbind, M_bind, mret, M_ret, get, modify, raise. cbv beta iota zeta.
  destruct (files w !! path) as [c|] eqn:Hf.
  - rewrite bool_decide_eq_true_2 by eauto. reflexivity.
  - rewrite bool_decide_eq_false_2 by (intros [? ?]; discriminate).
    cbn [negb]. rewrite Ho. cbn [set_heap wallet_path heap wallet_in_mem].
    fold o1. destruct (can_open_for_writing (wallet_path w));
      [|destruct (no_such_directory (wallet_path w)); reflexivity].
    cbn [heap set_heap]. rewrite Hread. reflexivity.
Qed.

Lemma kg_create_wallet (path today : string) :
  keeps_growing (create_wallet path today).
Proof.
  intros w v Hv.
  destruct (create_wallet_eq path today w v Hv) as (w1 & Hv1 & _ & _ & _ & _ & _ & ->).
  assert (G : grows v (WalletData.mk (WalletData.name v) (WalletData.version v)
                        (PyStr today) (WalletData.default_ont_id v)
                        (WalletData.default_account_address v) (WalletData.scrypt v)
                        (WalletData.identities v) (WalletData.accounts v)))
    by (unfold grows; cbn; repeat split; auto).
  destruct (files w !! path).
  - exists v. split; [exact Hv | apply grows_refl].
  - destruct (can_open_for_writing (wallet_path w)); cbn [snd]; eauto.
Qed.

Lemma kg_create_account_pub (label : option string) (pwd : string)
    (pri_key : list byte) (salt uuid_hex : string) :
  keeps_growing (create_account label pwd pri_key salt uuid_hex).
Proof. unfold create_account. repeat kg_step. Qed.

Lemma kg_create_account_from_private_key (label : option string) (password : string)
    (private_key : list byte) (salt uuid_hex : string) :
  keeps_growing (create_account_from_private_key label password private_key salt uuid_hex).
Proof. unfold create_account_from_private_key. repeat kg_step. Qed.

Lemma kg_import_account (label : option string) (enc pwd addr b64_salt uuid_hex : string) :
  keeps_growing (import_account label enc pwd addr b64_salt uuid_hex).
Proof. unfold import_account. repeat kg_step. Qed.

Lemma kg_import_identity (label : option string) (enc pwd salt addr uuid_hex : string) :
  keeps_growing (import_identity label enc pwd salt addr uuid_hex).
Proof. unfold import_identity. repeat kg_step. Qed.

Lemma run_mutation_grows (c : mutation) (w : world) (v : WalletData.t) :
  mem_value w = Some v ->
  exists v', mem_value (run_mutation c w) = Some v' /\ grows v v'.
Proof.
  destruct c; cbn [run_mutation]; unfold after.
  - apply kg_create_account_pub.
  - unfold create_identity. apply kg_create_identity_.
  - unfold create_identity_from_private_key. apply kg_create_identity_.
  - apply kg_create_account_from_private_key.
  - apply kg_import_account.
  - apply kg_import_identity.
  - apply kg_create_wallet.
Qed.

(** X4.  Whatever sequence of creating and importing methods is called,
    returning or raising, the wallet in memory keeps its name, version
    and scrypt record, its accounts and identities are only added to at
    the end, and addresses (ont ids) that were pairwise distinct stay
    pairwise distinct. *)
Theorem mutations_grow (cs : list mutation) (w : world) (v : WalletData.t) :
  mem_value w = Some v ->
  exists v', mem_value (run_mutations cs w) = Some v' /\ grows v v'.
Proof.
  unfold run_mutations. revert w v.
  induction cs as [|c cs IH]; intros w v Hv; cbn [fold_left].
  - exists v. split; [exact Hv | apply grows_refl].
  - destruct (run_mutation_grows c w v Hv) as (v1 & Hv1 & G1).
    destruct (IH _ _ Hv1) as (v2 & Hv2 & G2).
    exists v2. split; [exact Hv2 | now apply grows_trans with v1].
Qed.

End growth.

Section identities.
Context `{Hashes} `{Constants} `{KeyCipher} `{Curve} `{WalletClasses}.

(** What a call of [create_identity] that finds no identity of the ont
    id does, in full. *)
Lemma create_identity_effect (label : option string) (pwd : string)
    (k : list byte) (salt uuid_hex : string) (w : world) (v : WalletData.t)
    (addr : string) :
  mem_value w = Some v ->
  scheme w = SHA256withECDSA ->
  Account.get_address_base58 (Account.init k (scheme w)) = Ok addr ->
  Forall (fun i => Identity.ont_id i <> DID_ONT +:+ addr) (WalletData.identities v) ->
  exists w' entry ctl v',
    create_identity label pwd k salt uuid_hex w
    = (WalletData_get_identity_by_ont_id v' (DID_ONT +:+ addr), w')
    /\ mem_value w' = Some v'
    /\ v' = WalletData.mk (WalletData.name v) (WalletData.version v)
              (WalletData.create_time v)
              (match WalletData.identities v with
               | [] => PyStr (DID_ONT +:+ addr)
               | _ :: _ => WalletData.default_ont_id v
               end)
              (WalletData.default_account_address v)
              (WalletData.scrypt v)
              (WalletData.identities v ++ [entry]) (WalletData.accounts v)
    /\ Identity.ont_id entry = DID_ONT +:+ addr
    /\ Identity.label entry = default_label label uuid_hex
    /\ Identity.is_default entry
       = (match WalletData.identities v with
          | [] => true
          | _ :: _ => Identity.is_default Identity_new
          end)
    /\ Identity.controls entry = Identity.controls Identity_new ++ [ctl]
    /\ Control.kid ctl = "keys-1"
    /\ Control.b58_address ctl = addr
    /\ Ok (Control.key ctl)
       = Account.export_gcm_encrypted_private_key (Account.init k (scheme w)) pwd salt
           (Scrypt.n Scrypt.default)
    /\ Ok (Control.salt ctl) = b64encode_str (encode_utf8 salt)
    /\ Control.public_key ctl = Account.get_public_key_hex (Account.init k (scheme w))
    /\ wallet_file w' = wallet_file w /\ wallet_in_mem w' = wallet_in_mem w
    /\ files w' = files w /\ scheme w' = scheme w.
Proof.
  intros Hv Hs Haddr Hnew.
  pose proof (export_ok _ pwd salt addr Haddr) as Hkey.
  destruct (read_wallet_inv _ _ _ Hv) as (o & Ho & Hi & Ha & _).
  apply existsb_ont_id_false in Hnew.
  unfold create_identity, __create_identity. unfold mbind at 1, M_bind at 1.
  rewrite create_account_for_identity. cbv zeta.
  rewrite Hs in Haddr, Hkey |- *. cbn [is_SHA256withECDSA new_Account].
  rewrite Hkey, Haddr, Ho, Hi, Hnew.
  unfold mbind at 1, M_bind at 1. unfold lift at 1. rewrite Haddr.
  unfold mbind at 1, M_bind at 1. cbn [get].
  unfold mbind at 1, M_bind at 1. unfold get_value at 1.
  unfold mbind at 1, M_bind at 1. cbn [get]. cbn [heap set_heap wallet_in_mem].
  set (first := (length (WalletData.identities v) =? 0)%nat).
  set (entry := identity_entry _ addr _ _ _ _ first).
  rewrite (read_after_identity (heap w) (wallet_in_mem w) v o
             (PyStr (DID_ONT +:+ addr)) first (WalletData.identities v ++ [entry]) Hv Ho).
  cbn [mret M_ret]. unfold lift.
  eexists _, entry, _, _. split; [reflexivity|].
  split.
  { unfold mem_value. cbn [heap set_heap wallet_in_mem].
    apply (read_after_identity (heap w) (wallet_in_mem w) v o
             (PyStr (DID_ONT +:+ addr)) first (WalletData.identities v ++ [entry]) Hv Ho). }
  split.
  { subst first. now destruct (WalletData.identities v). }
  subst entry. unfold identity_entry. cbv zeta.
  split; [now destruct first|]. split; [now destruct first|].
  split; [subst first; now destruct (WalletData.identities v)|].
  split; [destruct first; reflexivity|].
  repeat split; try reflexivity; try exact Hs;
    symmetry; first [exact Hkey | apply b64encode_str_ok].
Qed.

(** X5.  On a manager under SHA256withECDSA whose wallet in memory holds
    no identity of the key's ont id, [create_identity] appends exactly
    one identity: its ont id is [DID_ONT] followed by the address, and
    that ont id becomes the wallet's default exactly when the identity
    is the first.  Its default flag is set when it is the first and is
    otherwise left as [Identity()] made it: the identity is a default
    one exactly when it is the first or [Identity()] starts default.
    The one control added to it has the id "keys-1", the address, the
    wrapped key, the base64 text of the UTF-8 salt and the public key.
    The value returned is what [WalletData.get_identity_by_ont_id]
    gives on the new wallet. *)
Theorem create_identity_appends (label : option string) (pwd : string)
    (k : list byte) (salt uuid_hex : string) (w : world) (v : WalletData.t)
    (addr : string) :
  mem_value w = Some v ->
  scheme w = SHA256withECDSA ->
  Account.get_address_base58 (Account.init k (scheme w)) = Ok addr ->
  Forall (fun i => Identity.ont_id i <> DID_ONT +:+ addr) (WalletData.identities v) ->
  exists w' entry ctl v',
    create_identity label pwd k salt uuid_hex w
    = (WalletData_get_identity_by_ont_id v' (DID_ONT +:+ addr), w')
    /\ mem_value w' = Some v'
    /\ v' = WalletData.mk (WalletData.name v) (WalletData.version v)
              (WalletData.create_time v)
              (match WalletData.identities v with
               | [] => PyStr (DID_ONT +:+ addr)
               | _ :: _ => WalletData.default_ont_id v
               end)
              (WalletData.default_account_address v)
              (WalletData.scrypt v)
              (WalletData.identities v ++ [entry]) (WalletData.accounts v)
    /\ Identity.ont_id entry = DID_ONT +:+ addr
    /\ Identity.label entry = default_label label uuid_hex
    /\ Identity.is_default entry
       = (match WalletData.identities v with
          | [] => true
          | _ :: _ => Identity.is_default Identity_new
          end)
    /\ (Identity.is_default entry = true
        <-> WalletData.identities v = [] \/ Identity.is_default Identity_new = true)
    /\ Identity.controls entry = Identity.controls Identity_new ++ [ctl]
    /\ Control.kid ctl = "keys-1"
    /\ Control.b58_address ctl = addr
    /\ Ok (Control.key ctl)
       = Account.export_gcm_encrypted_private_key (Account.init k (scheme w)) pwd salt
           (Scrypt.n Scrypt.default)
    /\ Ok (Control.salt ctl) = b64encode_str (encode_utf8 salt)
    /\ Control.public_key ctl = Account.get_public_key_hex (Account.init k (scheme w))
    /\ wallet_file w' = wallet_file w /\ wallet_in_mem w' = wallet_in_mem w
    /\ files w' = files w /\ scheme w' = scheme w.
Proof.
  intros Hv Hs Haddr Hnew.
  destruct (create_identity_effect label pwd k salt uuid_hex w v addr Hv Hs Haddr Hnew)
    as (w' & entry & ctl & v' & P1 & P2 & P3 & P4 & P5 & P6 & P7).
  exists w', entry, ctl, v'.
  repeat (split; [assumption|]). split; [|exact P7].
  rewrite P6. destruct (WalletData.identities v) as [|a l].
  - split; auto.
  - split; [auto | intros [Hnil | Hd]; [discriminate | exact Hd]].
Qed.

(** X6.  Under a scheme other than SHA256withECDSA the five creating
    methods create nothing and leave the state as it was: each raises
    what [Account(private_key, self.scheme)], the first statement of
    [__create_account], raises under that scheme, and the
    [SDKException] "Scheme type is error." when the constructor
    returns. *)
Theorem creation_needs_SHA256withECDSA (label : option string) (pwd : string)
    (k : list byte) (salt uuid_hex : string) (w : world) :
  scheme w <> SHA256withECDSA ->
  let refused {A} : result A * world :=
    (Raise (match Account_raises k (scheme w) with
            | Some e => e
            | None => SDKException (other_error "Scheme type is error.")
            end), w) in
  create_account label pwd k salt uuid_hex w = refused
  /\ create_account_info label pwd salt k uuid_hex w = refused
  /\ create_account_from_private_key label pwd k salt uuid_hex w = refused
  /\ create_identity label pwd k salt uuid_hex w = refused
  /\ create_identity_from_private_key label pwd k salt uuid_hex w = refused.
Proof.
  intros Hs refused.
  assert (Hraise : forall flag,
             __create_account label (Some pwd) salt k flag uuid_hex w
             = (Raise (match Account_raises k (scheme w) with
                       | Some e => e
                       | None => SDKException (other_error "Scheme type is error.")
                       end), w)).
  { intros [|]; [rewrite create_account_for_account | rewrite create_account_for_identity];
      cbv zeta; (destruct (scheme w) as [|name]; [contradiction|]);
      cbn [new_Account is_SHA256withECDSA];
      now destruct (Account_raises k (other_scheme name)). }
  unfold create_account, create_account_info, create_account_from_private_key,
    create_identity, create_identity_from_private_key, __create_identity,
    create_account_info, refused.
  unfold mbind, M_bind. rewrite !Hraise. auto.
Qed.

End identities.

(** ** Files *)

Section files.
Context `{Hashes} `{Constants} `{KeyCipher} `{Curve} `{WalletClasses}.

(** The document of a wallet file with its four required entries, by
    what [WalletData(...)] makes of its identities and accounts. *)
Lemma wallet_of_dict_ok (d sd : gmap string pyval) (name version accounts : pyval) :
  d !! "scrypt" = Some (PyDict sd) ->
  d !! "name" = Some name -> d !! "version" = Some version ->
  d !! "accounts" = Some accounts ->
  wallet_of_dict (PyDict d)
  = match lists_of_json (default (PyList []) (d !! "identities")) accounts with
    | Ok lists =>
        Ok (WalletData.mk name version
              (default (PyStr "") (d !! "createTime"))
              (default (PyStr "") (d !! "defaultOntid"))
              (default (PyStr "") (d !! "defaultAccountAddress"))
              (load_scrypt sd) lists.1 lists.2)
    | Raise (KeyError k) =>
        Raise (SDKException (param_err ("wallet file format error: '" +:+ k +:+ "'.")))
    | Raise e => Raise e
    end.
Proof.
  intros Hs Hn Hv Ha. unfold wallet_of_dict, subscript.
  rewrite Hs. cbn [mbind result_bind]. rewrite Hn, Hv, Ha. cbn [mbind result_bind].
  unfold dict_get.
  destruct (lists_of_json (default (PyList []) (d !! "identities")) accounts)
    as [lists|[]]; reflexivity.
Qed.

Lemma open_wallet_eq (path : string) (w : world) (doc : pyval) (v : WalletData.t) :
  files w !! path = Some doc ->
  wallet_of_dict doc = Ok v ->
  exists l w',
    open_wallet path w = (Ok l, w')
    /\ wallet_file w' = l /\ wallet_path w' = path
    /\ file_value w' = Some v /\ mem_value w' = Some v /\ separate w'
    /\ files w' = files w /\ scheme w' = scheme w.
Proof.
  intros Hfile Hdoc.
  unfold open_wallet.
  unfold mbind at 1, M_bind at 1. cbn [modify].
  unfold mbind at 1, M_bind at 1. unfold is_file_exist at 1.
  unfold mbind at 1, M_bind at 1. cbn [get mret M_ret].
  cbn [set_wallet_path files]. rewrite bool_decide_eq_true_2 by (rewrite Hfile; eauto).
  cbn [negb].
  unfold mbind at 1, M_bind at 1. unfold load_file at 1.
  unfold mbind at 1, M_bind at 1. cbn [get].
  cbn [set_wallet_path files wallet_path]. rewrite Hfile.
  unfold mbind at 1, M_bind at 1. cbn [lift]. rewrite Hdoc.
  cbn [set_wallet_path heap].
  pose proof (read_new_WalletData v (heap w)) as Hread.
  destruct (new_WalletData v (heap w)) as [lf h1] eqn:Hnew. cbn [fst snd] in Hread.
  set (w1 := set_wallet_file lf (set_heap h1 (set_wallet_path path w))).
  assert (Hv1 : file_value w1 = Some v) by exact Hread.
  pose proof (deepcopy_into_mem w1 v Hv1) as Hd.
  destruct (new_WalletData v (heap w1)) as [c h2].
  destruct Hd as (Hrun & Hsep & Hf & Hm).
  unfold mbind, M_bind, modify, mret, M_ret. cbv beta iota zeta.
  fold w1. change (deepcopy_m lf w1) with (deepcopy_m (wallet_file w1) w1).
  rewrite Hrun. eexists _, _. split; [reflexivity|].
  repeat split; assumption || reflexivity.
Qed.

(** What a failing [load_file] leaves of [open_wallet]: the path is
    set, nothing else has changed. *)
Lemma open_wallet_load_fails (path : string) (w : world) (doc : pyval) (e : exn) :
  files w !! path = Some doc ->
  wallet_of_dict doc = Raise e ->
  open_wallet path w = (Raise e, set_wallet_path path w).
Proof.
  intros Hfile Hdoc.
  unfold open_wallet.
  unfold mbind at 1, M_bind at 1. cbn [modify].
  unfold mbind at 1, M_bind at 1. unfold is_file_exist at 1.
  unfold mbind at 1, M_bind at 1. cbn [get mret M_ret].
  cbn [set_wallet_path files]. rewrite bool_decide_eq_true_2 by (rewrite Hfile; eauto).
  cbn [negb].
  unfold mbind at 1, M_bind at 1. unfold load_file at 1.
  unfold mbind at 1, M_bind at 1. cbn [get].
  cbn [set_wallet_path files wallet_path]. rewrite Hfile.
  unfold mbind at 1, M_bind at 1. cbn [lift]. rewrite Hdoc. reflexivity.
Qed.

(** X7.  [open_wallet] on a file that has the entries scrypt, name,
    version and accounts goes by what [WalletData(...)] makes of the
    identities and accounts of the file.  When the constructor returns,
    [open_wallet] returns; both wallets then have the content of the
    file, with an empty text for a missing createTime, defaultOntid or
    defaultAccountAddress and an empty list handed over for missing
    identities, they share no object, and the path is the one given.
    When the constructor raises [KeyError] for a key, as on an identity
    record that lacks one, [open_wallet] raises the parameter error
    "wallet file format error: '<key>'."; another exception passes as
    it is.  In both cases the path has been set and nothing else has
    changed. *)
Theorem open_wallet_loads (path : string) (w : world) (d sd : gmap string pyval)
    (name version accounts : pyval) :
  files w !! path = Some (PyDict d) ->
  d !! "scrypt" = Some (PyDict sd) ->
  d !! "name" = Some name -> d !! "version" = Some version ->
  d !! "accounts" = Some accounts ->
  let built := lists_of_json (default (PyList []) (d !! "identities")) accounts in
  (forall ids accts,
      built = Ok (ids, accts) ->
      let v := WalletData.mk name version
                 (default (PyStr "") (d !! "createTime"))
                 (default (PyStr "") (d !! "defaultOntid"))
                 (default (PyStr "") (d !! "defaultAccountAddress"))
                 (load_scrypt sd) ids accts in
      exists l w',
        open_wallet path w = (Ok l, w')
        /\ wallet_file w' = l /\ wallet_path w' = path
        /\ file_value w' = Some v /\ mem_value w' = Some v /\ separate w')
  /\ (forall k,
        built = Raise (KeyError k) ->
        open_wallet path w
        = (Raise (SDKException
                    (param_err ("wallet file format error: '" +:+ k +:+ "'."))),
           set_wallet_path path w))
  /\ (forall e,
        built = Raise e -> (forall k, e <> KeyError k) ->
        open_wallet path w = (Raise e, set_wallet_path path w)).
Proof.
  intros Hfile Hs Hn Hv Ha built.
  pose proof (wallet_of_dict_ok d sd name version accounts Hs Hn Hv Ha) as Hdoc.
  fold built in Hdoc. split; [|split].
  - intros ids accts Hb v. rewrite Hb in Hdoc. cbn [fst snd] in Hdoc.
    destruct (open_wallet_eq path w (PyDict d) v Hfile Hdoc)
      as (l & w' & Hrun & F1 & F2 & F3 & F4 & F5 & _).
    exists l, w'. auto 10.
  - intros k Hb. rewrite Hb in Hdoc.
    apply (open_wallet_load_fails path w _ _ Hfile Hdoc).
  - intros e Hb Hne. rewrite Hb in Hdoc.
    apply (open_wallet_load_fails path w _ _ Hfile).
    rewrite Hdoc. destruct e; try reflexivity. now destruct (Hne key).
Qed.

(** The required entries of a wallet file, in the order [load_file]
    asks for them. *)
Lemma wallet_of_dict_missing (d : gmap string pyval) :
  let format_error k :=
    Raise (SDKException (param_err ("wallet file format error: '" +:+ k +:+ "'."))) in
  (d !! "scrypt" = None -> wallet_of_dict (PyDict d) = format_error "scrypt")
  /\ (forall sd,
        d !! "scrypt" = Some (PyDict sd) ->
        (d !! "name" = None -> wallet_of_dict (PyDict d) = format_error "name")
        /\ (is_Some (d !! "name") -> d !! "version" = None ->
            wallet_of_dict (PyDict d) = format_error "version")
        /\ (is_Some (d !! "name") -> is_Some (d !! "version") ->
            d !! "accounts" = None ->
            wallet_of_dict (PyDict d) = format_error "accounts")).
Proof.
  intros format_error. unfold wallet_of_dict, subscript. split.
  - intros ->. reflexivity.
  - intros sd ->. cbn [mbind result_bind]. repeat split.
    + intros ->. reflexivity.
    + intros [n ->] ->. reflexivity.
    + intros [n ->] [ver ->] ->. reflexivity.
Qed.

(** X8.  [open_wallet] on a file that lacks scrypt, name, version or
    accounts raises [SDKException] with the parameter error that names
    the first entry missing, in that order; the path has been set, both
    wallets and the store are as before. *)
Theorem open_wallet_missing_entry (path : string) (w : world) (d : gmap string pyval) :
  files w !! path = Some (PyDict d) ->
  let refused k :=
    (Raise (SDKException (param_err ("wallet file format error: '" +:+ k +:+ "'."))),
     set_wallet_path path w) in
  (d !! "scrypt" = None -> open_wallet path w = refused "scrypt")
  /\ (forall sd,
        d !! "scrypt" = Some (PyDict sd) ->
        (d !! "name" = None -> open_wallet path w = refused "name")
        /\ (is_Some (d !! "name") -> d !! "version" = None ->
            open_wallet path w = refused "version")
        /\ (is_Some (d !! "name") -> is_Some (d !! "version") ->
            d !! "accounts" = None ->
            open_wallet path w = refused "accounts")).
Proof.
  intros Hfile refused.
  destruct (wallet_of_dict_missing d) as [M1 M2].
  split.
  - intros Hs. apply (open_wallet_load_fails path w _ _ Hfile (M1 Hs)).
  - intros sd Hs. destruct (M2 sd Hs) as (N1 & N2 & N3). repeat split.
    + intros Hn. apply (open_wallet_load_fails path w _ _ Hfile (N1 Hn)).
    + intros Hn Hv. apply (open_wallet_load_fails path w _ _ Hfile (N2 Hn Hv)).
    + intros Hn Hv Ha. apply (open_wallet_load_fails path w _ _ Hfile (N3 Hn Hv Ha)).
Qed.


(** X10.  [open_wallet(path)] on a missing file raises "Wallet file not
    found." and still stores the path, so that [create_wallet(path)]
    called next writes the wallet in memory, with its creation time
    set, to that path. *)
Theorem open_missing_then_create (path today : string) (w : world) (v : WalletData.t) :
  files w !! path = None ->
  mem_value w = Some v ->
  can_open_for_writing path = true ->
  let v' := WalletData.mk (WalletData.name v) (WalletData.version v) (PyStr today)
              (WalletData.default_ont_id v) (WalletData.default_account_address v)
              (WalletData.scrypt v) (WalletData.identities v) (WalletData.accounts v) in
  open_wallet path w
  = (Raise (SDKException (other_error "Wallet file not found.")), set_wallet_path path w)
  /\ exists w2,
      create_wallet path today (after (open_wallet path) w) = (Ok tt, w2)
      /\ files w2 = <[path := wallet_to_json v']> (files w)
      /\ mem_value w2 = Some v'
      /\ wallet_file w2 = wallet_file w.
Proof.
  intros Hnone Hv Hcan v'.
  assert (Hopen : open_wallet path w
                  = (Raise (SDKException (other_error "Wallet file not found.")),
                     set_wallet_path path w)).
  { unfold open_wallet.
    unfold mbind at 1, M_bind at 1. cbn [modify].
    unfold mbind at 1, M_bind at 1. unfold is_file_exist at 1.
    unfold mbind at 1, M_bind at 1. cbn [get mret M_ret].
    cbn [set_wallet_path files].
    rewrite bool_decide_eq_false_2 by (rewrite Hnone; intros [? ?]; discriminate).
    reflexivity. }
  split; [exact Hopen|]. unfold after. rewrite Hopen. cbn [snd].
  assert (Hv0 : mem_value (set_wallet_path path w) = Some v) by exact Hv.
  destruct (create_wallet_eq path today _ v Hv0)
    as (w1 & Hv1 & Hwf & _ & Hf1 & _ & _ & Hrun).
  rewrite Hrun. cbn [set_wallet_path files wallet_path]. rewrite Hnone, Hcan.
  eexists. split; [reflexivity|]. cbn [files set_files].
  repeat split; assumption.
Qed.

(** X11.  [write_wallet] raises and changes nothing when the file cannot
    be opened for writing: the [SDKException] "No such file or
    directory" when [open] fails with [FileNotFoundError], and the
    [OSError] of [open] itself otherwise; [wallet_file] is not
    reassigned then.  When the file can be opened, it writes the wallet
    in memory to the stored path and returns that object, which
    [wallet_file] now is; [reset_wallet] called next makes
    [wallet_in_mem] a separate copy again, with the same content, and
    from then on the creating methods leave the content of
    [wallet_file] alone. *)
Theorem write_wallet_then_reset (w : world) (v : WalletData.t) :
  mem_value w = Some v ->
  (can_open_for_writing (wallet_path w) = false ->
   write_wallet w
   = (Raise (if no_such_directory (wallet_path w)
             then SDKException (other_error "No such file or directory")
             else OSError), w))
  /\ (can_open_for_writing (wallet_path w) = true ->
      let w1 := after write_wallet w in
      let w2 := after reset_wallet w1 in
      fst (write_wallet w) = Ok (wallet_in_mem w)
      /\ files w1 = <[wallet_path w := wallet_to_json v]> (files w)
      /\ wallet_file w1 = wallet_in_mem w1
      /\ wallet_file w2 = wallet_in_mem w /\ separate w2
      /\ file_value w2 = Some v /\ mem_value w2 = Some v
      /\ forall cs, file_value (run_mutations cs w2) = Some v).
Proof.
  intros Hv. split; [apply write_wallet_raises|].
  intros Hcan w1 w2.
  assert (Hrun : write_wallet w
                 = (Ok (wallet_in_mem w),
                    set_wallet_file (wallet_in_mem w)
                      (set_files (<[wallet_path w := wallet_to_json v]> (files w)) w))).
  { unfold write_wallet, save, get_value.
    unfold mbind, M_bind, mret, M_ret, get, modify, raise. cbv beta iota zeta.
    rewrite Hcan. unfold mem_value in Hv. rewrite Hv. reflexivity. }
  assert (Hw1 : w1 = set_wallet_file (wallet_in_mem w)
                       (set_files (<[wallet_path w := wallet_to_json v]> (files w)) w))
    by (unfold w1, after; now rewrite Hrun).
  assert (Hf1 : file_value w1 = Some v) by (rewrite Hw1; exact Hv).
  destruct (reset_wallet_spec w1 v Hf1) as (Hsep & Hwf & Hf2 & Hm2). fold w2 in Hsep, Hwf, Hf2, Hm2.
  rewrite Hrun. cbn [fst]. split; [reflexivity|].
  split; [now rewrite Hw1|]. split; [now rewrite Hw1|].
  split; [rewrite Hwf; now rewrite Hw1|].
  split; [exact Hsep|]. split; [exact Hf2|]. split; [exact Hm2|].
  intros cs. destruct (mutations_leave_file cs w2 Hsep) as (_ & Hfv & _). congruence.
Qed.

End files.

(** ** The setters of a control *)

(** X12.  Assigning [key], [salt] and [public_key] of a control in
    either order gives the same object: each property then reads as
    assigned and [dict(control)] shows the three values under key, salt
    and publicKey next to the untouched entries.  A value that is no
    [str] is refused with [require_str_params] by [key] and [salt] and
    with "Invalid public key." by [public_key]. *)
Theorem control_setters (c : Control.t) (k s p : string) :
  (exists c',
      (c1 ← Control.set_key c (PyStr k);
       c2 ← Control.set_salt c1 (PyStr s);
       Control.set_public_key c2 (PyStr p)) = Ok c'
      /\ (c1 ← Control.set_public_key c (PyStr p);
          c2 ← Control.set_salt c1 (PyStr s);
          Control.set_key c2 (PyStr k)) = Ok c'
      /\ Control.key c' = k /\ Control.salt c' = s /\ Control.public_key c' = p
      /\ Control.iter c'
         = [ ("address", PyStr (Control.b58_address c));
             ("algorithm", PyStr (Control.algorithm c));
             ("enc-alg", PyStr (Control.enc_alg c));
             ("hash", PyStr (Control.hash c));
             ("id", PyStr (Control.kid c));
             ("key", PyStr k);
             ("parameters", PyDict (PyStr <$> Control.parameters c));
             ("salt", PyStr s);
             ("publicKey", PyStr p) ])
  /\ (forall v,
        isinstance_str v = false ->
        Control.set_key c v = Raise (SDKException require_str_params)
        /\ Control.set_salt c v = Raise (SDKException require_str_params)
        /\ Control.set_public_key c v
           = Raise (SDKException (other_error "Invalid public key."))).
Proof.
  split.
  - eexists. split; [reflexivity|]. split; [reflexivity|]. cbn. auto.
  - intros v Hv. destruct v; try discriminate; repeat split.
Qed.

(** ** Hexadecimal text *)

Lemma hex_pair_table (c : byte) : hex_pair_ok c = true.
Proof. revert c. apply forall_bytes. vm_compute. reflexivity. Qed.

Lemma fromhex_bytes_hex (b : list byte) : fromhex_bytes (bytes_hex b) = Ok b.
Proof.
  induction b as [|c b IH]; [reflexivity|].
  cbn [bytes_hex fromhex_bytes].
  pose proof (hex_pair_table c) as Hc. unfold hex_pair_ok in Hc. cbv zeta in Hc.
  apply andb_true_iff in Hc as [Hsp Hval]. apply negb_true_iff in Hsp. rewrite Hsp.
  destruct (hex_value (hex_digit (N.shiftr (Byte.to_N c) 4))) as [top|]; [|discriminate].
  destruct (hex_value (hex_digit (N.land (Byte.to_N c) 15))) as [bot|]; [|discriminate].
  apply byte_eqb_eq in Hval. rewrite IH, Hval. reflexivity.
Qed.

Lemma fromhex_hex (b : list byte) : fromhex (hex b) = Ok b.
Proof.
  unfold fromhex, hex. rewrite list_byte_of_string_of_list_byte.
  apply fromhex_bytes_hex.
Qed.

(** ** The word of [get_storage] *)

Lemma lor_shiftl_add (a b n : Z) :
  0 <= n -> 0 <= a < 2 ^ n -> Z.lor a (Z.shiftl b n) = a + b * 2 ^ n.
Proof.
  intros Hn Ha.
  assert (Hland : Z.land a (Z.shiftl b n) = 0).
  { apply Z.bits_inj'. intros i Hi. rewrite Z.land_spec, Z.bits_0.
    destruct (Z.lt_ge_cases i n) as [Hlt | Hge].
    - rewrite Z.shiftl_spec_low by exact Hlt. apply andb_false_r.
    - assert (Hbit : Z.testbit a i = false).
      { destruct (Z.eq_dec a 0) as [-> | Hnz]; [apply Z.bits_0|].
        apply Z.bits_above_log2; [lia|].
        apply Z.lt_le_trans with n; [|exact Hge].
        apply Z.log2_lt_pow2; lia. }
      now rewrite Hbit. }
  rewrite <- Z.lxor_lor by exact Hland.
  rewrite <- Z.add_nocarry_lxor by exact Hland.
  now rewrite Z.shiftl_mul_pow2.
Qed.

Lemma byte_Z_bounds (x : byte) : 0 <= Z.of_N (Byte.to_N x) < 256.
Proof. pose proof (byte_to_N_lt x). lia. Qed.

Lemma little_endian_bounds (bs : list byte) :
  0 <= little_endian bs < 256 ^ Z.of_nat (length bs).
Proof.
  induction bs as [|x bs IH]; [cbn; lia|].
  cbn [little_endian fold_right length]. fold (little_endian bs).
  rewrite Nat2Z.inj_succ, Z.pow_succ_r by lia.
  pose proof (byte_Z_bounds x). lia.
Qed.

(** On eight bytes or more the expression of [get_storage] is the
    number of the first eight, least significant first. *)
Lemma storage_word_value (s : list byte) :
  (8 <= length s)%nat ->
  RpcClient.storage_word s = Returns (little_endian (take 8 s)).
Proof.
  intros Hlen.
  destruct s as [|s0 [|s1 [|s2 [|s3 [|s4 [|s5 [|s6 [|s7 rest]]]]]]]];
    cbn [length] in Hlen; try lia.
  cbn [RpcClient.storage_word take little_endian fold_right]. f_equal.
  pose proof (byte_Z_bounds s0). pose proof (byte_Z_bounds s1).
  pose proof (byte_Z_bounds s2). pose proof (byte_Z_bounds s3).
  pose proof (byte_Z_bounds s4). pose proof (byte_Z_bounds s5).
  pose proof (byte_Z_bounds s6). pose proof (byte_Z_bounds s7).
  set (b0 := Z.of_N (Byte.to_N s0)) in *. set (b1 := Z.of_N (Byte.to_N s1)) in *.
  set (b2 := Z.of_N (Byte.to_N s2)) in *. set (b3 := Z.of_N (Byte.to_N s3)) in *.
  set (b4 := Z.of_N (Byte.to_N s4)) in *. set (b5 := Z.of_N (Byte.to_N s5)) in *.
  set (b6 := Z.of_N (Byte.to_N s6)) in *. set (b7 := Z.of_N (Byte.to_N s7)) in *.
  rewrite (lor_shiftl_add b0 b1 8) by (change (2 ^ 8) with 256; lia).
  change (2 ^ 8) with 256.
  rewrite (lor_shiftl_add _ b2 16) by (change (2 ^ 16) with 65536; lia).
  change (2 ^ 16) with 65536.
  rewrite (lor_shiftl_add _ b3 24) by (change (2 ^ 24) with 16777216; lia).
  change (2 ^ 24) with 16777216.
  rewrite (lor_shiftl_add _ b4 32) by (change (2 ^ 32) with 4294967296; lia).
  change (2 ^ 32) with 4294967296.
  rewrite (lor_shiftl_add _ b5 40) by (change (2 ^ 40) with 1099511627776; lia).
  change (2 ^ 40) with 1099511627776.
  rewrite (lor_shiftl_add _ b6 48) by (change (2 ^ 48) with 281474976710656; lia).
  change (2 ^ 48) with 281474976710656.
  rewrite (lor_shiftl_add _ b7 56) by (change (2 ^ 56) with 72057594037927936; lia).
  change (2 ^ 56) with 72057594037927936.
  rewrite take_0. cbn [foldr]. lia.
Qed.

Lemma storage_word_short (s : list byte) :
  (length s < 8)%nat -> RpcClient.storage_word s = Raises IndexError.
Proof.
  intros Hlen.
  destruct s as [|s0 [|s1 [|s2 [|s3 [|s4 [|s5 [|s6 [|s7 rest]]]]]]]];
    cbn [length] in Hlen; try lia; reflexivity.
Qed.

(** ** Requests *)

Section requests.
Context `{Hashes} `{Constants} `{Curve} `{RpcClient.RpcDefine} `{RpcClient.TxCodec}
  `{RpcClient.RpcDefineStorage}.
Import RpcClient.

(** The dict a request is made of: the module's dict with four entries
    overwritten. *)
Lemma request_dict (method : string) (param : list pyval) (c : client) :
  let d := fst (set_json_rpc_version method param c) in
  let c' := snd (set_json_rpc_version method param c) in
  d = Ok (JsonRpcRequest c')
  /\ qid c' = qid c /\ addr c' = addr c /\ sent c' = sent c
  /\ JsonRpcRequest c' !! "jsonrpc" = Some (PyStr JSON_RPC_VERSION)
  /\ JsonRpcRequest c' !! "id" = Some (PyStr "1")
  /\ JsonRpcRequest c' !! "method" = Some (PyStr method)
  /\ JsonRpcRequest c' !! "params" = Some (PyList param)
  /\ forall k, k <> "jsonrpc" -> k <> "id" -> k <> "method" -> k <> "params" ->
               JsonRpcRequest c' !! k = JsonRpcRequest c !! k.
Proof.
  cbn. repeat split.
  - now rewrite !lookup_insert_ne, lookup_insert_eq by discriminate.
  - now rewrite !lookup_insert_ne, lookup_insert_eq by discriminate.
  - now rewrite !lookup_insert_ne, lookup_insert_eq by discriminate.
  - now rewrite lookup_insert_eq.
  - intros k N1 N2 N3 N4. now rewrite !lookup_insert_ne by congruence.
Qed.

(** A request and its answer. *)
Lemma post_after_set (method : string) (param : list pyval) (c : client) :
  let c1 := snd (set_json_rpc_version method param c) in
  let payload := JsonRpcRequest c1 in
  let c2 := mkClient payload (qid c) (addr c) ((addr c, payload) :: sent c) in
  (rpc_struct ← set_json_rpc_version method param; post_result rpc_struct) c
  = (match http_post (addr c) payload with
     | PyDict r =>
         match r !! "result" with
         | Some res => Ok res
         | None => Raise (KeyError "result")
         end
     | _ => Raise TypeError
     end, c2).
Proof.
  unfold mbind, R_bind, set_json_rpc_version, post_result. cbn.
  destruct (http_post _ _) as [| | | | | |r]; try reflexivity.
  destruct (r !! "result"); reflexivity.
Qed.

(** X13.  Every query method, and [send_raw_transaction], sends exactly
    one request to the address of the client and returns the result
    entry of the answer ([KeyError] when the answer has none,
    [TypeError] when it is no dict; the request is recorded all the
    same).  The request is the module's dict after the call, and
    carries the protocol version, the id "1" whatever [qid] is, and
    the method name and the parameters of the method called: no
    parameter for [get_version], [get_block_count],
    [get_current_block_hash] and [get_generate_block_time], and the
    argument followed by 1 for the others, where
    [send_raw_transaction] gives the hexadecimal text of the
    serialised transaction under the method name of
    [get_raw_transaction]. *)
Theorem every_query_posts_once (q : query) (c : client) :
  let method :=
    match q with
    | GetVersion => RPC_GET_VERSION
    | GetBlockByHash _ | GetBlockByHeight _ => RPC_GET_BLOCK
    | GetBlockCount => RPC_GET_BLOCK_COUNT
    | GetCurrentBlockHash => RPC_GET_CURRENT_BLOCK_HASH
    | GetBlockHashByHeight _ => RPC_GET_BLOCK_HASH
    | GetBalance _ => RPC_GET_BALANCE
    | GetSmartContractEventByTxhash _ | GetSmartContractEventByBlock _ =>
        RPC_GET_SMART_CONTRACT_EVENT
    | GetRawTransaction _ | SendRawTransaction _ => RPC_GET_TRANSACTION
    | GetSmartContract _ => RPC_GET_SMART_CONTRACT
    | GetGenerateBlockTime => RPC_GET_GENERATE_BLOCK_TIME
    | GetMerkleProof _ => RPC_GET_MERKLE_PROOF
    end in
  let param :=
    match q with
    | GetVersion | GetBlockCount | GetCurrentBlockHash | GetGenerateBlockTime => []
    | GetBlockByHash text | GetBalance text | GetSmartContractEventByTxhash text
    | GetRawTransaction text | GetSmartContract text | GetMerkleProof text =>
        [PyStr text; PyInt 1]
    | GetBlockByHeight height | GetBlockHashByHeight height
    | GetSmartContractEventByBlock height =>
        [PyInt height; PyInt 1]
    | SendRawTransaction tx => [PyStr (hex (serialize tx)); PyInt 1]
    end in
  let c1 := snd (set_json_rpc_version method param c) in
  let payload := JsonRpcRequest c1 in
  run_query q c
  = (match http_post (addr c) payload with
     | PyDict r =>
         match r !! "result" with
         | Some res => Ok res
         | None => Raise (KeyError "result")
         end
     | _ => Raise TypeError
     end,
     mkClient payload (qid c) (addr c) ((addr c, payload) :: sent c))
  /\ payload !! "jsonrpc" = Some (PyStr JSON_RPC_VERSION)
  /\ payload !! "id" = Some (PyStr "1")
  /\ payload !! "method" = Some (PyStr method)
  /\ payload !! "params" = Some (PyList param)
  /\ forall k, k <> "jsonrpc" -> k <> "id" -> k <> "method" -> k <> "params" ->
               payload !! k = JsonRpcRequest c !! k.
Proof.
  assert (Hgen : forall method param,
             let c1 := snd (set_json_rpc_version method param c) in
             let payload := JsonRpcRequest c1 in
             payload !! "jsonrpc" = Some (PyStr JSON_RPC_VERSION)
             /\ payload !! "id" = Some (PyStr "1")
             /\ payload !! "method" = Some (PyStr method)
             /\ payload !! "params" = Some (PyList param)
             /\ forall k, k <> "jsonrpc" -> k <> "id" -> k <> "method" -> k <> "params" ->
                          payload !! k = JsonRpcRequest c !! k).
  { intros method param.
    destruct (request_dict method param c) as (_ & _ & _ & _ & A & B & C & D & E).
    auto. }
  destruct q; cbv zeta; cbn [run_query];
    (split; [apply post_after_set | apply Hgen]).
Qed.

(** X14.  The module's dict is overwritten by every request: the dict
    built for a request after another one is the dict the request
    would have built on its own. *)
Theorem request_forgets_previous (m1 m2 : string) (p1 p2 : list pyval) (c : client) :
  let after_first := snd (set_json_rpc_version m1 p1 c) in
  fst (set_json_rpc_version m2 p2 after_first) = fst (set_json_rpc_version m2 p2 c)
  /\ JsonRpcRequest (snd (set_json_rpc_version m2 p2 after_first))
     = JsonRpcRequest (snd (set_json_rpc_version m2 p2 c)).
Proof.
  assert (E : <["params" := PyList p2]>
                (<["method" := PyStr m2]>
                   (<["id" := PyStr "1"]>
                      (<["jsonrpc" := PyStr JSON_RPC_VERSION]>
                         (JsonRpcRequest (snd (set_json_rpc_version m1 p1 c))))))
              = <["params" := PyList p2]>
                  (<["method" := PyStr m2]>
                     (<["id" := PyStr "1"]>
                        (<["jsonrpc" := PyStr JSON_RPC_VERSION]> (JsonRpcRequest c))))).
  { apply map_eq. intros k. cbn.
    destruct (decide (k = "params")) as [-> | N1]; [now rewrite !lookup_insert_eq|].
    rewrite !(lookup_insert_ne _ "params") by congruence.
    destruct (decide (k = "method")) as [-> | N2]; [now rewrite !lookup_insert_eq|].
    rewrite !(lookup_insert_ne _ "method") by congruence.
    destruct (decide (k = "id")) as [-> | N3]; [now rewrite !lookup_insert_eq|].
    rewrite !(lookup_insert_ne _ "id") by congruence.
    destruct (decide (k = "jsonrpc")) as [-> | N4]; [now rewrite !lookup_insert_eq|].
    now rewrite !lookup_insert_ne by congruence. }
  cbn zeta. unfold set_json_rpc_version at 1 3 4 6. cbn [fst snd JsonRpcRequest].
  rewrite E. auto.
Qed.

(** X15.  When the node answers [get_storage] with the hexadecimal text
    of bytes [b], the method returns the number that the first eight
    bytes denote, least significant byte first, a number below 2^64,
    and raises [IndexError] when there are fewer than eight bytes. *)
Theorem get_storage_little_endian (addr_ key : string) (c : client) (b : list byte) :
  let c1 := snd (set_json_rpc_version RPC_GET_STORAGE
                   [PyStr addr_; PyStr key; PyInt 1] c) in
  let payload := JsonRpcRequest c1 in
  forall r,
    http_post (addr c) payload = PyDict r ->
    r !! "result" = Some (PyStr (hex b)) ->
    snd (get_storage addr_ key c)
    = mkClient payload (qid c) (addr c) ((addr c, payload) :: sent c)
    /\ ((8 <= length b)%nat ->
        fst (get_storage addr_ key c) = Returns (little_endian (take 8 b))
        /\ 0 <= little_endian (take 8 b) < 2 ^ 64)
    /\ ((length b < 8)%nat -> fst (get_storage addr_ key c) = Raises IndexError).
Proof.
  intros c1 payload r Hpost Hres.
  unfold get_storage. rewrite post_after_set. fold c1. fold payload.
  rewrite Hpost, Hres. cbn [fst snd]. split; [reflexivity|].
  unfold storage_value. rewrite fromhex_hex. split.
  - intros Hlen. split; [now apply storage_word_value|].
    pose proof (little_endian_bounds (take 8 b)) as Hb.
    rewrite length_take in Hb. replace (8 `min` length b)%nat with 8%nat in Hb by lia.
    exact Hb.
  - now apply storage_word_short.
Qed.

End requests.

(** ** Signing *)

Section signing.
Context `{Hashes} `{Constants} `{Curve} `{RpcClient.RpcDefine} `{RpcClient.TxCodec}.
Import RpcClient.

(** X16.  [sign_to_transaction] makes the signer the payer and replaces
    the signatures by one group of the signer alone, made over the
    digest of the transaction with the new payer: a transaction signed
    twice carries the second signature only, and its other fields are
    those of the unsigned transaction. *)
Theorem sign_to_transaction_replaces (tx : Transaction) (first second : Account.t)
    (rnd1 rnd2 : list byte) :
  let tx1 := sign_to_transaction tx first rnd1 in
  let tx2 := sign_to_transaction tx1 second rnd2 in
  let address_of a := Address.to_bytes (Account.get_address a) in
  payer tx1 = address_of first
  /\ sigs tx1
     = [mkSig [Account.get_public_key_bytes first] 1
          [ec_sign (Account.private_key first)
             (hash256 (set_payer (address_of first) tx)) rnd1]]
  /\ payer tx2 = address_of second
  /\ sigs tx2
     = [mkSig [Account.get_public_key_bytes second] 1
          [ec_sign (Account.private_key second)
             (hash256 (set_payer (address_of second) tx1)) rnd2]]
  /\ (version tx2, tx_type tx2, nonce tx2, gas_price tx2, gas_limit tx2,
      payload tx2, attributes tx2, hash tx2)
     = (version tx, tx_type tx, nonce tx, gas_price tx, gas_limit tx,
        payload tx, attributes tx, hash tx).
Proof. cbv zeta. repeat split. Qed.

End signing.

(** ** Look-ups *)

Lemma b64decode_str_b64encode (b : list byte) :
  b64decode_str (string_of_list_byte (Base64.b64encode b)) = Ok b.
Proof. unfold b64decode_str. rewrite encode_ascii_b64. apply b64decode_b64encode. Qed.

Lemma prefix_append (p s : string) : String.prefix p (p +:+ s) = true.
Proof.
  induction p as [|c p IH].
  - now destruct s.
  - change (String c p +:+ s) with (String c (p +:+ s)). cbn [String.prefix].
    destruct (Ascii.ascii_dec c c) as [_ | Hne]; [exact IH | contradiction].
Qed.

Lemma replace_from_skip (old new t s : string) :
  replace_from old new (String.length t) (t +:+ s) = replace_from old new 0 s.
Proof.
  induction t as [|c t IH].
  - reflexivity.
  - change (String c t +:+ s) with (String c (t +:+ s)).
    cbn [String.length replace_from]. exact IH.
Qed.

Lemma str_remove_prefix (old s : string) :
  str_remove old (old +:+ s) = str_remove old s.
Proof.
  unfold str_remove. destruct old as [|c t]; [reflexivity|].
  cbn [String.eqb].
  change (String c t +:+ s) with (String c (t +:+ s)).
  cbn [replace_from].
  change (String c (t +:+ s)) with (String c t +:+ s).
  rewrite prefix_append. cbn [String.length Nat.sub]. rewrite Nat.sub_0_r.
  apply replace_from_skip.
Qed.

Lemma find_last {A} (f : A -> bool) (l : list A) (x : A) :
  Forall (fun a => f a = false) l -> f x = true -> List.find f (l ++ [x]) = Some x.
Proof.
  intros Hall Hx. induction Hall as [|a l Ha _ IH]; cbn.
  - now rewrite Hx.
  - now rewrite Ha.
Qed.

Section looking_up.
Context `{Hashes} `{Constants} `{KeyCipher} `{Curve} `{WalletClasses} `{KeyUnwrap}.

(** X17.  After [create_account_info] has added an account,
    [get_account_by_b58_address] on its address finds it and unwraps
    the key it reported, with the Latin-1 bytes of the salt and with
    the [n] of the wallet's own scrypt record, not the default the key
    was wrapped with. *)
Theorem created_account_is_looked_up (label : option string) (pwd salt : string)
    (k : list byte) (uuid_hex : string) (w : world) (v : WalletData.t)
    (addr password : string) :
  mem_value w = Some v ->
  scheme w = SHA256withECDSA ->
  Account.get_address_base58 (Account.init k (scheme w)) = Ok addr ->
  Forall (fun a => AccountData.b58_address a <> addr) (WalletData.accounts v) ->
  exists info w',
    create_account_info label pwd salt k uuid_hex w = (Ok info, w')
    /\ get_account_by_b58_address addr password w'
       = outcome_of
           (private_key ← unwrap_key (AccountInfo.encrypted_pri_key info) password addr
                             (encode_latin1 salt) (Scrypt.n (WalletData.scrypt v))
                             (scheme w);
            Ok (Account.init private_key (scheme w))).
Proof.
  intros Hv Hs Haddr Hnew.
  destruct (create_account_info_effect label pwd salt k uuid_hex w v addr Hv Hs Haddr Hnew)
    as (info & w' & entry & Hrun & _ & Hv' & He & Hk & _ & Hsalt & _ & _ & _ & _ & _ & _ & Hs').
  exists info, w'. split; [exact Hrun|].
  unfold get_account_by_b58_address. rewrite Hv'. cbn [WalletData.accounts].
  rewrite (find_last _ _ entry).
  - unfold decoded_account. cbn [WalletData.scrypt].
    rewrite b64encode_str_ok in Hsalt. injection Hsalt as <-.
    rewrite b64decode_str_b64encode, Hk, Hs', Hs.
    destruct (unwrap_key _ _ _ _ _ _); reflexivity.
  - eapply Forall_impl; [exact Hnew|]. intros a Ha. now apply String.eqb_neq.
  - rewrite He. apply String.eqb_refl.
Qed.

(** X18.  After [create_identity] has added an identity, provided a new
    identity starts without controls and the address does not contain
    [DID_ONT], [get_account_by_ont_id] on its ont id unwraps the
    wrapped key for the address, with the UTF-8 bytes of the salt and
    the [n] of the wallet's scrypt record. *)
Theorem created_identity_is_looked_up (label : option string) (pwd : string)
    (k : list byte) (salt uuid_hex : string) (w : world) (v : WalletData.t)
    (addr password : string) :
  mem_value w = Some v ->
  scheme w = SHA256withECDSA ->
  Account.get_address_base58 (Account.init k (scheme w)) = Ok addr ->
  Forall (fun i => Identity.ont_id i <> DID_ONT +:+ addr) (WalletData.identities v) ->
  Identity.controls Identity_new = [] ->
  str_remove DID_ONT addr = addr ->
  exists enc,
    Account.export_gcm_encrypted_private_key (Account.init k (scheme w)) pwd salt
      (Scrypt.n Scrypt.default) = Ok enc
    /\ get_account_by_ont_id (DID_ONT +:+ addr) password
         (after (create_identity label pwd k salt uuid_hex) w)
       = outcome_of
           (private_key ← unwrap_key enc password addr (encode_utf8 salt)
                             (Scrypt.n (WalletData.scrypt v)) (scheme w);
            Ok (Account.init private_key (scheme w))).
Proof.
  intros Hv Hs Haddr Hnew Hnone Hclean.
  destruct (create_identity_effect label pwd k salt uuid_hex w v addr Hv Hs Haddr Hnew)
    as (w' & entry & ctl & v' & Hrun & Hv' & Hv'eq & Ho & _ & _ & Hc & _ & _ & Hk & Hsalt
        & _ & _ & _ & _ & Hs').
  rewrite Hnone in Hc. cbn [app] in Hc.
  pose proof (export_ok _ pwd salt addr Haddr) as Hkey.
  eexists. split; [exact Hkey|].
  unfold after. rewrite Hrun. cbn [snd].
  unfold get_account_by_ont_id. rewrite prefix_append. cbn [negb].
  rewrite Hv', Hv'eq. cbn [WalletData.identities].
  rewrite (find_last _ _ entry).
  - rewrite Hc, Ho, str_remove_prefix, Hclean.
    unfold decoded_account. cbn [WalletData.scrypt].
    rewrite b64encode_str_ok in Hsalt. injection Hsalt as ->.
    rewrite Hkey in Hk. injection Hk as ->.
    rewrite b64decode_str_b64encode, Hs', Hs.
    destruct (unwrap_key _ _ _ _ _ _); reflexivity.
  - eapply Forall_impl; [exact Hnew|]. intros a Ha. now apply String.eqb_neq.
  - rewrite Ho. apply String.eqb_refl.
Qed.

(** X19.  [get_control_account_by_index] on an identity of [n]
    controls: an index from 0 to n-1 selects that control, an index
    from -n to -1 counts from the end, and any other index raises
    [SDKException] with "Get <ont id>'s control account failed.". *)
Theorem control_index_bounds (ont_id : string) (index : Z) (password : string)
    (w : world) (v : WalletData.t) (idt : Identity.t) :
  String.prefix DID_ONT ont_id = true ->
  mem_value w = Some v ->
  WalletData_get_identity_by_ont_id v ont_id = Ok idt ->
  let n := Z.of_nat (length (Identity.controls idt)) in
  (0 <= index < n ->
   exists ctrl,
     Identity.controls idt !! Z.to_nat index = Some ctrl
     /\ get_control_account_by_index ont_id index password w
        = decoded_account (Control.key ctrl) password (Control.b58_address ctrl)
            (Control.salt ctrl) v (scheme w))
  /\ (- n <= index < 0 ->
      get_control_account_by_index ont_id index password w
      = get_control_account_by_index ont_id (n + index) password w)
  /\ (index < - n \/ n <= index ->
      get_control_account_by_index ont_id index password w
      = Raises (Listed (SDKException
                          (other_error
                             ("Get " +:+ ont_id +:+ "'s control account failed."))))).
Proof.
  intros Hp Hv Hid n.
  unfold get_control_account_by_index. rewrite Hp, Hv, Hid. cbn [negb].
  unfold list_item. fold n. repeat split.
  - intros Hi. destruct (Z.leb_spec 0 index); [|lia].
    destruct (lookup_lt_is_Some_2 (Identity.controls idt) (Z.to_nat index)) as [ctrl Hc];
      [lia|].
    exists ctrl. split; [exact Hc|]. now rewrite Hc.
  - intros Hi. destruct (Z.leb_spec 0 index); [lia|].
    destruct (Z.leb_spec (- n) index); [|lia].
    destruct (Z.leb_spec 0 (n + index)); [reflexivity | lia].
  - intros [Hi | Hi].
    + destruct (Z.leb_spec 0 index); [lia|].
      destruct (Z.leb_spec (- n) index); [lia | reflexivity].
    + destruct (Z.leb_spec 0 index); [|lia].
      rewrite lookup_ge_None_2 by lia. reflexivity.
Qed.

(** X20.  An ont id that does not start with [DID_ONT] is refused with
    [invalid_ont_id_format] by the three look-ups by ont id and by
    [add_control].  [get_account_by_ont_id] raises "Get account ...
    failed." for an ont id that is not in the wallet and [IndexError]
    for an identity without controls, where
    [get_control_account_by_index] at 0 raises [SDKException];
    [get_account_by_b58_address] raises "Get account ... failed." for
    an address that is not in the wallet. *)
Theorem lookups_refuse (ont_id password : string) (w : world) :
  (String.prefix DID_ONT ont_id = false ->
   let refused {A} : outcome A :=
     Raises (Listed (SDKException (invalid_ont_id_format ont_id))) in
   get_account_by_ont_id ont_id password w = refused
   /\ (forall index, get_control_account_by_index ont_id index password w = refused)
   /\ (forall a, get_control_account_by_b58_address ont_id a password w = refused)
   /\ (forall p, add_control ont_id p = refused))
  /\ (forall v,
        String.prefix DID_ONT ont_id = true ->
        mem_value w = Some v ->
        (Forall (fun i => Identity.ont_id i <> ont_id) (WalletData.identities v) ->
         get_account_by_ont_id ont_id password w
         = Raises (Listed (SDKException
                             (other_error ("Get account " +:+ ont_id +:+ " failed.")))))
        /\ (forall idt,
              List.find (fun i => String.eqb (Identity.ont_id i) ont_id)
                (WalletData.identities v) = Some idt ->
              WalletData_get_identity_by_ont_id v ont_id = Ok idt ->
              Identity.controls idt = [] ->
              get_account_by_ont_id ont_id password w = Raises IndexError
              /\ get_control_account_by_index ont_id 0 password w
                 = Raises (Listed (SDKException
                                     (other_error
                                        ("Get " +:+ ont_id
                                         +:+ "'s control account failed."))))))
  /\ (forall v a,
        mem_value w = Some v ->
        Forall (fun x => AccountData.b58_address x <> a) (WalletData.accounts v) ->
        get_account_by_b58_address a password w
        = Raises (Listed (SDKException
                            (other_error ("Get account " +:+ a +:+ " failed."))))).
Proof.
  split; [|split].
  - intros Hp refused.
    unfold get_account_by_ont_id, get_control_account_by_index,
      get_control_account_by_b58_address, add_control. rewrite Hp. cbn [negb].
    auto.
  - intros v Hp Hv. split.
    + intros Hall. unfold get_account_by_ont_id. rewrite Hp, Hv. cbn [negb].
      assert (Hfind : List.find (fun i => String.eqb (Identity.ont_id i) ont_id)
                        (WalletData.identities v) = None).
      { induction Hall as [|i l Hi _ IH]; [reflexivity|]. cbn.
        apply String.eqb_neq in Hi. now rewrite Hi. }
      now rewrite Hfind.
    + intros idt Hfind Hget Hnone.
      unfold get_account_by_ont_id, get_control_account_by_index.
      rewrite Hp, Hv, Hfind, Hget, Hnone. cbn [negb]. split; reflexivity.
  - intros v a Hv Hall. unfold get_account_by_b58_address. rewrite Hv.
    assert (Hfind : List.find (fun x => String.eqb (AccountData.b58_address x) a)
                      (WalletData.accounts v) = None).
    { induction Hall as [|i l Hi _ IH]; [reflexivity|]. cbn.
      apply String.eqb_neq in Hi. now rewrite Hi. }
    now rewrite Hfind.
Qed.

(** X21.  [add_control] never returns: it raises
    [invalid_ont_id_format] or [require_str_params], and for arguments
    that pass both checks [NameError], since it calls a name the module
    does not have. *)
Theorem add_control_never_returns (ont_id : string) (password : pyval) :
  add_control ont_id password
  = Raises (if negb (String.prefix DID_ONT ont_id)
            then Listed (SDKException (invalid_ont_id_format ont_id))
            else if negb (isinstance_str password)
                 then Listed (SDKException require_str_params)
                 else NameError "get_random_bytes")
  /\ forall u, add_control ont_id password <> Returns u.
Proof.
  unfold add_control.
  destruct (negb (String.prefix DID_ONT ont_id)); [split; [reflexivity | discriminate]|].
  destruct (negb (isinstance_str password)); split; reflexivity || discriminate.
Qed.

End looking_up.

(** ** The default account *)

Section default_account.
Context `{Hashes} `{Constants} `{KeyCipher} `{Curve} `{WalletClasses}.

(** [get_default_account] on a state whose wallet in memory is a
    wallet. *)
Lemma get_default_account_eq (w : world) (v : WalletData.t) :
  mem_value w = Some v ->
  get_default_account w
  = (match List.find AccountData.is_default (WalletData.accounts v) with
     | Some acct => Ok acct
     | None => Raise (SDKException get_default_account_err)
     end, w).
Proof.
  intros Hv. destruct (read_wallet_inv _ _ _ Hv) as (o & Ho & _ & Ha & _).
  unfold get_default_account, get_obj, get_accounts.
  unfold mbind, M_bind, get, mret, M_ret, raise. rewrite Ho, Ha.
  now destruct (List.find _ _).
Qed.

Lemma find_app_not_last {A} (f : A -> bool) (l : list A) (x : A) :
  f x = false -> List.find f (l ++ [x]) = List.find f l.
Proof.
  intros Hx. induction l as [|a l IH]; cbn.
  - now rewrite Hx.
  - now destruct (f a).
Qed.

Lemma find_app_some {A} (f : A -> bool) (l k : list A) (a : A) :
  List.find f l = Some a -> List.find f (l ++ k) = Some a.
Proof.
  induction l as [|x l IH]; cbn; [discriminate|].
  now destruct (f x).
Qed.

Lemma find_none_forall {A} (f : A -> bool) (l : list A) :
  Forall (fun a => f a = false) l -> List.find f l = None.
Proof.
  intros Hall. induction Hall as [|x l Hx _ IH]; cbn; [reflexivity|].
  now rewrite Hx.
Qed.

(** X22.  After [create_account_info] has added the first account of a
    wallet, [get_default_account] returns that account and the wallet's
    default address is its address.  An account added to a wallet that
    has accounts leaves the default address as it was, and leaves the
    answer of [get_default_account] as it was when that call returned
    an account.  When no account of the wallet was a default one, so
    that [get_default_account] raised, the call now returns the new
    account if [AccountData()] starts default, and still raises
    otherwise. *)
Theorem first_account_is_default (label : option string) (pwd salt : string)
    (k : list byte) (uuid_hex : string) (w : world) (v : WalletData.t) (addr : string) :
  mem_value w = Some v ->
  scheme w = SHA256withECDSA ->
  Account.get_address_base58 (Account.init k (scheme w)) = Ok addr ->
  Forall (fun a => AccountData.b58_address a <> addr) (WalletData.accounts v) ->
  let w' := after (create_account_info label pwd salt k uuid_hex) w in
  (WalletData.accounts v = [] ->
   exists entry,
     get_default_account w' = (Ok entry, w')
     /\ AccountData.b58_address entry = addr
     /\ (WalletData.default_account_address <$> mem_value w') = Some (PyStr addr))
  /\ (WalletData.accounts v <> [] ->
      (WalletData.default_account_address <$> mem_value w')
      = Some (WalletData.default_account_address v)
      /\ (forall a,
            fst (get_default_account w) = Ok a -> fst (get_default_account w') = Ok a)
      /\ (Forall (fun a => AccountData.is_default a = false) (WalletData.accounts v) ->
          fst (get_default_account w) = Raise (SDKException get_default_account_err)
          /\ exists entry,
              AccountData.b58_address entry = addr
              /\ fst (get_default_account w')
                 = if AccountData.is_default AccountData_new
                   then Ok entry
                   else Raise (SDKException get_default_account_err))).
Proof.
  intros Hv Hs Haddr Hnew w'.
  destruct (create_account_info_effect label pwd salt k uuid_hex w v addr Hv Hs Haddr Hnew)
    as (info & w1 & entry & Hrun & _ & Hv1 & He & _ & _ & _ & _ & _ & Hd & _).
  assert (Hw : w' = w1) by (unfold w', after; now rewrite Hrun). rewrite Hw. clear Hw w'.
  rewrite (get_default_account_eq w1 _ Hv1), (get_default_account_eq w v Hv), Hv1.
  cbn [WalletData.accounts WalletData.default_account_address fmap option_fmap option_map fst].
  split.
  - intros Hnil. rewrite Hnil in Hd |- *. cbn [app List.find]. rewrite Hd.
    exists entry. auto.
  - intros Hsome.
    destruct (WalletData.accounts v) as [|a0 l] eqn:E; [contradiction|].
    split; [reflexivity|]. split.
    + intros a Hfound.
      destruct (List.find AccountData.is_default (a0 :: l)) as [x|] eqn:Hx;
        [|discriminate].
      injection Hfound as ->. now rewrite (find_app_some _ _ _ _ Hx).
    + intros Hall. rewrite (find_none_forall _ _ Hall). split; [reflexivity|].
      exists entry. split; [exact He|].
      destruct (AccountData.is_default AccountData_new) eqn:Hflag.
      * now rewrite (find_last _ _ entry Hall Hd).
      * now rewrite (find_app_not_last _ _ entry Hd), (find_none_forall _ _ Hall).
Qed.

End default_account.

(** ** The properties on the examples *)

Section samples.
#[local] Existing Instances Example.hashes Example.constants Example.cipher
  Example.curve Example.classes Sample.rpc Sample.storage Sample.codec Sample.unwrap.

Lemma create_account_info_appends_witness :
  exists info w' entry,
    create_account_info None "pw" "salt" Example.k0 "0123456789abcdef" Example.w0
    = (Ok info, w')
    /\ (WalletData.accounts <$> mem_value w') = Some [entry]
    /\ AccountData.b58_address entry = "AFxUCuW8gF27E2WGq3uAZvr2Ym1j53QbGV"
    /\ AccountData.label entry = "01234567"
    /\ AccountData.is_default entry = true.
Proof.
  destruct (create_account_info_appends None "pw" "salt" Example.k0 "0123456789abcdef"
              Example.w0 (@WalletData_new Example.classes) "AFxUCuW8gF27E2WGq3uAZvr2Ym1j53QbGV"
              ltac:(vm_compute; reflexivity) ltac:(reflexivity)
              ltac:(vm_compute; reflexivity) ltac:(constructor))
    as (info & w' & entry & Hrun & _ & Hv & Ha & _ & Hl & _ & _ & _ & Hd & _).
  exists info, w', entry. rewrite Hv. auto.
Defined.

Lemma create_account_info_twice_witness :
  let w1 := after (create_account_info None "pw" "salt" Example.k0 "0123456789abcdef")
              Example.w0 in
  create_account_info (Some "again") "other" "pepper" Example.k0 "fedcba9876543210" w1
  = (Raise (SDKException (other_error "Wallet account exists.")), w1).
Proof.
  apply (create_account_info_twice None "pw" "salt" Example.k0 "0123456789abcdef"
           Example.w0 (@WalletData_new Example.classes) "AFxUCuW8gF27E2WGq3uAZvr2Ym1j53QbGV"
           ltac:(vm_compute; reflexivity) ltac:(reflexivity)
           ltac:(vm_compute; reflexivity) ltac:(constructor)).
Defined.

Lemma mutations_grow_witness :
  exists v',
    mem_value
      (run_mutations
         [CreateAccount None "pw" Example.k0 "salt" "0123456789abcdef";
          CreateAccount None "pw" Example.k0 "salt" "0123456789abcdef";
          CreateIdentity None "pw" Example.k0 "salt" "0123456789abcdef"]
         Example.w0) = Some v'
    /\ grows WalletData_new v'.
Proof.
  apply (mutations_grow _ Example.w0 (@WalletData_new Example.classes)). vm_compute. reflexivity.
Defined.

Lemma create_identity_appends_witness :
  exists w' entry,
    snd (create_identity None "pw" Example.k0 "salt" "0123456789abcdef" Example.w0) = w'
    /\ (WalletData.identities <$> mem_value w') = Some [entry]
    /\ Identity.ont_id entry = "did:ont:AFxUCuW8gF27E2WGq3uAZvr2Ym1j53QbGV"
    /\ (WalletData.default_ont_id <$> mem_value w')
       = Some (PyStr "did:ont:AFxUCuW8gF27E2WGq3uAZvr2Ym1j53QbGV").
Proof.
  destruct (create_identity_appends None "pw" Example.k0 "salt" "0123456789abcdef"
              Example.w0 (@WalletData_new Example.classes) "AFxUCuW8gF27E2WGq3uAZvr2Ym1j53QbGV"
              ltac:(vm_compute; reflexivity) ltac:(reflexivity)
              ltac:(vm_compute; reflexivity) ltac:(constructor))
    as (w' & entry & ctl & v' & Hrun & Hv & Hv' & Ho & _).
  exists w', entry. rewrite Hrun, Hv, Hv'. auto.
Defined.

Lemma creation_needs_SHA256withECDSA_witness :
  create_account None "pw" Example.k0 "salt" "0123456789abcdef" Sample.w_other
  = (Raise TypeError, Sample.w_other)
  /\ create_account None "pw" Example.k0 "salt" "0123456789abcdef" Sample.w_sha512
     = (Raise (SDKException (other_error "Scheme type is error.")), Sample.w_sha512).
Proof.
  split.
  - exact (proj1 (creation_needs_SHA256withECDSA None "pw" Example.k0 "salt"
                    "0123456789abcdef" Sample.w_other ltac:(discriminate))).
  - exact (proj1 (creation_needs_SHA256withECDSA None "pw" Example.k0 "salt"
                    "0123456789abcdef" Sample.w_sha512 ltac:(discriminate))).
Defined.

Lemma open_wallet_loads_witness :
  (exists l w',
      open_wallet "wallet.json" Example.w0 = (Ok l, w')
      /\ (WalletData.scrypt <$> file_value w')
         = Some (Scrypt.mk (PyInt 4096) (PyInt 8) (PyInt 8) (PyInt 64))
      /\ (WalletData.create_time <$> mem_value w') = Some (PyStr ""))
  /\ open_wallet "bad.json" Sample.w_bad_identity
     = (Raise (SDKException (param_err "wallet file format error: 'controls'.")),
        set_wallet_path "bad.json" Sample.w_bad_identity).
Proof.
  split.
  - pose proof (open_wallet_loads "wallet.json" Example.w0
                  (<["scrypt" := PyDict {[ "n" := PyInt 4096 ]}]>
                     (<["name" := PyStr "MyWallet"]>
                        (<["version" := PyStr "1.1"]>
                           {[ "accounts" := PyList [] ]})))
                  {[ "n" := PyInt 4096 ]}
                  (PyStr "MyWallet") (PyStr "1.1") (PyList [])) as Hthm.
    destruct (Hthm ltac:(vm_compute; reflexivity) ltac:(vm_compute; reflexivity)
                ltac:(vm_compute; reflexivity) ltac:(vm_compute; reflexivity)
                ltac:(vm_compute; reflexivity)) as [Hok _].
    destruct (Hok [] [] ltac:(vm_compute; reflexivity))
      as (l & w' & Hrun & _ & _ & Hf & Hm & _).
    exists l, w'. rewrite Hf, Hm. split; [exact Hrun|]. split; reflexivity.
  - pose proof (open_wallet_loads "bad.json" Sample.w_bad_identity
                  Sample.bad_identity_json ∅
                  (PyStr "MyWallet") (PyStr "1.1") (PyList [])) as Hthm.
    destruct (Hthm ltac:(vm_compute; reflexivity) ltac:(vm_compute; reflexivity)
                ltac:(vm_compute; reflexivity) ltac:(vm_compute; reflexivity)
                ltac:(vm_compute; reflexivity)) as (_ & Hkey & _).
    exact (Hkey "controls" ltac:(vm_compute; reflexivity)).
Defined.

Lemma open_wallet_missing_entry_witness :
  open_wallet "broken.json" Sample.w_broken
  = (Raise (SDKException (param_err "wallet file format error: 'name'.")),
     set_wallet_path "broken.json" Sample.w_broken).
Proof.
  refine (proj1 (proj2 (open_wallet_missing_entry "broken.json" Sample.w_broken
                          {[ "scrypt" := PyDict ∅ ]} _) ∅ _) _);
    vm_compute; reflexivity.
Defined.


Lemma open_missing_then_create_witness :
  exists w2,
    create_wallet "new.json" "2018-07-01 12:00:00"
      (after (open_wallet "new.json") Example.w0) = (Ok tt, w2)
    /\ is_Some (files w2 !! "new.json").
Proof.
  destruct (open_missing_then_create "new.json" "2018-07-01 12:00:00" Example.w0
              (@WalletData_new Example.classes)
              ltac:(vm_compute; reflexivity) ltac:(vm_compute; reflexivity)
              ltac:(reflexivity)) as (_ & w2 & Hrun & Hf & _).
  exists w2. split; [exact Hrun|]. rewrite Hf. rewrite lookup_insert_eq. eauto.
Defined.

Lemma write_wallet_then_reset_witness :
  let w2 := after reset_wallet (after write_wallet Example.w0) in
  (separate w2 /\ file_value w2 = Some (@WalletData_new Example.classes)
   /\ wallet_file w2 = wallet_in_mem Example.w0)
  /\ write_wallet Sample.w_directory = (Raise OSError, Sample.w_directory).
Proof.
  split.
  - destruct (write_wallet_then_reset Example.w0 (@WalletData_new Example.classes)
                ltac:(vm_compute; reflexivity)) as [_ Hok].
    destruct (Hok ltac:(reflexivity)) as (_ & _ & _ & Hwf & Hsep & Hf & _).
    auto.
  - destruct (write_wallet_then_reset Sample.w_directory
                (@WalletData_new Example.classes)
                ltac:(vm_compute; reflexivity)) as [Hno _].
    exact (Hno ltac:(reflexivity)).
Defined.

Lemma get_storage_little_endian_witness :
  fst (RpcClient.get_storage "contract" "key" (RpcClient.init 7 "http://node")) = Returns 1000.
Proof.
  pose proof (get_storage_little_endian "contract" "key"
                (RpcClient.init 7 "http://node") Sample.word) as Hword.
  destruct (Hword {[ "result" := PyStr (hex Sample.word) ]}
              ltac:(reflexivity) ltac:(vm_compute; reflexivity)) as (_ & Hlong & _).
  destruct (Hlong ltac:(vm_compute; lia)) as [Hval _].
  exact Hval.
Defined.

Lemma created_account_is_looked_up_witness :
  exists info w',
    create_account_info None "pw" "salt" Example.k0 "0123456789abcdef" Example.w0
    = (Ok info, w')
    /\ get_account_by_b58_address "AFxUCuW8gF27E2WGq3uAZvr2Ym1j53QbGV" "pw" w'
       = Returns (Account.init (list_byte_of_string "salt") SHA256withECDSA)
    /\ get_account_by_b58_address "AFxUCuW8gF27E2WGq3uAZvr2Ym1j53QbGV" "wrong" w'
       = Raises (Listed AuthenticationError).
Proof.
  destruct (created_account_is_looked_up None "pw" "salt" Example.k0 "0123456789abcdef"
              Example.w0 (@WalletData_new Example.classes)
              "AFxUCuW8gF27E2WGq3uAZvr2Ym1j53QbGV" "pw"
              ltac:(vm_compute; reflexivity) ltac:(reflexivity)
              ltac:(vm_compute; reflexivity) ltac:(constructor))
    as (info & w' & Hrun & Hget).
  exists info, w'. split; [exact Hrun|]. split; [exact Hget|].
  assert (Hw : w' = snd (create_account_info None "pw" "salt" Example.k0
                           "0123456789abcdef" Example.w0)) by now rewrite Hrun.
  rewrite Hw. vm_compute. reflexivity.
Defined.

Lemma created_identity_is_looked_up_witness :
  get_account_by_ont_id "did:ont:AFxUCuW8gF27E2WGq3uAZvr2Ym1j53QbGV" "pw"
    (after (create_identity None "pw" Example.k0 "salt" "0123456789abcdef") Example.w0)
  = Returns (Account.init (list_byte_of_string "salt") SHA256withECDSA).
Proof.
  destruct (created_identity_is_looked_up None "pw" Example.k0 "salt" "0123456789abcdef"
              Example.w0 (@WalletData_new Example.classes)
              "AFxUCuW8gF27E2WGq3uAZvr2Ym1j53QbGV" "pw"
              ltac:(vm_compute; reflexivity) ltac:(reflexivity)
              ltac:(vm_compute; reflexivity) ltac:(constructor)
              ltac:(reflexivity) ltac:(vm_compute; reflexivity))
    as (enc & _ & Hget).
  exact Hget.
Defined.

Lemma control_index_bounds_witness :
  get_control_account_by_index "did:ont:A" (-1) "pw" Sample.w_two
  = get_control_account_by_index "did:ont:A" 1 "pw" Sample.w_two
  /\ get_control_account_by_index "did:ont:A" 2 "pw" Sample.w_two
     = Raises (Listed (SDKException
                         (other_error "Get did:ont:A's control account failed."))).
Proof.
  pose proof (control_index_bounds "did:ont:A" (-1) "pw" Sample.w_two Sample.wallet_two
                Sample.two_controls) as Hminus.
  pose proof (control_index_bounds "did:ont:A" 2 "pw" Sample.w_two Sample.wallet_two
                Sample.two_controls) as Htwo.
  destruct (Hminus ltac:(vm_compute; reflexivity) ltac:(vm_compute; reflexivity)
              ltac:(reflexivity)) as (_ & Hneg & _).
  destruct (Htwo ltac:(vm_compute; reflexivity) ltac:(vm_compute; reflexivity)
              ltac:(reflexivity)) as (_ & _ & Hout).
  split; [apply Hneg; cbn; lia | apply Hout; cbn; lia].
Defined.

Lemma first_account_is_default_witness :
  (let w' := after (create_account_info None "pw" "salt" Example.k0 "0123456789abcdef")
               Example.w0 in
   exists entry,
     get_default_account w' = (Ok entry, w')
     /\ AccountData.b58_address entry = "AFxUCuW8gF27E2WGq3uAZvr2Ym1j53QbGV")
  /\ (let w' := after (create_account_info None "pw" "salt" Example.k0 "0123456789abcdef")
                  Sample.w_plain in
      fst (get_default_account Sample.w_plain)
      = Raise (SDKException get_default_account_err)
      /\ exists entry,
          AccountData.b58_address entry = "AFxUCuW8gF27E2WGq3uAZvr2Ym1j53QbGV"
          /\ fst (get_default_account w') = Ok entry).
Proof.
  split.
  - destruct (first_account_is_default None "pw" "salt" Example.k0 "0123456789abcdef"
                Example.w0 (@WalletData_new Example.classes)
                "AFxUCuW8gF27E2WGq3uAZvr2Ym1j53QbGV"
                ltac:(vm_compute; reflexivity) ltac:(reflexivity)
                ltac:(vm_compute; reflexivity) ltac:(constructor)) as [Hfirst _].
    destruct (Hfirst ltac:(reflexivity)) as (entry & Hget & Ha & _).
    exists entry. auto.
  - destruct (first_account_is_default None "pw" "salt" Example.k0 "0123456789abcdef"
                Sample.w_plain Sample.wallet_plain
                "AFxUCuW8gF27E2WGq3uAZvr2Ym1j53QbGV"
                ltac:(vm_compute; reflexivity) ltac:(reflexivity)
                ltac:(vm_compute; reflexivity)
                ltac:(repeat constructor; discriminate)) as [_ Hlater].
    destruct (Hlater ltac:(discriminate)) as (_ & _ & Hnone).
    destruct (Hnone ltac:(repeat constructor)) as (Hraised & entry & Ha & Hget).
    split; [exact Hraised|]. exists entry. split; [exact Ha | exact Hget].
Defined.

End samples.
